(** * Respondent distribution and annotation planning (process-pdf)

    A shallow embedding of the planning core of the PDF batch function:
    [getPagesPerRespondentBlock] and [calculateAnnotationPages]
    (utils/page-calculator.ts), [distributeRespondents] and [handler]
    (process-pdf.ts) and the stamping loop of [annotatePdf]
    (utils/pdf-annotator.ts).

    Numbers.  The code computes with IEEE 754 doubles, and its arrays
    have fewer than 2^32 elements.  The definitions of this first part
    compute on exact integers ([Z]) and on lists of any length: they are
    the arithmetic of the code wherever no sum or product exceeds 2^53 and
    no array of 2^32 elements or more is asked for.  Module [Js] gives the
    page calculator and the distributor on the numbers of the engine, with
    the rounding of doubles and the [RangeError] of [Array.from]; the
    lemmas [js_getPagesPerRespondentBlock_exact],
    [js_calculateAnnotationPages_exact] and
    [js_distributeRespondents_exact] say where the two agree.  The handler
    plans on exact integers: it is the handler of the code for a
    [pagesCount] below 2^32.  A number that comes out of [JSON.parse] may
    also be fractional: see [jsnumber]. *)

From Stdlib Require Import ZArith String Lia.
From stdpp Require Import base tactics option list list_numbers strings pretty.

Local Open Scope Z_scope.

(** ** The JavaScript primitives the code relies on *)

(** [a % b] is the remainder that takes the sign of the dividend. *)
Definition js_rem (a b : Z) : Z := Z.rem a b.

(** [Array.from({ length: len }, (_, i) => f i)]: [ToLength] turns a
    negative length into 0, the callback receives the indices 0, 1, ...
    For the limit on the length see [Js.Array_from_length]. *)
Definition Array_from_length {A} (len : Z) (f : Z → A) : list A :=
  f <$> seqZ 0 len.

(** [ToIntegerOrInfinity] followed by the clamping that [slice] applies to
    each of its two arguments: a negative index counts from the end. *)
Definition relative_index (len i : Z) : Z :=
  if i <? 0 then Z.max (len + i) 0 else Z.min i len.

(** [arr.slice(start, end)]. *)
Definition slice {A} (arr : list A) (start stop : Z) : list A :=
  let len := Z.of_nat (length arr) in
  let k := relative_index len start in
  let final := relative_index len stop in
  take (Z.to_nat (final - k)) (drop (Z.to_nat k) arr).

(** The value of [Math.ceil(a / b)] for integers [a >= 0] and [b >= 0]:
    the quotient rounded up, and [Infinity] or [NaN] when [b] is 0. *)
Inductive quotient : Type :=
  | Finite (q : Z)
  | NotFinite.

Definition Math_ceil_div (a b : Z) : quotient :=
  if b =? 0 then NotFinite else Finite (- ((- a) / b)).

(** ** utils/page-calculator.ts, on exact integers *)

Definition getPagesPerRespondentBlock (pagesPerQuestionnaire : Z) : Z :=
  let total := 2 + pagesPerQuestionnaire in
  if negb (js_rem total 2 =? 0) then total + 1 else total.

Definition calculateAnnotationPages
    (respondentIndexInPdf pagesPerQuestionnaire : Z) : list Z :=
  let pagesPerBlock := getPagesPerRespondentBlock pagesPerQuestionnaire in
  let startPageOfBlock := respondentIndexInPdf * pagesPerBlock in
  let firstAnnotationPage := startPageOfBlock + 2 in
  Array_from_length pagesPerQuestionnaire (λ i, firstAnnotationPage + i).

(** ** process-pdf.ts: the distribution plan, on exact integers *)

Record Respondent : Type := { code : string }.

Record RespondentDetail : Type := {
  detail_code : string;
  annotationPages : list Z
}.

Record PlanItem : Type := {
  pdfUrl : string;
  pdfIndex : Z;
  respondentsAssigned : Z;
  respondentCodes : list string;
  respondentDetails : list RespondentDetail
}.

(** [respondenten.slice(startIndex, endIndex)] for the two indices computed
    from [respondentsPerPdf].  With [Infinity] or [NaN] per PDF both indices
    are [Infinity] or [NaN] and the slice is empty; the callback below never
    runs in that case, as [pdfUrls] is then empty. *)
Definition respondentSlice (respondenten : list Respondent)
    (pdfIndex : Z) (respondentsPerPdf : quotient) : list Respondent :=
  match respondentsPerPdf with
  | Finite perPdf =>
      let startIndex := pdfIndex * perPdf in
      let endIndex := startIndex + perPdf in
      slice respondenten startIndex endIndex
  | NotFinite => []
  end.

Definition planDetails (respondentCodes : list string) (pagesCount : Z)
    : list RespondentDetail :=
  imap (λ respondentIndexInPdf c,
          {| detail_code := c;
             annotationPages :=
               calculateAnnotationPages (Z.of_nat respondentIndexInPdf)
                                        pagesCount |})
       respondentCodes.

Definition distributeRespondents (respondenten : list Respondent)
    (pdfUrls : list string) (pagesCount : Z) : list PlanItem :=
  let totalRespondents := Z.of_nat (length respondenten) in
  let respondentsPerPdf :=
    Math_ceil_div totalRespondents (Z.of_nat (length pdfUrls)) in
  imap (λ pdfIndex url,
          let respondentSlice :=
            respondentSlice respondenten (Z.of_nat pdfIndex) respondentsPerPdf in
          let respondentCodes := code <$> respondentSlice in
          let respondentDetails := planDetails respondentCodes pagesCount in
          {| pdfUrl := url;
             pdfIndex := Z.of_nat pdfIndex;
             respondentsAssigned := Z.of_nat (length respondentCodes);
             respondentCodes := respondentCodes;
             respondentDetails := respondentDetails |})
       pdfUrls.



From Stdlib Require Floats.PrimFloat Numbers.Cyclic.Int63.Uint63.

(** ** The planner on the numbers of the engine

    The page calculator and the distributor as the engine runs them.

    The arguments are integers that are doubles.  The operations the code
    applies to them are [+], [*], [%] and [++]; the result of each is an
    integer again, an infinity when the exponent overflows, or [NaN].  The
    sign of a zero is not kept: no operation of the code tells the two
    zeros apart. *)
Inductive number : Type :=
  | Int (z : Z)
  | Infinity (negative : bool)
  | NaN.

(** The double nearest to an integer, the one with the even significand
    when two are equally near: a double has 53 significant bits, and a
    result of 2^1024 or more is an infinity. *)
Definition roundToDouble (z : Z) : number :=
  let magnitude := Z.abs z in
  let shift := Z.log2 magnitude - 52 in
  if shift <=? 0 then Int z
  else
    let significand := magnitude / 2 ^ shift in
    let rest := magnitude mod 2 ^ shift in
    let half := 2 ^ (shift - 1) in
    let rounded :=
      if (half <? rest) || ((rest =? half) && Z.odd significand)
      then significand + 1 else significand in
    if 2 ^ 1024 <=? rounded * 2 ^ shift then Infinity (z <? 0)
    else Int (Z.sgn z * (rounded * 2 ^ shift)).

(** The doubles of the kernel, to run the rounding against: the double of
    an integer that is a double, 32 bits at a time, and the double of a
    [number]. *)
Fixpoint doubleOfNatural (limbs : nat) (magnitude : Z) : PrimFloat.float :=
  match limbs with
  | O => PrimFloat.zero
  | S limbs =>
      PrimFloat.add
        (PrimFloat.of_uint63 (Uint63.of_Z (magnitude mod 2 ^ 32)))
        (PrimFloat.mul (PrimFloat.of_uint63 (Uint63.of_Z (2 ^ 32)))
           (doubleOfNatural limbs (magnitude / 2 ^ 32)))
  end.

Definition doubleOf (z : Z) : PrimFloat.float :=
  if z <? 0 then PrimFloat.opp (doubleOfNatural 33 (Z.abs z))
  else doubleOfNatural 33 z.

Definition doubleOfNumber (n : number) : PrimFloat.float :=
  match n with
  | Int z => doubleOf z
  | Infinity negative =>
      if negative then PrimFloat.neg_infinity else PrimFloat.infinity
  | NaN => PrimFloat.nan
  end.

Module Js.
(** [a + b]: the exact sum, rounded. *)
Definition add (a b : number) : number :=
  match a, b with
  | Int x, Int y => roundToDouble (x + y)
  | Infinity s, Infinity t => if Bool.eqb s t then Infinity s else NaN
  | Infinity s, Int _ | Int _, Infinity s => Infinity s
  | NaN, _ | _, NaN => NaN
  end.

(** [a * b]: the exact product, rounded. *)
Definition mul (a b : number) : number :=
  match a, b with
  | Int x, Int y => roundToDouble (x * y)
  | Infinity s, Infinity t => Infinity (xorb s t)
  | Infinity s, Int y | Int y, Infinity s =>
      if y =? 0 then NaN else Infinity (xorb s (y <? 0))
  | NaN, _ | _, NaN => NaN
  end.

(** [a % b]: exact, with the sign of the dividend. *)
Definition rem (a b : number) : number :=
  match a, b with
  | Int x, Int y => if y =? 0 then NaN else Int (Z.rem x y)
  | Int x, Infinity _ => Int x
  | _, _ => NaN
  end.

(** [a !== b]: [NaN] differs from every number, itself included. *)
Definition strict_neq (a b : number) : bool :=
  match a, b with
  | Int x, Int y => negb (x =? y)
  | Infinity s, Infinity t => negb (Bool.eqb s t)
  | _, _ => true
  end.

(** [ToLength] on an integer. *)
Definition ToLength (len : Z) : Z :=
  if len <=? 0 then 0 else Z.min len (2 ^ 53 - 1).

(** [Array.from({ length: len }, (_, i) => f i)]: the array is created
    with the length first, and [new Array(len)] throws a [RangeError] for
    a length above 2^32 - 1. *)
Definition Array_from_length {A} (len : Z) (f : Z → A) : string + list A :=
  if 2 ^ 32 - 1 <? ToLength len then inl "Invalid array length"
  else inr (f <$> seqZ 0 (ToLength len)).

(** [array.map(f)] with a callback that may throw: the first exception
    ends the call. *)
Fixpoint collect {A} (results : list (string + A)) : string + list A :=
  match results with
  | [] => inr []
  | inl message :: _ => inl message
  | inr a :: rest =>
      match collect rest with
      | inl message => inl message
      | inr others => inr (a :: others)
      end
  end.

(** utils/page-calculator.ts *)
Definition getPagesPerRespondentBlock (pagesPerQuestionnaire : Z) : number :=
  let total := add (Int 2) (Int pagesPerQuestionnaire) in
  if strict_neq (rem total (Int 2)) (Int 0)
  then add total (Int 1) else total.

Definition calculateAnnotationPages
    (respondentIndexInPdf pagesPerQuestionnaire : Z) : string + list number :=
  let pagesPerBlock := getPagesPerRespondentBlock pagesPerQuestionnaire in
  let startPageOfBlock := mul (Int respondentIndexInPdf) pagesPerBlock in
  let firstAnnotationPage := add startPageOfBlock (Int 2) in
  Array_from_length pagesPerQuestionnaire
    (λ i, add firstAnnotationPage (Int i)).

(** The array that [calculateAnnotationPages] returns when it returns. *)
Definition annotationPagesArray
    (respondentIndexInPdf pagesPerQuestionnaire : Z) : list number :=
  match calculateAnnotationPages respondentIndexInPdf
          pagesPerQuestionnaire with
  | inl _ => []
  | inr pages => pages
  end.

(** process-pdf.ts: the distribution plan.  The slices are taken on array
    indices, which are exact. *)
Record RespondentDetail : Type := {
  detail_code : string;
  annotationPages : list number
}.

Record PlanItem : Type := {
  pdfUrl : string;
  pdfIndex : Z;
  respondentsAssigned : Z;
  respondentCodes : list string;
  respondentDetails : list RespondentDetail
}.

Definition planDetails (respondentCodes : list string) (pagesCount : Z)
    : string + list RespondentDetail :=
  collect
    (imap (λ respondentIndexInPdf c,
             match calculateAnnotationPages (Z.of_nat respondentIndexInPdf)
                     pagesCount with
             | inl message => inl message
             | inr pages =>
                 inr {| detail_code := c; annotationPages := pages |}
             end)
          respondentCodes).

Definition distributeRespondents (respondenten : list Respondent)
    (pdfUrls : list string) (pagesCount : Z) : string + list PlanItem :=
  let totalRespondents := Z.of_nat (length respondenten) in
  let respondentsPerPdf :=
    Math_ceil_div totalRespondents (Z.of_nat (length pdfUrls)) in
  collect
    (imap (λ pdfIndex url,
             let respondentSlice :=
               respondentSlice respondenten (Z.of_nat pdfIndex)
                 respondentsPerPdf in
             let respondentCodes := code <$> respondentSlice in
             match planDetails respondentCodes pagesCount with
             | inl message => inl message
             | inr respondentDetails =>
                 inr {| pdfUrl := url;
                        pdfIndex := Z.of_nat pdfIndex;
                        respondentsAssigned :=
                          Z.of_nat (length respondentCodes);
                        respondentCodes := respondentCodes;
                        respondentDetails := respondentDetails |}
             end)
          pdfUrls).

End Js.

(** A plan on exact integers as a plan of the engine. *)
Definition engineDetail (d : RespondentDetail) : Js.RespondentDetail :=
  {| Js.detail_code := detail_code d;
     Js.annotationPages := Int <$> annotationPages d |}.

Definition enginePlanItem (item : PlanItem) : Js.PlanItem :=
  {| Js.pdfUrl := pdfUrl item;
     Js.pdfIndex := pdfIndex item;
     Js.respondentsAssigned := respondentsAssigned item;
     Js.respondentCodes := respondentCodes item;
     Js.respondentDetails := engineDetail <$> respondentDetails item |}.
(** ** The request body after [JSON.parse] *)

(** A number of the request body: an integer, or any other double that
    [JSON.parse] can produce (fractional, or infinite after overflow).  The
    arithmetic on the latter is outside this development; the checks of the
    handler treat both alike. *)
Inductive jsnumber : Type :=
  | NumInt (z : Z)
  | NumOther.

#[local] Unset Elimination Schemes.
Inductive json : Type :=
  | JNull
  | JBool (b : bool)
  | JNum (n : jsnumber)
  | JStr (s : string)
  | JArr (items : list json)
  | JObj (fields : list (string * json)).
#[local] Set Elimination Schemes.

(** Of two fields with the same key the later one wins. *)
Fixpoint lookup_field (name : string) (fields : list (string * json))
    : option json :=
  match fields with
  | [] => None
  | (key, value) :: rest =>
      match lookup_field name rest with
      | Some later => Some later
      | None => if String.eqb key name then Some value else None
      end
  end.

(** [value.name] on a value that is not [null]; [None] is [undefined].
    None of the names the handler reads is a property of a string, a number,
    a boolean or an array. *)
Definition prop (value : json) (name : string) : option json :=
  match value with
  | JObj fields => lookup_field name fields
  | _ => None
  end.

(** [!value] is [negb (truthy value)]. *)
Definition truthy (value : option json) : bool :=
  match value with
  | None | Some JNull => false
  | Some (JBool b) => b
  | Some (JNum (NumInt z)) => negb (z =? 0)
  | Some (JNum NumOther) => true
  | Some (JStr s) => negb (String.eqb s "")
  | Some (JArr _) | Some (JObj _) => true
  end.

Definition as_string (value : json) : option string :=
  match value with JStr s => Some s | _ => None end.

(** [r && typeof r.code === 'string'], with the code that is read later. *)
Definition as_respondent (r : json) : option Respondent :=
  if truthy (Some r) then
    match prop r "code" with
    | Some (JStr c) => Some {| code := c |}
    | _ => None
    end
  else None.

(** ** Requests and responses *)

Inductive EventBody : Type :=
  | BodyAbsent                        (* [null], [undefined] or the empty text *)
  | BodyText (parsed : string + json) (* a text: the error or the value of [JSON.parse] *).

Record HandlerEvent : Type := {
  httpMethod : string;
  body : EventBody;
  query_debug : option string  (* [event.queryStringParameters?.debug] *)
}.

(** The body of a response, before [JSON.stringify].  Sizes are kept in
    bytes; the source prints them with [toFixed(2)] in MB or KB. *)
Inductive ResponseBody : Type :=
  | EmptyBody
  | Message (message : string)
  | DebugPlan (totalRespondents : Z) (respondentsPerPdf : quotient)
      (pagesPerQuestionnaire pagesPerRespondentBlock : Z) (plan : list PlanItem)
  | ZipTooLarge (zipLength : Z)
  | UploadFailed (error : string) (zipLength : Z)
  | Success (fileIoUrl expires : string) (respondentCount filesInZip : Z)
      (respondentsPerFile : list Z) (zipLength : Z)
  | InternalServerError (error : string).

Record Response : Type := { statusCode : Z; responseBody : ResponseBody }.

(** What a run of the handler gives: a response, or [BeyondIntegers] when
    the request passed validation with a [pagesCount] that is not an
    integer, where the plan is computed in floating point. *)
Inductive Outcome : Type :=
  | Returned (response : Response)
  | BeyondIntegers.

Record ValidRequest : Type := {
  req_pdfUrls : list string;
  req_annotate : bool;
  req_logoUrl : string;
  req_pagesCount : jsnumber;
  req_respondenten : list Respondent
}.

Definition badRequest (message : string) : Response :=
  {| statusCode := 400; responseBody := Message message |}.

(** The three validation steps of the handler on a body that is not
    [null]. *)
Definition validateBody (requestBody : json) : Response + ValidRequest :=
  let pdfUrls := prop requestBody "pdfUrls" in
  let annotate := prop requestBody "annotate" in
  let metadata := prop requestBody "metadata" in
  match (if truthy pdfUrls then
           match pdfUrls with
           | Some (JArr urls) => mapM as_string urls
           | _ => None
           end
         else None) with
  | None => inl (badRequest "Invalid 'pdfUrls': must be an array of strings.")
  | Some urls =>
      match annotate with
      | Some (JBool annotate) =>
          match (if truthy metadata then
                   match metadata with
                   | Some m =>
                       match prop m "logoUrl", prop m "pagesCount",
                             prop m "respondenten" with
                       | Some (JStr logoUrl), Some (JNum pagesCount),
                         Some (JArr rs) =>
                           match mapM as_respondent rs with
                           | Some respondenten =>
                               Some (logoUrl, pagesCount, respondenten)
                           | None => None
                           end
                       | _, _, _ => None
                       end
                   | None => None
                   end
                 else None) with
          | Some (logoUrl, pagesCount, respondenten) =>
              inr {| req_pdfUrls := urls; req_annotate := annotate;
                     req_logoUrl := logoUrl; req_pagesCount := pagesCount;
                     req_respondenten := respondenten |}
          | None => inl (badRequest "Invalid 'metadata' object or its properties.")
          end
      | _ => inl (badRequest "Invalid 'annotate': must be a boolean.")
      end
  end.

(** A body with all fields in place. *)
Definition requestBody (pdfUrls : list string) (annotate : bool)
    (logoUrl : string) (pagesCount : jsnumber) (codes : list string) : json :=
  JObj [ ("pdfUrls", JArr (JStr <$> pdfUrls));
         ("annotate", JBool annotate);
         ("metadata",
           JObj [ ("logoUrl", JStr logoUrl);
                  ("pagesCount", JNum pagesCount);
                  ("respondenten",
                    JArr ((λ c, JObj [("code", JStr c)]) <$> codes)) ]) ].

Definition postEvent (requestBody : json) (debug : option string)
    : HandlerEvent :=
  {| httpMethod := "POST"; body := BodyText (inr requestBody);
     query_debug := debug |}.

(** ** utils/pdf-annotator.ts: what is drawn where *)

Definition footerContinueText : string :=
  "Let op: de vragenlijst gaat verder op de achterkant.".
Definition footerEndText : string :=
  "Einde van de vragenlijst. Bedankt voor het invullen.".

(** One annotated page: the code, the logo when there is one, the footer. *)
Record Stamp : Type := {
  stamp_page : Z;
  stamp_code : string;
  stamp_logo : bool;
  stamp_footer : string
}.

(** [pagesToAnnotate[pagesToAnnotate.length - 1]]. *)
Definition lastPage (pagesToAnnotate : list Z) : option Z := last pagesToAnnotate.

(** The inner [forEach] of [annotatePdf], over the pages of one respondent:
    a page that the document does not have is skipped with a warning. *)
Definition stampPages (c : string) (pagesToAnnotate : list Z)
    (actualPages : Z) (logo : bool) : list Stamp :=
  omap (λ pageIndex,
          if pageIndex <? actualPages then
            let isLastPageOfRespondent :=
              bool_decide (Some pageIndex = lastPage pagesToAnnotate) in
            Some {| stamp_page := pageIndex;
                    stamp_code := c;
                    stamp_logo := logo;
                    stamp_footer :=
                      if isLastPageOfRespondent then footerEndText
                      else footerContinueText |}
          else None)
       pagesToAnnotate.

(** The outer [forEach], over the codes: the pages are computed from the
    position of the code in [respondentCodes]. *)
Definition annotationStamps (respondentCodes : list string)
    (pagesPerQuestionnaire actualPages : Z) (logo : bool) : list Stamp :=
  concat
    (imap (λ index c,
             let pagesToAnnotate :=
               calculateAnnotationPages (Z.of_nat index) pagesPerQuestionnaire in
             stampPages c pagesToAnnotate actualPages logo)
          respondentCodes).

(** The annotation step as the specification words it: the two loops run
    on the pages that are stored in the details of a plan entry, instead
    of computing them again. *)
Definition stampStoredPages (respondentDetails : list RespondentDetail)
    (actualPages : Z) (logo : bool) : list Stamp :=
  concat
    ((λ d, stampPages (detail_code d) (annotationPages d) actualPages logo)
       <$> respondentDetails).


(** ** The collaborators

    What the handler reaches through its imports: the network (download of
    a PDF or a logo, upload of the archive), the clock, pdf-lib and the
    archiver.  A rejected promise or a thrown [Error] is [inl message].
    [encodingError text] is the message of the [Error] that the Helvetica
    font throws when [text] has a character outside its encoding, in
    [drawText] and in [widthOfTextAtSize]; [getPageCount] is the length of
    the array of pages. *)
Class Collaborators : Type := {
  Buffer : Type;
  buffer_length : Buffer → Z;
  World : Type;
  downloadPdf : string → World → (string + Buffer) * World;
  downloadImage : string → World → (string + Buffer * string) * World;
  uploadToFileIo : Buffer → string → World → (string + string * string) * World;
  today : World → string;
  createZip : list (Buffer * string) → string + Buffer;
  PDFDocument : Type;
  PDFImage : Type;
  PDFDocument_load : Buffer → string + PDFDocument;
  getPageCount : PDFDocument → Z;
  embedPng : PDFDocument → Buffer → string + PDFImage;
  embedJpg : PDFDocument → Buffer → string + PDFImage;
  save : PDFDocument → option PDFImage → list Stamp → Buffer;
  encodingError : string → option string
}.

Section handler.
Context `{Collaborators}.

(** The calls that leave the handler, in the order they are made. *)
Inductive Call : Type :=
  | CallDownloadPdf (url : string)
  | CallAnnotatePdf (pdfBuffer : Buffer) (respondentCodes : list string)
      (logoUrl : string) (pagesPerQuestionnaire : Z)
  | CallDownloadImage (url : string)
  | CallCreateZip (files : list (Buffer * string))
  | CallUploadToFileIo (zipBuffer : Buffer) (filename : string).

Record State : Type := { world : World; calls : list Call }.

(** Computations that read and change the world, log their calls and may
    throw. *)
Definition Run (A : Type) : Type := State → (string + A) * State.

Definition ret {A} (a : A) : Run A := λ s, (inr a, s).

Definition throw {A} (message : string) : Run A := λ s, (inl message, s).

Definition bind {A B} (m : Run A) (k : A → Run B) : Run B := λ s,
  match m s with
  | (inr a, s') => k a s'
  | (inl message, s') => (inl message, s')
  end.

Definition try_catch {A} (m : Run A) (handle : string → Run A) : Run A := λ s,
  match m s with
  | (inr a, s') => (inr a, s')
  | (inl message, s') => handle message s'
  end.

Definition logCall (c : Call) : Run unit := λ s,
  (inr tt, {| world := world s; calls := calls s ++ [c] |}).

Definition io {A} (f : World → (string + A) * World) : Run A := λ s,
  let '(r, w) := f (world s) in (r, {| world := w; calls := calls s |}).

Definition pure_call {A} (r : string + A) : Run A := λ s, (r, s).

Definition now {A} (f : World → A) : Run A := λ s, (inr (f (world s)), s).

Notation "'let!' x ':=' m 'in' k" := (bind m (λ x, k))
  (at level 10, x name, m at level 100, k at level 200).

(** The first text of the stamps that cannot be drawn: on each page the
    code is drawn first and the footer last. *)
Definition firstEncodingError (stamps : list Stamp) : option string :=
  head (omap (λ stamp,
                match encodingError (stamp_code stamp) with
                | Some message => Some message
                | None => encodingError (stamp_footer stamp)
                end)
             stamps).

(** [annotatePdf]: a logo that cannot be fetched or embedded is left out.
    The loop over the codes computes the pages of each code with
    [calculateAnnotationPages], whose [RangeError] ends the function, and
    draws on the pages that the document has; a text that cannot be
    encoded ends the function as well.  A page that is drawn is below the
    page count of the document, where the arithmetic of doubles is exact:
    the stamps are those of [annotationStamps]. *)
Definition annotatePdf (pdfBuffer : Buffer) (respondentCodes : list string)
    (logoUrl : string) (pagesPerQuestionnaire : Z) : Run Buffer :=
  let! pdfDoc := pure_call (PDFDocument_load pdfBuffer) in
  let! logoImage :=
    try_catch
      (if negb (String.eqb logoUrl "") then
         let! _ := logCall (CallDownloadImage logoUrl) in
         let! image := io (downloadImage logoUrl) in
         let '(logoBuffer, contentType) := image in
         if String.eqb contentType "image/png" then
           let! embedded := pure_call (embedPng pdfDoc logoBuffer) in
           ret (Some embedded)
         else if String.eqb contentType "image/jpeg" then
           let! embedded := pure_call (embedJpg pdfDoc logoBuffer) in
           ret (Some embedded)
         else ret None
       else ret None)
      (λ _, ret None) in
  let actualPages := getPageCount pdfDoc in
  let! _ := pure_call (Js.planDetails respondentCodes pagesPerQuestionnaire) in
  let stamps :=
    annotationStamps respondentCodes pagesPerQuestionnaire actualPages
      (bool_decide (is_Some logoImage)) in
  match firstEncodingError stamps with
  | Some message => throw message
  | None => ret (save pdfDoc logoImage stamps)
  end.

(** One turn of the loop over the plan. *)
Definition processPlanItem (logoUrl : string) (pagesCount : Z)
    (planItem : PlanItem) (acc : list Buffer * list Z)
    : Run (list Buffer * list Z) :=
  let '(annotatedPdfBuffers, respondentsPerFile) := acc in
  try_catch
    (let! _ := logCall (CallDownloadPdf (pdfUrl planItem)) in
     let! pdfBuffer := io (downloadPdf (pdfUrl planItem)) in
     let respondentCodes := respondentCodes planItem in
     let respondentsPerFile :=
       respondentsPerFile ++ [Z.of_nat (length respondentCodes)] in
     if 0 <? Z.of_nat (length respondentCodes) then
       let! _ := logCall (CallAnnotatePdf pdfBuffer respondentCodes logoUrl pagesCount) in
       let! annotatedBuffer :=
         annotatePdf pdfBuffer respondentCodes logoUrl pagesCount in
       ret (annotatedPdfBuffers ++ [annotatedBuffer], respondentsPerFile)
     else
       ret (annotatedPdfBuffers ++ [pdfBuffer], respondentsPerFile))
    (λ message,
       throw ("Failed to process PDF from " +:+ pdfUrl planItem
              +:+ ". Reason: " +:+ message)).

Fixpoint processPlan (logoUrl : string) (pagesCount : Z)
    (distributionPlan : list PlanItem) (acc : list Buffer * list Z)
    : Run (list Buffer * list Z) :=
  match distributionPlan with
  | [] => ret acc
  | planItem :: rest =>
      let! acc' := processPlanItem logoUrl pagesCount planItem acc in
      processPlan logoUrl pagesCount rest acc'
  end.

Definition filesToZip (annotatedPdfBuffers : list Buffer)
    : list (Buffer * string) :=
  imap (λ index buffer,
          (buffer, "batch_" +:+ pretty (Z.of_nat index + 1) +:+ ".pdf"))
       annotatedPdfBuffers.

Definition TWO_GB : Z := 2 * 1024 * 1024 * 1024.

(** Steps 1 to 5 of the handler. *)
Definition processLive (request : ValidRequest) (pagesCount : Z)
    (distributionPlan : list PlanItem) : Run Response :=
  let! processed := processPlan (req_logoUrl request) pagesCount
                distributionPlan ([], []) in
  let '(annotatedPdfBuffers, respondentsPerFile) := processed in
  let! _ := logCall (CallCreateZip (filesToZip annotatedPdfBuffers)) in
  let! zipBuffer := pure_call (createZip (filesToZip annotatedPdfBuffers)) in
  if TWO_GB <? buffer_length zipBuffer then
    ret {| statusCode := 413;
           responseBody := ZipTooLarge (buffer_length zipBuffer) |}
  else
    try_catch
      (let! date := now today in
       let filename := "respondenten_" +:+ date +:+ ".zip" in
       let! _ := logCall (CallUploadToFileIo zipBuffer filename) in
       let! uploadResult := io (uploadToFileIo zipBuffer filename) in
       let '(url, expires) := uploadResult in
       ret {| statusCode := 200;
              responseBody :=
                Success url expires
                  (Z.of_nat (length (req_respondenten request)))
                  (Z.of_nat (length annotatedPdfBuffers))
                  respondentsPerFile (buffer_length zipBuffer) |})
      (λ message,
         ret {| statusCode := 500;
                responseBody :=
                  UploadFailed message (buffer_length zipBuffer) |}).

(** The [try] block of the handler.  The plan is computed on exact
    integers.  From 2^32 pages per questionnaire on, the distributor of
    the code throws as soon as a slice has a code
    ([Js.distributeRespondents]), which the handler answers with a 500;
    below 2^32 pages this is the handler of the code. *)
Definition handlerTry (event : HandlerEvent) : Run Outcome :=
  match body event with
  | BodyAbsent => ret (Returned (badRequest "Request body is missing."))
  | BodyText parsed =>
      let! requestBody := pure_call parsed in
      match requestBody with
      | JNull => throw "Cannot destructure property 'pdfUrls' of 'body' as it is null."
      | _ =>
          match validateBody requestBody with
          | inl failure => ret (Returned failure)
          | inr request =>
              match req_pagesCount request with
              | NumOther => ret BeyondIntegers
              | NumInt pagesCount =>
                  let distributionPlan :=
                    distributeRespondents (req_respondenten request)
                      (req_pdfUrls request) pagesCount in
                  if bool_decide (query_debug event = Some "true") then
                    ret (Returned
                      {| statusCode := 200;
                         responseBody :=
                           DebugPlan
                             (Z.of_nat (length (req_respondenten request)))
                             (Math_ceil_div
                                (Z.of_nat (length (req_respondenten request)))
                                (Z.of_nat (length (req_pdfUrls request))))
                             pagesCount
                             (getPagesPerRespondentBlock pagesCount)
                             distributionPlan |})
                  else
                    let! response := processLive request pagesCount distributionPlan in
                    ret (Returned response)
              end
          end
      end
  end.

Definition handler (event : HandlerEvent) (s : State) : Outcome * State :=
  if String.eqb (httpMethod event) "OPTIONS" then
    (Returned {| statusCode := 204; responseBody := EmptyBody |}, s)
  else if negb (String.eqb (httpMethod event) "POST") then
    (Returned {| statusCode := 405;
                 responseBody := Message "Method Not Allowed" |}, s)
  else
    match handlerTry event s with
    | (inr outcome, s') => (outcome, s')
    | (inl message, s') =>
        (Returned {| statusCode := 500;
                     responseBody := InternalServerError message |}, s')
    end.

(** Classes of calls, for statements about what a run does not do. *)
Definition isUpload (c : Call) : bool :=
  match c with CallUploadToFileIo _ _ => true | _ => false end.

(** The calls of the loop over the plan; the annotator is only called
    with codes. *)
Definition isLoopCall (c : Call) : bool :=
  match c with
  | CallDownloadPdf _ | CallDownloadImage _ => true
  | CallAnnotatePdf _ respondentCodes _ _ =>
      bool_decide (respondentCodes ≠ [])
  | CallCreateZip _ | CallUploadToFileIo _ _ => false
  end.
End handler.

(** The sum of [respondentsPerFile]. *)
Definition sumZ (numbers : list Z) : Z := foldr Z.add 0 numbers.


(** ** A small world to run the handler in

    Buffers are described by a name and a size; every download succeeds,
    [huge.pdf] is 3 GiB, and a document has as many pages as its size says
    (one page per 100 bytes).  Every text can be drawn. *)
Module Demo.
Record buffer : Type := { name : string; size : Z }.

Definition download (url : string) (w : unit) : (string + buffer) * unit :=
  (inr {| name := url;
          size := if String.eqb url "huge.pdf"
                  then 3 * 1024 * 1024 * 1024 else 1200 |}, w).

Definition zip (files : list (buffer * string)) : string + buffer :=
  inr {| name := "archive";
         size := foldr (λ file total, size file.1 + total) 22 files |}.

Definition upload (zipBuffer : buffer) (filename : string) (w : unit)
    : (string + string * string) * unit :=
  (inr ("https://file.io/" +:+ filename, "14d"), w).

Definition collaborators : Collaborators :=
  {| Buffer := buffer;
     buffer_length := size;
     World := unit;
     downloadPdf := download;
     downloadImage := λ url w, (inl "no logo", w);
     uploadToFileIo := upload;
     today := λ _, "2024-12-31";
     createZip := zip;
     PDFDocument := buffer;
     PDFImage := unit;
     PDFDocument_load := inr;
     getPageCount := λ doc, size doc / 100;
     embedPng := λ _ _, inr ();
     embedJpg := λ _ _, inr ();
     save := λ doc logo stamps,
       {| name := name doc +:+ " annotated";
          size := size doc + Z.of_nat (length stamps) |};
     encodingError := λ _, None |}.

Definition file (name : string) (size : Z) : @Buffer collaborators :=
  {| name := name; size := size |}.

Definition start : State (H:=collaborators) :=
  {| world := (tt : @World collaborators); calls := [] |}.
End Demo.


(** ** A world in which things go wrong

    [missing.pdf] cannot be downloaded and [broken.pdf] cannot be loaded by
    pdf-lib; the archiver and the uploader work or fail as the two flags
    say.  Only the texts in ASCII can be drawn.  The world counts the
    requests that were sent. *)
Definition isAscii (text : string) : bool :=
  forallb (λ a, (Ascii.N_of_ascii a <? 128)%N) (String.list_ascii_of_string text).

Module Flaky.
Definition download (url : string) (sent : nat)
    : (string + Demo.buffer) * nat :=
  (if String.eqb url "missing.pdf"
   then inl "Failed to download PDF from missing.pdf: Request failed with status code 404"
   else inr {| Demo.name := url; Demo.size := 1200 |}, S sent).

Definition load (pdfBuffer : Demo.buffer) : string + Demo.buffer :=
  if String.eqb (Demo.name pdfBuffer) "broken.pdf"
  then inl "No PDF header found" else inr pdfBuffer.

Definition collaborators (zipWorks uploadWorks : bool) : Collaborators :=
  {| Buffer := Demo.buffer;
     buffer_length := Demo.size;
     World := nat;
     downloadPdf := download;
     downloadImage := λ url sent, (inl "Failed to download image: timeout", S sent);
     uploadToFileIo := λ zipBuffer filename sent,
       (if uploadWorks then inr ("https://file.io/abc", "14d")
        else inl "Failed to upload to file.io: Network Error", S sent);
     today := λ _, "2024-12-31";
     createZip := λ files,
       if zipWorks then Demo.zip files else inl "archive failed";
     PDFDocument := Demo.buffer;
     PDFImage := unit;
     PDFDocument_load := load;
     getPageCount := λ doc, Demo.size doc / 100;
     embedPng := λ _ _, inr ();
     embedJpg := λ _ _, inr ();
     save := λ doc logo stamps,
       {| Demo.name := Demo.name doc +:+ " annotated";
          Demo.size := Demo.size doc + Z.of_nat (length stamps) |};
     encodingError := λ text,
       if isAscii text then None else Some "WinAnsi cannot encode" |}.

Definition file (zipWorks uploadWorks : bool) (name : string) (size : Z)
    : @Buffer (collaborators zipWorks uploadWorks) :=
  {| Demo.name := name; Demo.size := size |}.

Definition start (zipWorks uploadWorks : bool)
    : State (H:=collaborators zipWorks uploadWorks) :=
  {| world := (0%nat : @World (collaborators zipWorks uploadWorks));
     calls := [] |}.
End Flaky.

(** ** The test endpoint (test-calculations)

    For each scenario: the block size, the number of pages that a PDF with
    that many respondents is expected to have, and the pages to annotate
    per respondent. *)
Record Scenario : Type := {
  title : string;
  respondents : Z;
  pages : Z
}.

Record BreakdownItem : Type := {
  respondentIndexInPdf : Z;
  breakdown_annotationPages : list Z
}.

Record ScenarioResult : Type := {
  scenario : string;
  pagesPerRespondentBlock : Z;
  totalExpectedPdfPages : Z;
  breakdown : list BreakdownItem
}.

Definition scenarioResult (sc : Scenario) : ScenarioResult :=
  let pagesPerBlock := getPagesPerRespondentBlock (pages sc) in
  let breakdown :=
    Array_from_length (respondents sc)
      (λ i, {| respondentIndexInPdf := i;
               breakdown_annotationPages :=
                 calculateAnnotationPages i (pages sc) |}) in
  {| scenario := title sc;
     pagesPerRespondentBlock := pagesPerBlock;
     totalExpectedPdfPages := pagesPerBlock * respondents sc;
     breakdown := breakdown |}.

Definition scenarios : list Scenario :=
  [ {| title := "2 respondents, 4 questionnaire pages";
       respondents := 2; pages := 4 |};
    {| title := "3 respondents, 5 questionnaire pages";
       respondents := 3; pages := 5 |};
    {| title := "1 respondent, 3 questionnaire pages";
       respondents := 1; pages := 3 |} ].

(** The handler of the test endpoint: status and, but for a preflight
    request, the results of the scenarios. *)
Definition testCalculations (httpMethod : string)
    : Z * option (list ScenarioResult) :=
  if String.eqb httpMethod "OPTIONS" then (204, None)
  else (200, Some (scenarioResult <$> scenarios)).

From Stdlib Require Import Ascii.

(** ** The helpers of utils: downloads and the upload

    axios, the URL parser and [JSON.stringify] are taken as they come.  A
    request answers with a response or throws; what is thrown is an error
    of axios (with the message of the response body, when there is one),
    another [Error], or a value that is not an [Error]. *)
Inductive Thrown : Type :=
  | AxiosError (message : string) (responseMessage : option string)
  | PlainError (message : string)
  | NotAnError.

Record AxiosResponse (Data : Type) : Type := {
  status : Z;
  content_type : option string;  (* [response.headers['content-type']] *)
  data : Data
}.
Arguments status {Data} _.
Arguments content_type {Data} _.
Arguments data {Data} _.

Record FileIoResponse : Type := {
  success : bool;
  key : string;
  link : string;
  expiry : string
}.

Class Axios : Type := {
  Net : Type;
  axios_get : string → Net → (Thrown + AxiosResponse (list Z)) * Net;
  axios_post_form :
    string → list Z → string → string → Net →
    (Thrown + AxiosResponse FileIoResponse) * Net;
  (** [new URL(url)]: the protocol and the hostname, or [None] when the
      constructor throws. *)
  URL_parse : string → option (string * string);
  JSON_stringify : FileIoResponse → string
}.

Module Utils.
Section utils.
Context `{Axios}.

(** utils/pdf-downloader.ts *)
Definition downloadPdf (url : string) (net : Net) : (string + list Z) * Net :=
  let '(answer, net') := axios_get url net in
  let attempt : Thrown + list Z :=
    match answer with
    | inl thrown => inl thrown
    | inr response =>
        if negb (status response =? 200) then
          inl (PlainError ("Failed to download PDF from " +:+ url
                           +:+ ". Status code: " +:+ pretty (status response)))
        else inr (data response)
    end in
  (match attempt with
   | inr buffer => inr buffer
   | inl (AxiosError message _) =>
       inl ("Failed to download PDF from " +:+ url +:+ ": " +:+ message)
   | inl _ =>
       inl ("An unknown error occurred while downloading the PDF from "
            +:+ url +:+ ".")
   end, net').

(** utils/image-downloader.ts *)

(** [/^172\.(1[6-9]|2[0-9]|3[0-1])\./] *)
Definition matchesPrivate172 (hostname : string) : bool :=
  String.prefix "172." hostname
  && match String.get 4 hostname, String.get 5 hostname,
           String.get 6 hostname with
     | Some d1, Some d2, Some dot =>
         (Ascii.eqb d1 "1"%char && Ascii.leb "6"%char d2 && Ascii.leb d2 "9"%char
          || Ascii.eqb d1 "2"%char && Ascii.leb "0"%char d2 && Ascii.leb d2 "9"%char
          || Ascii.eqb d1 "3"%char && Ascii.leb "0"%char d2 && Ascii.leb d2 "1"%char)
         && Ascii.eqb dot "."%char
     | _, _, _ => false
     end.

Definition isPrivateHost (hostname : string) : bool :=
  String.eqb hostname "localhost"
  || String.prefix "127." hostname
  || String.prefix "192.168." hostname
  || String.prefix "10." hostname
  || matchesPrivate172 hostname.

Definition pngMagic : list Z := [137; 80; 78; 71; 13; 10; 26; 10].
Definition jpegMagic : list Z := [255; 216; 255].

Definition isPng (buffer : list Z) : bool :=
  (8 <=? length buffer)%nat && bool_decide (take 8 buffer = pngMagic).
Definition isJpeg (buffer : list Z) : bool :=
  (3 <=? length buffer)%nat && bool_decide (take 3 buffer = jpegMagic).

Definition downloadImage (url : string) (net : Net)
    : (string + list Z * string) * Net :=
  match URL_parse url with
  | None => (inl "Invalid URL format", net)
  | Some (protocol, hostname) =>
      if negb (bool_decide (protocol ∈ ["http:"; "https:"])) then
        (inl "Only HTTP and HTTPS URLs are allowed", net)
      else if isPrivateHost hostname then
        (inl "Requests to private IP addresses are not allowed", net)
      else
        let '(answer, net') := axios_get url net in
        let attempt : Thrown + list Z * string :=
          match answer with
          | inl thrown => inl thrown
          | inr response =>
              if negb (status response =? 200) then
                inl (PlainError ("Failed to download image. Status code: "
                                 +:+ pretty (status response)))
              else
                match content_type response with
                | Some contentType =>
                    if bool_decide
                         (contentType ∈ ["image/png"; "image/jpeg"]) then
                      let buffer := data response in
                      if String.eqb contentType "image/png"
                         && negb (isPng buffer) then
                        inl (PlainError "File content does not match PNG format despite content-type header")
                      else if String.eqb contentType "image/jpeg"
                              && negb (isJpeg buffer) then
                        inl (PlainError "File content does not match JPEG format despite content-type header")
                      else inr (buffer, contentType)
                    else
                      inl (PlainError ("Unsupported content-type: '"
                                       +:+ contentType
                                       +:+ "'. Only PNG and JPEG are supported."))
                | None =>
                    inl (PlainError ("Unsupported content-type: '"
                                     +:+ "undefined"
                                     +:+ "'. Only PNG and JPEG are supported."))
                end
          end in
        (match attempt with
         | inr image => inr image
         | inl (AxiosError message _) =>
             inl ("Failed to download image: " +:+ message)
         | inl (PlainError message) =>
             inl ("An unknown error occurred while downloading the image: "
                  +:+ message)
         | inl NotAnError =>
             inl "An unknown error occurred while downloading the image."
         end, net')
  end.

(** utils/file-io-uploader.ts *)
Definition uploadToFileIo (zipBuffer : list Z) (filename : string) (net : Net)
    : (string + string * string) * Net :=
  let '(answer, net') :=
    axios_post_form "https://file.io/" zipBuffer filename "14d" net in
  let attempt : Thrown + string * string :=
    match answer with
    | inl thrown => inl thrown
    | inr response =>
        if negb (success (data response)) then
          inl (PlainError ("file.io returned an error: "
                           +:+ JSON_stringify (data response)))
        else inr (link (data response), expiry (data response))
    end in
  (match attempt with
   | inr result => inr result
   | inl (AxiosError message responseMessage) =>
       inl ("Failed to upload to file.io: "
            +:+ match responseMessage with
                | Some fromBody =>
                    if String.eqb fromBody "" then message else fromBody
                | None => message
                end)
   | inl (PlainError message) =>
       inl ("An unknown error occurred during file upload: " +:+ message)
   | inl NotAnError => inl "An unknown error occurred during file upload."
   end, net').
End utils.
End Utils.

(** The libraries that the handler needs besides axios: the clock, the
    archiver and pdf-lib. *)
Class Libraries : Type := {
  libraries_axios :: Axios;
  clock_today : Net → string;
  archiver : list (list Z * string) → string + list Z;
  PdfLibDocument : Type;
  PdfLibImage : Type;
  pdflib_load : list Z → string + PdfLibDocument;
  pdflib_getPageCount : PdfLibDocument → Z;
  pdflib_embedPng : PdfLibDocument → list Z → string + PdfLibImage;
  pdflib_embedJpg : PdfLibDocument → list Z → string + PdfLibImage;
  pdflib_save : PdfLibDocument → option PdfLibImage → list Stamp → list Z;
  pdflib_encodingError : string → option string
}.

(** The handler's collaborators when the helpers are the ones of utils. *)
Definition utilsCollaborators `{Libraries} : Collaborators :=
  {| Buffer := list Z;
     buffer_length := λ buffer, Z.of_nat (length buffer);
     World := Net;
     downloadPdf := Utils.downloadPdf;
     downloadImage := Utils.downloadImage;
     uploadToFileIo := Utils.uploadToFileIo;
     today := clock_today;
     createZip := archiver;
     PDFDocument := PdfLibDocument;
     PDFImage := PdfLibImage;
     PDFDocument_load := pdflib_load;
     getPageCount := pdflib_getPageCount;
     embedPng := pdflib_embedPng;
     embedJpg := pdflib_embedJpg;
     save := pdflib_save;
     encodingError := pdflib_encodingError |}.

(** ** A small network to run the helpers in

    One host serves a logo, a page that claims to be a PNG, a PDF and an
    empty answer; everything else is a 404.  The network counts the
    requests that were sent. *)
Module Lab.
Definition parse (url : string) : option (string * string) :=
  if String.prefix "https://cdn.example/" url then Some ("https:", "cdn.example")
  else if String.prefix "http://172.20.0.1/" url then Some ("http:", "172.20.0.1")
  else if String.prefix "ftp://cdn.example/" url then Some ("ftp:", "cdn.example")
  else None.

Definition get (url : string) (sent : nat)
    : (Thrown + AxiosResponse (list Z)) * nat :=
  (if String.eqb url "https://cdn.example/logo.png" then
     inr {| status := 200; content_type := Some "image/png";
            data := [137; 80; 78; 71; 13; 10; 26; 10; 0; 1] |}
   else if String.eqb url "https://cdn.example/fake.png" then
     inr {| status := 200; content_type := Some "image/png";
            data := [60; 104; 116; 109; 108; 62] |}
   else if String.eqb url "https://cdn.example/a.pdf" then
     inr {| status := 200; content_type := Some "application/pdf";
            data := [37; 80; 68; 70; 45] |}
   else if String.eqb url "https://cdn.example/empty.pdf" then
     inr {| status := 204; content_type := None; data := [] |}
   else inl (AxiosError "Request failed with status code 404" None),
   S sent).

Definition post (url : string) (file : list Z) (filename expires : string)
    (sent : nat) : (Thrown + AxiosResponse FileIoResponse) * nat :=
  (if String.eqb filename "refused.zip" then
     inr {| status := 200; content_type := Some "application/json";
            data := {| success := false; key := ""; link := "";
                       expiry := "" |} |}
   else
     inr {| status := 200; content_type := Some "application/json";
            data := {| success := true; key := "abc";
                       link := "https://file.io/abc";
                       expiry := expires |} |},
   S sent).

Definition axios : Axios :=
  {| Net := nat;
     axios_get := get;
     axios_post_form := post;
     URL_parse := parse;
     JSON_stringify := λ response,
       if success response then "{success:true}" else "{success:false}" |}.

Definition libraries : Libraries :=
  {| libraries_axios := axios;
     clock_today := λ _, "2024-12-31";
     archiver := λ files, inr (concat (fst <$> files));
     PdfLibDocument := list Z;
     PdfLibImage := list Z;
     pdflib_load := λ buffer,
       if bool_decide (take 4 buffer = [37; 80; 68; 70]) then inr buffer
       else inl "No PDF header found";
     pdflib_getPageCount := λ _, 12;
     pdflib_embedPng := λ _ image, inr image;
     pdflib_embedJpg := λ _ image, inr image;
     pdflib_save := λ doc logo stamps, doc ++ (stamp_page <$> stamps);
     pdflib_encodingError := λ text,
       if isAscii text then None else Some "WinAnsi cannot encode" |}.

Definition file (bytes : list Z)
    : @Buffer (utilsCollaborators (H:=libraries)) := bytes.

Definition start : State (H:=utilsCollaborators (H:=libraries)) :=
  {| world := (0%nat : @World (utilsCollaborators (H:=libraries)));
     calls := [] |}.
End Lab.
(** * Properties of the page calculator *)

Lemma js_rem_2_cases (z : Z) :
  js_rem z 2 = 0 ∧ Z.even z = true ∨ js_rem z 2 ≠ 0 ∧ Z.even z = false.
Proof.
  unfold js_rem. destruct (Z.even z) eqn:He.
  - left. split; [|done]. apply Z.even_spec in He as [k ->].
    rewrite Z.mul_comm. apply Z.rem_mul. lia.
  - right. split; [|done]. intros Hr.
    assert (z = 2 * Z.quot z 2) as Hz.
    { pose proof (Z.quot_rem' z 2). lia. }
    rewrite Hz, Z.even_mul in He. done.
Qed.

Lemma getPagesPerRespondentBlock_even_arg (p : Z) :
  Z.even p = true → getPagesPerRespondentBlock p = p + 2.
Proof.
  intros Hp. unfold getPagesPerRespondentBlock. cbv zeta.
  destruct (js_rem_2_cases (2 + p)) as [[Hr He]|[Hr He]].
  - rewrite Hr. simpl. lia.
  - rewrite Z.even_add, Hp in He. done.
Qed.

Lemma getPagesPerRespondentBlock_odd_arg (p : Z) :
  Z.even p = false → getPagesPerRespondentBlock p = p + 3.
Proof.
  intros Hp. unfold getPagesPerRespondentBlock. cbv zeta.
  destruct (js_rem_2_cases (2 + p)) as [[Hr He]|[Hr He]].
  - rewrite Z.even_add, Hp in He. done.
  - apply Z.eqb_neq in Hr. rewrite Hr. simpl. lia.
Qed.

Lemma getPagesPerRespondentBlock_is_even (p : Z) :
  Z.even (getPagesPerRespondentBlock p) = true.
Proof.
  destruct (Z.even p) eqn:Hp.
  - rewrite getPagesPerRespondentBlock_even_arg by done.
    rewrite Z.even_add, Hp. done.
  - rewrite getPagesPerRespondentBlock_odd_arg by done.
    rewrite Z.even_add, Hp. done.
Qed.

Lemma getPagesPerRespondentBlock_lower (p : Z) :
  p + 2 ≤ getPagesPerRespondentBlock p.
Proof.
  destruct (Z.even p) eqn:Hp.
  - rewrite getPagesPerRespondentBlock_even_arg by done. lia.
  - rewrite getPagesPerRespondentBlock_odd_arg by done. lia.
Qed.

Lemma calculateAnnotationPages_seqZ (i p : Z) :
  calculateAnnotationPages i p
  = seqZ (i * getPagesPerRespondentBlock p + 2) p.
Proof.
  unfold calculateAnnotationPages, Array_from_length. cbv zeta.
  change (Z.add (i * getPagesPerRespondentBlock p + 2) <$> seqZ 0 p
          = seqZ (i * getPagesPerRespondentBlock p + 2) p).
  rewrite fmap_add_seqZ. f_equal. lia.
Qed.

Lemma calculateAnnotationPages_lookup (i p : Z) (k : nat) (x : Z) :
  calculateAnnotationPages i p !! k = Some x
  ↔ x = i * getPagesPerRespondentBlock p + 2 + Z.of_nat k ∧ Z.of_nat k < p.
Proof. rewrite calculateAnnotationPages_seqZ. apply lookup_seqZ. Qed.

Lemma calculateAnnotationPages_length (i p : Z) :
  length (calculateAnnotationPages i p) = Z.to_nat p.
Proof. rewrite calculateAnnotationPages_seqZ. apply length_seqZ. Qed.

Lemma calculateAnnotationPages_nonpos (i p : Z) :
  p ≤ 0 → calculateAnnotationPages i p = [].
Proof. intros Hp. rewrite calculateAnnotationPages_seqZ. by apply seqZ_nil. Qed.

(** The pages of a respondent lie inside the respondent's own block, after
    the cover letter and the blank page. *)
Lemma calculateAnnotationPages_in_block (i p x : Z) :
  0 ≤ i → x ∈ calculateAnnotationPages i p →
  i * getPagesPerRespondentBlock p + 2 ≤ x
  < (i + 1) * getPagesPerRespondentBlock p.
Proof.
  intros Hi [k Hk]%list_elem_of_lookup.
  apply calculateAnnotationPages_lookup in Hk as [-> Hk].
  pose proof (getPagesPerRespondentBlock_lower p). nia.
Qed.

(** The scenarios of the test endpoint. *)
Example scenario_4_pages :
  getPagesPerRespondentBlock 4 = 6
  ∧ calculateAnnotationPages 0 4 = [2; 3; 4; 5]
  ∧ calculateAnnotationPages 1 4 = [8; 9; 10; 11].
Proof. done. Qed.

Example scenario_3_pages :
  getPagesPerRespondentBlock 3 = 6 ∧ calculateAnnotationPages 0 3 = [2; 3; 4].
Proof. done. Qed.

(** * Properties of the distributor *)

Section slices.
Context {A : Type}.
Implicit Types (arr : list A).

(** On indices that are not negative, [slice] is [drop] then [take]. *)
Lemma slice_take_drop arr (start len : Z) :
  0 ≤ start → 0 ≤ len →
  slice arr start (start + len)
  = take (Z.to_nat len) (drop (Z.to_nat start) arr).
Proof.
  intros Hs Hl. unfold slice, relative_index. cbv zeta.
  destruct (Z.ltb_spec start 0) as [?|_]; [lia|].
  destruct (Z.ltb_spec (start + len) 0) as [?|_]; [lia|].
  destruct (Z.le_gt_cases (Z.of_nat (length arr)) start) as [Hge|Hlt].
  - rewrite !Z.min_r by lia. rewrite Z.sub_diag. simpl.
    rewrite (drop_ge arr (Z.to_nat start)) by lia. by rewrite take_nil.
  - rewrite (Z.min_l start) by lia.
    destruct (Z.le_gt_cases (start + len) (Z.of_nat (length arr))).
    + rewrite Z.min_l by lia. do 2 f_equal. lia.
    + rewrite Z.min_r by lia.
      rewrite !take_ge; [done|rewrite length_drop; lia..].
Qed.

(** Consecutive chunks of the same size add up to a prefix. *)
Lemma concat_chunks {B} (f : A → B) arr (size count : nat) :
  concat ((λ i, f <$> take size (drop (i * size) arr)) <$> seq 0 count)
  = f <$> take (count * size) arr.
Proof.
  induction count as [|count IH]; [done|].
  rewrite seq_S, fmap_app, concat_app, IH. simpl.
  rewrite app_nil_r, <- fmap_app, take_take_drop.
  do 2 f_equal. lia.
Qed.
End slices.

(** [Math.ceil(a / b)] for a divisor that is not 0. *)
Lemma Math_ceil_div_spec (a b : Z) :
  0 ≤ a → 0 < b →
  ∃ q, Math_ceil_div a b = Finite q ∧ 0 ≤ q ∧ a ≤ b * q < a + b.
Proof.
  intros Ha Hb. unfold Math_ceil_div.
  destruct (Z.eqb_spec b 0) as [?|_]; [lia|].
  eexists; split; [done|].
  pose proof (Z.mul_div_le (- a) b Hb).
  pose proof (Z.mul_succ_div_gt (- a) b Hb). nia.
Qed.

Lemma respondentSlice_take_drop (respondenten : list Respondent)
    (i : nat) (q : Z) :
  0 ≤ q →
  respondentSlice respondenten (Z.of_nat i) (Finite q)
  = take (Z.to_nat q) (drop (i * Z.to_nat q) respondenten).
Proof.
  intros Hq. unfold respondentSlice. cbv zeta.
  rewrite slice_take_drop by lia. do 2 f_equal. lia.
Qed.

Lemma distributeRespondents_length respondenten pdfUrls pagesCount :
  length (distributeRespondents respondenten pdfUrls pagesCount)
  = length pdfUrls.
Proof. unfold distributeRespondents. by rewrite length_imap. Qed.

Lemma distributeRespondents_lookup respondenten pdfUrls pagesCount i item :
  distributeRespondents respondenten pdfUrls pagesCount !! i = Some item →
  ∃ url codes,
    pdfUrls !! i = Some url
    ∧ codes = code <$> respondentSlice respondenten (Z.of_nat i)
                (Math_ceil_div (Z.of_nat (length respondenten))
                               (Z.of_nat (length pdfUrls)))
    ∧ item = {| pdfUrl := url; pdfIndex := Z.of_nat i;
                respondentsAssigned := Z.of_nat (length codes);
                respondentCodes := codes;
                respondentDetails := planDetails codes pagesCount |}.
Proof.
  unfold distributeRespondents. rewrite list_lookup_imap.
  destruct (pdfUrls !! i) as [url|]; [|done].
  intros [= <-]. by eexists _, _.
Qed.

Lemma distributeRespondents_codes respondenten pdfUrls pagesCount :
  respondentCodes <$> distributeRespondents respondenten pdfUrls pagesCount
  = (λ i, code <$> respondentSlice respondenten (Z.of_nat i)
            (Math_ceil_div (Z.of_nat (length respondenten))
                           (Z.of_nat (length pdfUrls))))
    <$> seq 0 (length pdfUrls).
Proof.
  unfold distributeRespondents. rewrite fmap_imap.
  by rewrite <- imap_seq_0.
Qed.

Lemma distributeRespondents_concat respondenten pdfUrls pagesCount :
  pdfUrls ≠ [] →
  concat (respondentCodes
            <$> distributeRespondents respondenten pdfUrls pagesCount)
  = code <$> respondenten.
Proof.
  intros Hne. rewrite distributeRespondents_codes.
  assert (0 < length pdfUrls)%nat as Hn by (destruct pdfUrls; [done|simpl; lia]).
  destruct (Math_ceil_div_spec (Z.of_nat (length respondenten))
              (Z.of_nat (length pdfUrls))) as (q & -> & Hq & Hlo & _); [lia..|].
  erewrite (list_fmap_ext _ _ (seq 0 (length pdfUrls))); last first.
  { intros _ i _. by rewrite respondentSlice_take_drop. }
  rewrite (concat_chunks code). rewrite take_ge; [done|nia].
Qed.

Lemma distributeRespondents_pdfUrl respondenten pdfUrls pagesCount :
  pdfUrl <$> distributeRespondents respondenten pdfUrls pagesCount = pdfUrls.
Proof.
  unfold distributeRespondents. rewrite fmap_imap.
  rewrite <- (list_fmap_id pdfUrls) at 2. by rewrite <- imap_const.
Qed.

Lemma distributeRespondents_pdfIndex respondenten pdfUrls pagesCount :
  pdfIndex <$> distributeRespondents respondenten pdfUrls pagesCount
  = seqZ 0 (Z.of_nat (length pdfUrls)).
Proof.
  unfold distributeRespondents. rewrite fmap_imap.
  unfold seqZ. rewrite Nat2Z.id.
  etrans; [apply (imap_seq_0 pdfUrls Z.of_nat)|].
  apply list_fmap_ext. intros _ i _. lia.
Qed.

(** An entry whose slice starts at or after the end of the list is empty. *)
Lemma distributeRespondents_trailing respondenten pdfUrls pagesCount i :
  (length respondenten ≤ i < length pdfUrls)%nat →
  ∃ item,
    distributeRespondents respondenten pdfUrls pagesCount !! i = Some item
    ∧ pdfIndex item = Z.of_nat i
    ∧ respondentCodes item = []
    ∧ respondentDetails item = [].
Proof.
  intros Hi.
  destruct (lookup_lt_is_Some_2
              (distributeRespondents respondenten pdfUrls pagesCount) i)
    as [item Hitem]; [rewrite distributeRespondents_length; lia|].
  exists item. split; [done|].
  apply distributeRespondents_lookup in Hitem as (url & codes & _ & Hc & ->).
  simpl. destruct (Math_ceil_div_spec (Z.of_nat (length respondenten))
              (Z.of_nat (length pdfUrls))) as (q & Hq & Hq0 & Hlo & Hhi); [lia..|].
  rewrite Hq, respondentSlice_take_drop in Hc by done.
  assert (codes = []) as ->; [|done].
  subst codes. destruct (decide (q = 0)) as [->|Hne]; [done|].
  rewrite drop_ge; [by rewrite take_nil|]. nia.
Qed.

(** Two respondents over three PDFs: the third entry is in the plan, with
    no codes. *)
Example scenario_2_respondents_3_pdfs :
  respondentCodes
    <$> distributeRespondents [ {| code := "R1" |}; {| code := "R2" |} ]
          [ "a.pdf"; "b.pdf"; "c.pdf" ]%string 4
  = [ ["R1"]; ["R2"]; [] ]%string.
Proof. done. Qed.

Lemma planDetails_lookup (codes : list string) (pagesCount : Z)
    (k : nat) (d : RespondentDetail) :
  planDetails codes pagesCount !! k = Some d
  ↔ ∃ c, codes !! k = Some c
         ∧ d = {| detail_code := c;
                  annotationPages :=
                    calculateAnnotationPages (Z.of_nat k) pagesCount |}.
Proof.
  unfold planDetails. rewrite list_lookup_imap.
  destruct (codes !! k) as [c|]; simpl.
  - split; [intros [= <-]; by eexists|intros (? & [= <-] & ->); done].
  - split; [done|intros (? & ? & _); done].
Qed.

Lemma distributeRespondents_details respondenten pdfUrls pagesCount item :
  item ∈ distributeRespondents respondenten pdfUrls pagesCount →
  respondentDetails item = planDetails (respondentCodes item) pagesCount.
Proof.
  intros [i Hi]%list_elem_of_lookup.
  by apply distributeRespondents_lookup in Hi as (url & codes & _ & _ & ->).
Qed.

(** Planner results at different indices differ as soon as there is a page
    to annotate. *)
Lemma calculateAnnotationPages_inj (i j p : Z) :
  0 < p → calculateAnnotationPages i p = calculateAnnotationPages j p → i = j.
Proof.
  intros Hp Heq.
  assert (calculateAnnotationPages i p !! 0%nat
          = Some (i * getPagesPerRespondentBlock p + 2)) as Hi
    by (apply calculateAnnotationPages_lookup; lia).
  rewrite Heq in Hi. apply calculateAnnotationPages_lookup in Hi as [Hi _].
  pose proof (getPagesPerRespondentBlock_lower p). nia.
Qed.

(** C4: the details of an entry are computed with the position of the
    respondent inside the entry's own slice.  With five respondents and two
    PDFs the first PDF takes three respondents and the second takes two,
    planned at the indices 0 and 1, which differs from planning them at 3
    and 4 whenever there are pages to annotate. *)
Theorem distributeRespondents_local_index :
  (∀ respondenten pdfUrls pagesCount item (k : nat) d,
     item ∈ distributeRespondents respondenten pdfUrls pagesCount →
     respondentDetails item !! k = Some d →
     respondentCodes item !! k = Some (detail_code d)
     ∧ annotationPages d = calculateAnnotationPages (Z.of_nat k) pagesCount)
  ∧ (∀ r0 r1 r2 r3 r4 u0 u1 pagesCount,
       distributeRespondents [r0; r1; r2; r3; r4] [u0; u1] pagesCount
       = [ {| pdfUrl := u0; pdfIndex := 0; respondentsAssigned := 3;
              respondentCodes := [code r0; code r1; code r2];
              respondentDetails :=
                [ {| detail_code := code r0;
                     annotationPages := calculateAnnotationPages 0 pagesCount |};
                  {| detail_code := code r1;
                     annotationPages := calculateAnnotationPages 1 pagesCount |};
                  {| detail_code := code r2;
                     annotationPages := calculateAnnotationPages 2 pagesCount |} ] |};
           {| pdfUrl := u1; pdfIndex := 1; respondentsAssigned := 2;
              respondentCodes := [code r3; code r4];
              respondentDetails :=
                [ {| detail_code := code r3;
                     annotationPages := calculateAnnotationPages 0 pagesCount |};
                  {| detail_code := code r4;
                     annotationPages := calculateAnnotationPages 1 pagesCount |} ] |} ])
  ∧ (∀ pagesCount, 0 < pagesCount →
       calculateAnnotationPages 0 pagesCount ≠ calculateAnnotationPages 3 pagesCount
       ∧ calculateAnnotationPages 1 pagesCount ≠ calculateAnnotationPages 4 pagesCount).
Proof.
  split_and!.
  - intros respondenten pdfUrls pagesCount item k d Hitem Hd.
    rewrite (distributeRespondents_details _ _ _ _ Hitem) in Hd.
    apply planDetails_lookup in Hd as (c & Hc & ->). done.
  - done.
  - intros pagesCount Hp.
    split; intros Heq%calculateAnnotationPages_inj; lia.
Qed.

Lemma distributeRespondents_local_index_witness :
  let respondenten :=
    [ {| code := "R1" |}; {| code := "R2" |}; {| code := "R3" |};
      {| code := "R4" |}; {| code := "R5" |} ] in
  let item :=
    {| pdfUrl := "b.pdf"; pdfIndex := 1; respondentsAssigned := 2;
       respondentCodes := ["R4"; "R5"]%string;
       respondentDetails :=
         [ {| detail_code := "R4"; annotationPages := [2; 3; 4; 5] |};
           {| detail_code := "R5"; annotationPages := [8; 9; 10; 11] |} ] |} in
  let d := {| detail_code := "R5"; annotationPages := [8; 9; 10; 11] |} in
  item ∈ distributeRespondents respondenten ["a.pdf"; "b.pdf"]%string 4
  ∧ respondentDetails item !! 1%nat = Some d
  ∧ respondentCodes item !! 1%nat = Some (detail_code d)
  ∧ annotationPages d = calculateAnnotationPages (Z.of_nat 1) 4.
Proof.
  intros respondenten item d.
  assert (item ∈ distributeRespondents respondenten ["a.pdf"; "b.pdf"]%string 4)
    as Hitem by (apply list_elem_of_lookup; by exists 1%nat).
  assert (respondentDetails item !! 1%nat = Some d) as Hd by done.
  split; [done|]. split; [done|].
  exact (proj1 distributeRespondents_local_index _ _ _ _ _ _ Hitem Hd).
Defined.


(** * The planner on doubles *)

(** Up to 2^53 in absolute value every integer is a double. *)
Lemma roundToDouble_exact (z : Z) :
  - 2 ^ 53 ≤ z ≤ 2 ^ 53 → roundToDouble z = Int z.
Proof.
  intros Hz. destruct (decide (Z.abs z = 2 ^ 53)) as [Heq|Hne].
  - assert (z = 2 ^ 53 ∨ z = - 2 ^ 53) as [-> | ->] by lia;
      by vm_compute.
  - unfold roundToDouble. cbv zeta.
    assert (Z.log2 (Z.abs z) - 52 ≤ 0) as Hshift.
    { destruct (decide (Z.abs z = 0)) as [->|Hpos]; [done|].
      assert (Z.log2 (Z.abs z) < 53); [|lia].
      apply Z.log2_lt_pow2; lia. }
    by destruct (Z.leb_spec (Z.log2 (Z.abs z) - 52) 0); [|lia].
Qed.

Lemma js_add_exact (x y : Z) :
  - 2 ^ 53 ≤ x + y ≤ 2 ^ 53 → Js.add (Int x) (Int y) = Int (x + y).
Proof. apply roundToDouble_exact. Qed.

Lemma js_mul_exact (x y : Z) :
  - 2 ^ 53 ≤ x * y ≤ 2 ^ 53 → Js.mul (Int x) (Int y) = Int (x * y).
Proof. apply roundToDouble_exact. Qed.

(** The rounding, run against the doubles of the kernel: sums and products
    around 2^53, ties, negative numbers and overflow. *)
Example add_on_doubles :
  Forall (λ '(x, y),
            doubleOfNumber (Js.add (Int x) (Int y))
            = PrimFloat.add (doubleOf x) (doubleOf y))
    [ (2, 2 ^ 53 - 1); (2, 2 ^ 53); (1, 2 ^ 53); (1, 2 ^ 53 + 2);
      (3, 2 ^ 53 + 2); (2, 2 ^ 60); (2, 2 ^ 54); (2, 2 ^ 54 + 4);
      (1, 2 ^ 54 - 2); (2 ^ 53 + 2, 1); (2 ^ 53 + 4, 1); (2 ^ 55, 2 ^ 32 - 1);
      (- 2, - (2 ^ 53 - 1)); (- 1, - 2 ^ 53); (2 ^ 53, - 1); (2 ^ 54, - 1);
      (2 ^ 54, - 3); (2 ^ 1023, 2 ^ 1023); (2 ^ 1023, 2 ^ 1023 - 2 ^ 970);
      (2 ^ 1023 - 2 ^ 970, 2 ^ 1023 - 2 ^ 970); (- 2 ^ 1023, - 2 ^ 1023);
      (4, 5); (0, 0); (2 ^ 52, 2 ^ 52); (2 ^ 70 + 2 ^ 18, 2 ^ 17);
      (2 ^ 70 + 2 ^ 18, 2 ^ 17 + 1); (2 ^ 70, 2 ^ 17) ].
Proof. repeat constructor. Qed.

Example mul_on_doubles :
  Forall (λ '(x, y),
            doubleOfNumber (Js.mul (Int x) (Int y))
            = PrimFloat.mul (doubleOf x) (doubleOf y))
    [ (2 ^ 51, 4); (2 ^ 52, 4); (2 ^ 52 - 1, 4); (2 ^ 53, 2);
      (2 ^ 31, 2 ^ 24 - 2); (2 ^ 31 + 1, 2 ^ 24); (2 ^ 53 - 1, 2 ^ 53 - 1);
      (2 ^ 53 - 1, 3); (2 ^ 53 - 1, 5); (3, 2 ^ 53 + 2); (- 3, 2 ^ 53 + 2);
      (- 7, - (2 ^ 53 - 1)); (2 ^ 32 + 3, 2 ^ 32 + 2); (2 ^ 27 + 1, 2 ^ 27 + 1);
      (2 ^ 1000, 2 ^ 24); (2 ^ 1000, 2 ^ 23); (- 2 ^ 1000, 2 ^ 24);
      (2 ^ 600 + 2 ^ 560, 2 ^ 423 + 2 ^ 400); (6, 7); (0, 2 ^ 60) ].
Proof. repeat constructor. Qed.

(** Where the block size is computed without rounding. *)
Lemma js_getPagesPerRespondentBlock_exact (p : Z) :
  - 2 ^ 53 ≤ p ≤ 2 ^ 53 - 2 →
  Js.getPagesPerRespondentBlock p = Int (getPagesPerRespondentBlock p).
Proof.
  intros Hp. unfold Js.getPagesPerRespondentBlock, getPagesPerRespondentBlock.
  cbv zeta. rewrite js_add_exact by lia.
  unfold Js.rem, Js.strict_neq, js_rem. simpl (2 =? 0).  cbv iota.
  destruct (Z.eqb_spec (Z.rem (2 + p) 2) 0) as [Hr|Hr]; simpl; [done|].
  apply js_add_exact.
  assert (2 + p ≠ 2 ^ 53) by (intros Heq; by rewrite Heq in Hr).
  lia.
Qed.

Lemma js_ToLength (p : Z) :
  p < 2 ^ 32 →
  (2 ^ 32 - 1 <? Js.ToLength p) = false
  ∧ seqZ 0 (Js.ToLength p) = seqZ 0 p.
Proof.
  intros Hp. unfold Js.ToLength.
  destruct (Z.leb_spec p 0).
  - split; [done|]. by rewrite (seqZ_nil 0 p) by done.
  - rewrite Z.min_l by lia. split; [|done]. apply Z.ltb_ge. lia.
Qed.

(** The planner throws exactly when the length is 2^32 or more. *)
Lemma js_calculateAnnotationPages_cases (i p : Z) :
  Js.calculateAnnotationPages i p
  = if 2 ^ 32 <=? p then inl "Invalid array length"
    else inr (Js.annotationPagesArray i p).
Proof.
  unfold Js.annotationPagesArray, Js.calculateAnnotationPages,
    Js.Array_from_length. cbv zeta.
  destruct (Z.leb_spec (2 ^ 32) p) as [Hp|Hp].
  - assert (2 ^ 32 - 1 < Js.ToLength p) as ->%Z.ltb_lt; [|done].
    unfold Js.ToLength. destruct (Z.leb_spec p 0); lia.
  - destruct (js_ToLength p Hp) as [-> _]. done.
Qed.

Lemma js_annotationPagesArray_nonpos (i p : Z) :
  p ≤ 0 → Js.annotationPagesArray i p = [].
Proof.
  intros Hp. unfold Js.annotationPagesArray, Js.calculateAnnotationPages,
    Js.Array_from_length. cbv zeta.
  destruct (js_ToLength p) as [-> ->]; [lia|].
  by rewrite seqZ_nil.
Qed.

(** Where the planner computes without rounding and without throwing:
    below 2^32 pages, and with a last page of at most 2^53. *)
Lemma js_annotationPagesArray_exact (i p : Z) :
  0 ≤ i → 0 ≤ p < 2 ^ 32 →
  i * getPagesPerRespondentBlock p + p + 1 ≤ 2 ^ 53 →
  Js.annotationPagesArray i p = Int <$> calculateAnnotationPages i p.
Proof.
  intros Hi Hp Hlast.
  destruct (decide (p = 0)) as [->|Hpos].
  { by rewrite js_annotationPagesArray_nonpos. }
  unfold Js.annotationPagesArray, Js.calculateAnnotationPages,
    Js.Array_from_length, calculateAnnotationPages, Array_from_length.
  cbv zeta. destruct (js_ToLength p) as [-> ->]; [lia|].
  rewrite <- list_fmap_compose. apply list_fmap_ext.
  intros k x [-> Hk]%lookup_seqZ. unfold compose.
  pose proof (getPagesPerRespondentBlock_lower p).
  rewrite js_getPagesPerRespondentBlock_exact by lia.
  rewrite js_mul_exact by nia. rewrite js_add_exact by nia.
  by rewrite js_add_exact by nia.
Qed.

Lemma js_calculateAnnotationPages_exact (i p : Z) :
  0 ≤ i → 0 ≤ p < 2 ^ 32 →
  i * getPagesPerRespondentBlock p + p + 1 ≤ 2 ^ 53 →
  Js.calculateAnnotationPages i p = inr (Int <$> calculateAnnotationPages i p).
Proof.
  intros Hi Hp Hlast. rewrite js_calculateAnnotationPages_cases.
  destruct (Z.leb_spec (2 ^ 32) p); [lia|].
  by rewrite js_annotationPagesArray_exact.
Qed.

Lemma js_collect_inr {A} (results : list A) :
  Js.collect (inr <$> results) = inr results.
Proof.
  induction results as [|a results IH]; [done|].
  rewrite fmap_cons. cbn [Js.collect]. by rewrite IH.
Qed.

(** The details of a slice: they are there below 2^32 pages, and for a
    slice without codes. *)
Lemma js_planDetails_cases (codes : list string) (pagesCount : Z) :
  Js.planDetails codes pagesCount
  = if bool_decide (codes ≠ []) && (2 ^ 32 <=? pagesCount)
    then inl "Invalid array length"
    else inr (imap (λ k c,
                      {| Js.detail_code := c;
                         Js.annotationPages :=
                           Js.annotationPagesArray (Z.of_nat k) pagesCount |})
                   codes).
Proof.
  unfold Js.planDetails.
  destruct (Z.leb_spec (2 ^ 32) pagesCount) as [Hp|Hp].
  - destruct codes as [|c codes]; [done|].
    rewrite andb_true_r. rewrite bool_decide_eq_true_2 by done.
    cbn [imap Js.collect]. rewrite js_calculateAnnotationPages_cases.
    by destruct (Z.leb_spec (2 ^ 32) pagesCount); [|lia].
  - rewrite andb_false_r. rewrite <- js_collect_inr. f_equal.
    rewrite fmap_imap. apply imap_ext. intros k c _. simpl.
    rewrite js_calculateAnnotationPages_cases.
    by destruct (Z.leb_spec (2 ^ 32) pagesCount); [lia|].
Qed.

Lemma respondentSlice_nil (pdfIndex : Z) (respondentsPerPdf : quotient) :
  respondentSlice [] pdfIndex respondentsPerPdf = [].
Proof.
  unfold respondentSlice, slice. destruct respondentsPerPdf; [|done].
  by rewrite drop_nil, take_nil.
Qed.

(** Below 2^32 pages, and without respondents, the distributor returns,
    with the slices of the plan on exact integers. *)
Lemma js_distributeRespondents_returns respondenten pdfUrls pagesCount :
  pagesCount < 2 ^ 32 ∨ respondenten = [] →
  Js.distributeRespondents respondenten pdfUrls pagesCount
  = inr ((λ item,
           {| Js.pdfUrl := pdfUrl item;
              Js.pdfIndex := pdfIndex item;
              Js.respondentsAssigned := respondentsAssigned item;
              Js.respondentCodes := respondentCodes item;
              Js.respondentDetails :=
                imap (λ k c,
                        {| Js.detail_code := c;
                           Js.annotationPages :=
                             Js.annotationPagesArray (Z.of_nat k) pagesCount |})
                     (respondentCodes item) |})
         <$> distributeRespondents respondenten pdfUrls pagesCount).
Proof.
  intros Hp. unfold Js.distributeRespondents, distributeRespondents.
  cbv zeta. rewrite <- js_collect_inr. f_equal.
  rewrite !fmap_imap. apply imap_ext. intros i url _. simpl.
  rewrite js_planDetails_cases.
  destruct Hp as [Hp| ->].
  - destruct (Z.leb_spec (2 ^ 32) pagesCount); [lia|].
    by rewrite andb_false_r.
  - by rewrite respondentSlice_nil.
Qed.

(** Where the whole plan is computed without rounding. *)
Lemma js_distributeRespondents_exact respondenten pdfUrls pagesCount :
  0 ≤ pagesCount < 2 ^ 32 →
  Z.of_nat (length respondenten) * getPagesPerRespondentBlock pagesCount
    + pagesCount + 1 ≤ 2 ^ 53 →
  Js.distributeRespondents respondenten pdfUrls pagesCount
  = inr (enginePlanItem
           <$> distributeRespondents respondenten pdfUrls pagesCount).
Proof.
  intros Hp Hlast.
  rewrite js_distributeRespondents_returns by (left; lia).
  f_equal. apply list_fmap_ext. intros i item Hitem.
  unfold enginePlanItem. f_equal.
  assert (item ∈ distributeRespondents respondenten pdfUrls pagesCount)
    as Hin by (apply list_elem_of_lookup; by exists i).
  rewrite (distributeRespondents_details _ _ _ _ Hin).
  unfold planDetails. rewrite fmap_imap. apply imap_ext. intros k c Hk.
  simpl. unfold engineDetail. simpl. f_equal.
  apply js_annotationPagesArray_exact; [lia|lia|].
  assert (k < length respondenten)%nat as Hlt.
  { apply lookup_lt_Some in Hk.
    apply distributeRespondents_lookup in Hitem
      as (url & codes & _ & Hcodes & ->).
    simpl in Hk. subst codes. rewrite length_fmap in Hk.
    unfold respondentSlice, slice in Hk.
    destruct (Math_ceil_div _ _); [|simpl in Hk; lia].
    rewrite length_take, length_drop in Hk. lia. }
  pose proof (getPagesPerRespondentBlock_lower pagesCount). nia.
Qed.

(** The planner throws at the first code of a slice, so the distributor
    throws as soon as there are a respondent, a PDF and 2^32 pages or
    more. *)
Lemma js_distributeRespondents_throws respondenten pdfUrls pagesCount :
  respondenten ≠ [] → pdfUrls ≠ [] → 2 ^ 32 ≤ pagesCount →
  Js.distributeRespondents respondenten pdfUrls pagesCount
  = inl "Invalid array length".
Proof.
  intros HR Hurls Hp. unfold Js.distributeRespondents. cbv zeta.
  destruct pdfUrls as [|url pdfUrls]; [done|].
  destruct (Math_ceil_div_spec (Z.of_nat (length respondenten))
              (Z.of_nat (length (url :: pdfUrls))))
    as (q & -> & Hq & Hlo & _); [lia|simpl; lia|].
  cbn [imap Js.collect].
  rewrite (respondentSlice_take_drop respondenten 0 q Hq).
  rewrite js_planDetails_cases.
  destruct respondenten as [|r respondenten]; [done|].
  assert (q ≠ 0) by (simpl in Hlo; nia).
  destruct (Z.to_nat q) as [|n] eqn:Hn; [lia|]. simpl.
  by destruct (Z.leb_spec (2 ^ 32) pagesCount); [|lia].
Qed.

(** C3, where the claim fails: 2^53 - 1 is odd, and 2 + (2^53 - 1) is not
    a double; the sum rounds to 2^53, which is even, and the block size is
    p + 1. *)
Lemma getPagesPerRespondentBlock_rounds :
  0 ≤ 2 ^ 53 - 1
  ∧ Z.even (2 ^ 53 - 1) = false
  ∧ Js.getPagesPerRespondentBlock (2 ^ 53 - 1) = Int (2 ^ 53)
  ∧ ¬ (∃ blockSize,
         Js.getPagesPerRespondentBlock (2 ^ 53 - 1) = Int blockSize
         ∧ Z.even blockSize = true
         ∧ 2 ≤ blockSize
         ∧ blockSize = (if Z.even (2 ^ 53 - 1)
                        then 2 ^ 53 - 1 + 2 else 2 ^ 53 - 1 + 3)).
Proof.
  assert (Js.getPagesPerRespondentBlock (2 ^ 53 - 1) = Int (2 ^ 53)) as Hrun
    by (by vm_compute).
  split_and!; [done|done|done|].
  intros (blockSize & Hb & _ & _ & ->). rewrite Hrun in Hb. done.
Qed.

(** C3, amended: for every integer p from 0 to 2^53 - 2 the block size
    is even, is at least 2, and is p + 2 for even p and p + 3 for odd
    p. *)
Theorem js_getPagesPerRespondentBlock_spec (p : Z) :
  0 ≤ p ≤ 2 ^ 53 - 2 →
  ∃ blockSize,
    Js.getPagesPerRespondentBlock p = Int blockSize
    ∧ Z.even blockSize = true
    ∧ 2 ≤ blockSize
    ∧ blockSize = (if Z.even p then p + 2 else p + 3).
Proof.
  intros Hp. exists (getPagesPerRespondentBlock p). split_and!.
  - apply js_getPagesPerRespondentBlock_exact. lia.
  - apply getPagesPerRespondentBlock_is_even.
  - pose proof (getPagesPerRespondentBlock_lower p). lia.
  - destruct (Z.even p) eqn:He.
    + by apply getPagesPerRespondentBlock_even_arg.
    + by apply getPagesPerRespondentBlock_odd_arg.
Qed.

Lemma js_getPagesPerRespondentBlock_spec_witness :
  ∃ blockSize,
    Js.getPagesPerRespondentBlock 3 = Int blockSize
    ∧ Z.even blockSize = true
    ∧ 2 ≤ blockSize
    ∧ blockSize = (if Z.even 3 then 3 + 2 else 3 + 3).
Proof. apply (js_getPagesPerRespondentBlock_spec 3). lia. Defined.

(** C2, where the claim fails: an array of 2^32 elements cannot be
    created, so for p = 2^32 the planner throws; and above 2^53 the pages
    are rounded, so for i = 2^51 and p = 2 the second page is the first
    plus 2. *)
Lemma calculateAnnotationPages_throws_and_rounds :
  0 ≤ 0 ∧ 0 ≤ 2 ^ 32
  ∧ Js.calculateAnnotationPages 0 (2 ^ 32) = inl "Invalid array length"
  ∧ ¬ (∃ pages : list Z,
         Js.calculateAnnotationPages 0 (2 ^ 32) = inr (Int <$> pages)
         ∧ Z.of_nat (length pages) = 2 ^ 32)
  ∧ Js.calculateAnnotationPages (2 ^ 51) 2
    = inr [Int (2 ^ 53 + 2); Int (2 ^ 53 + 4)].
Proof.
  assert (Js.calculateAnnotationPages 0 (2 ^ 32) = inl "Invalid array length")
    as Hrun by (by vm_compute).
  split_and!; [done|done|done| |by vm_compute].
  intros (pages & Hpages & _). rewrite Hrun in Hpages. done.
Qed.

(** C2, amended: for i >= 0 and 0 <= p < 2^32 such that the last page,
    i * blockSize(p) + p + 1, is at most 2^53, the planner returns exactly
    p integers, the first one is i * blockSize(p) + 2, and each next one is
    the previous plus 1; for p = 0 and any i the result is the empty
    sequence. *)
Theorem js_calculateAnnotationPages_spec (i p : Z) :
  0 ≤ i → 0 ≤ p < 2 ^ 32 →
  i * getPagesPerRespondentBlock p + p + 1 ≤ 2 ^ 53 →
  ∃ pages : list Z,
    Js.calculateAnnotationPages i p = inr (Int <$> pages)
    ∧ Js.getPagesPerRespondentBlock p = Int (getPagesPerRespondentBlock p)
    ∧ Z.of_nat (length pages) = p
    ∧ (0 < p → pages !! 0%nat = Some (i * getPagesPerRespondentBlock p + 2))
    ∧ (∀ (k : nat) (x y : Z),
         pages !! k = Some x → pages !! S k = Some y → y = x + 1)
    ∧ (∀ i', Js.calculateAnnotationPages i' 0 = inr []).
Proof.
  intros Hi Hp Hlast. exists (calculateAnnotationPages i p). split_and!.
  - by apply js_calculateAnnotationPages_exact.
  - apply js_getPagesPerRespondentBlock_exact. lia.
  - rewrite calculateAnnotationPages_length. lia.
  - intros Hpos. apply calculateAnnotationPages_lookup. lia.
  - intros k x y [-> _]%calculateAnnotationPages_lookup
      [-> _]%calculateAnnotationPages_lookup. lia.
  - intros i'. rewrite js_calculateAnnotationPages_cases.
    by rewrite js_annotationPagesArray_nonpos.
Qed.

Lemma js_calculateAnnotationPages_spec_witness :
  ∃ pages : list Z,
    Js.calculateAnnotationPages 1 4 = inr (Int <$> pages)
    ∧ Js.getPagesPerRespondentBlock 4 = Int (getPagesPerRespondentBlock 4)
    ∧ Z.of_nat (length pages) = 4
    ∧ (0 < 4 → pages !! 0%nat = Some (1 * getPagesPerRespondentBlock 4 + 2))
    ∧ (∀ (k : nat) (x y : Z),
         pages !! k = Some x → pages !! S k = Some y → y = x + 1)
    ∧ (∀ i', Js.calculateAnnotationPages i' 0 = inr []).
Proof.
  apply (js_calculateAnnotationPages_spec 1 4); [lia|lia|].
  by vm_compute.
Defined.

(** C1, where the claim fails: with one respondent, one PDF and a
    pagesCount of 2^32 the planner throws for the first code, and the
    distributor returns no plan. *)
Lemma distributor_fails_at_2_32_pages :
  (1 ≤ length ["a.pdf"])%nat
  ∧ Js.distributeRespondents [ {| code := "R1" |} ] ["a.pdf"] (2 ^ 32)
    = inl "Invalid array length"
  ∧ ¬ (∃ plan,
         Js.distributeRespondents [ {| code := "R1" |} ] ["a.pdf"] (2 ^ 32)
         = inr plan
         ∧ length plan = length ["a.pdf"]).
Proof.
  assert (Js.distributeRespondents [ {| code := "R1" |} ] ["a.pdf"] (2 ^ 32)
          = inl "Invalid array length") as Hrun
    by (by apply js_distributeRespondents_throws).
  split_and!; [done|done|].
  intros (plan & Hplan & _). rewrite Hrun in Hplan. done.
Qed.

(** C1, amended: for every respondent list, every non-empty list of PDFs
    and every pagesCount below 2^32 (any pagesCount when there is no
    respondent) the plan has one entry per PDF, in pdfIndex order; the
    respondentCodes of the entries, concatenated, are the codes of the
    respondents; and an entry at an index from the number of respondents
    on is present, with no codes and no details. *)
Theorem js_distributeRespondents_partition
    (respondenten : list Respondent) (pdfUrls : list string) (pagesCount : Z) :
  (1 ≤ length pdfUrls)%nat →
  pagesCount < 2 ^ 32 ∨ respondenten = [] →
  ∃ plan,
    Js.distributeRespondents respondenten pdfUrls pagesCount = inr plan
    ∧ length plan = length pdfUrls
    ∧ Js.pdfIndex <$> plan = seqZ 0 (Z.of_nat (length pdfUrls))
    ∧ Js.pdfUrl <$> plan = pdfUrls
    ∧ concat (Js.respondentCodes <$> plan) = code <$> respondenten
    ∧ (∀ i : nat, (length respondenten ≤ i < length pdfUrls)%nat →
         ∃ item, plan !! i = Some item
                 ∧ Js.pdfIndex item = Z.of_nat i
                 ∧ Js.respondentCodes item = []
                 ∧ Js.respondentDetails item = []).
Proof.
  intros Hn Hp. eexists. split.
  { by apply js_distributeRespondents_returns. }
  split_and!.
  - by rewrite length_fmap, distributeRespondents_length.
  - rewrite <- list_fmap_compose.
    apply (distributeRespondents_pdfIndex respondenten pdfUrls pagesCount).
  - rewrite <- list_fmap_compose.
    apply (distributeRespondents_pdfUrl respondenten pdfUrls pagesCount).
  - rewrite <- list_fmap_compose.
    apply (distributeRespondents_concat respondenten pdfUrls pagesCount).
    by destruct pdfUrls; [simpl in Hn; lia|].
  - intros i Hi.
    destruct (distributeRespondents_trailing respondenten pdfUrls
                pagesCount i Hi) as (item & Hitem & Hindex & Hcodes & _).
    eexists. rewrite list_lookup_fmap, Hitem. simpl.
    split; [done|]. split; [done|]. split; [done|]. by rewrite Hcodes.
Qed.

Lemma js_distributeRespondents_partition_witness :
  ∃ plan,
    Js.distributeRespondents [ {| code := "R1" |}; {| code := "R2" |} ]
      [ "a.pdf"; "b.pdf"; "c.pdf" ] 4 = inr plan
    ∧ length plan = length [ "a.pdf"; "b.pdf"; "c.pdf" ]
    ∧ Js.pdfIndex <$> plan
      = seqZ 0 (Z.of_nat (length [ "a.pdf"; "b.pdf"; "c.pdf" ]))
    ∧ Js.pdfUrl <$> plan = [ "a.pdf"; "b.pdf"; "c.pdf" ]
    ∧ concat (Js.respondentCodes <$> plan)
      = code <$> [ {| code := "R1" |}; {| code := "R2" |} ]
    ∧ (∀ i : nat,
         (length [ {| code := "R1" |}; {| code := "R2" |} ] ≤ i
          < length [ "a.pdf"; "b.pdf"; "c.pdf" ])%nat →
         ∃ item, plan !! i = Some item
                 ∧ Js.pdfIndex item = Z.of_nat i
                 ∧ Js.respondentCodes item = []
                 ∧ Js.respondentDetails item = []).
Proof.
  apply (js_distributeRespondents_partition
           [ {| code := "R1" |}; {| code := "R2" |} ]
           [ "a.pdf"; "b.pdf"; "c.pdf" ]%string 4).
  - simpl. lia.
  - left. lia.
Defined.

(** The plan of the engine for two respondents and three PDFs. *)
Example js_scenario_2_respondents_3_pdfs :
  Js.distributeRespondents [ {| code := "R1" |}; {| code := "R2" |} ]
    [ "a.pdf"; "b.pdf"; "c.pdf" ]%string 4
  = inr [ {| Js.pdfUrl := "a.pdf"; Js.pdfIndex := 0;
             Js.respondentsAssigned := 1; Js.respondentCodes := ["R1"];
             Js.respondentDetails :=
               [ {| Js.detail_code := "R1";
                    Js.annotationPages := [Int 2; Int 3; Int 4; Int 5] |} ] |};
          {| Js.pdfUrl := "b.pdf"; Js.pdfIndex := 1;
             Js.respondentsAssigned := 1; Js.respondentCodes := ["R2"];
             Js.respondentDetails :=
               [ {| Js.detail_code := "R2";
                    Js.annotationPages := [Int 2; Int 3; Int 4; Int 5] |} ] |};
          {| Js.pdfUrl := "c.pdf"; Js.pdfIndex := 2;
             Js.respondentsAssigned := 0; Js.respondentCodes := [];
             Js.respondentDetails := [] |} ].
Proof. by vm_compute. Qed.

(** Above 2^53 the pages are rounded: a block size that is the argument
    itself, pages that repeat, and pages of two respondents that meet. *)
Example rounding_above_2_53 :
  Js.getPagesPerRespondentBlock (2 ^ 60) = Int (2 ^ 60)
  ∧ Js.calculateAnnotationPages (2 ^ 53) 1 = inr [Int (2 ^ 55)]
  ∧ Js.calculateAnnotationPages (2 ^ 52) 2 = inr [Int (2 ^ 54); Int (2 ^ 54)]
  ∧ Js.calculateAnnotationPages (2 ^ 52 - 1) 2
    = inr [Int (2 ^ 54 - 2); Int (2 ^ 54)].
Proof. by vm_compute. Qed.

(** The distributor throws exactly when there are a respondent, a PDF and
    2^32 pages or more per questionnaire; the error is the [RangeError] of
    [Array.from]. *)
Theorem js_distributeRespondents_throws_iff respondenten pdfUrls pagesCount
    message :
  Js.distributeRespondents respondenten pdfUrls pagesCount = inl message
  ↔ message = "Invalid array length"
    ∧ respondenten ≠ [] ∧ pdfUrls ≠ [] ∧ 2 ^ 32 ≤ pagesCount.
Proof.
  split.
  - intros Hrun.
    destruct (decide (respondenten = [])) as [->|HR].
    { by rewrite js_distributeRespondents_returns in Hrun by (by right). }
    destruct (Z.lt_ge_cases pagesCount (2 ^ 32)) as [Hp|Hp].
    { by rewrite js_distributeRespondents_returns in Hrun by (by left). }
    destruct (decide (pdfUrls = [])) as [->|Hurls]; [done|].
    rewrite js_distributeRespondents_throws in Hrun by done.
    by simplify_eq.
  - intros (-> & HR & Hurls & Hp). by apply js_distributeRespondents_throws.
Qed.

(** The plan of the engine is the plan on exact integers as long as the
    page count is from 0 to 2^32 - 1 and the last page of a PDF that held
    all respondents is at most 2^53. *)
Theorem js_plan_on_exact_integers respondenten pdfUrls pagesCount :
  0 ≤ pagesCount < 2 ^ 32 →
  Z.of_nat (length respondenten) * getPagesPerRespondentBlock pagesCount
    + pagesCount + 1 ≤ 2 ^ 53 →
  Js.distributeRespondents respondenten pdfUrls pagesCount
  = inr (enginePlanItem
           <$> distributeRespondents respondenten pdfUrls pagesCount).
Proof. apply js_distributeRespondents_exact. Qed.

Lemma js_plan_on_exact_integers_witness :
  Js.distributeRespondents
    [ {| code := "R1" |}; {| code := "R2" |}; {| code := "R3" |} ]
    [ "a.pdf"; "b.pdf" ] 3
  = inr (enginePlanItem
           <$> distributeRespondents
                 [ {| code := "R1" |}; {| code := "R2" |}; {| code := "R3" |} ]
                 [ "a.pdf"; "b.pdf" ] 3).
Proof.
  apply (js_plan_on_exact_integers
           [ {| code := "R1" |}; {| code := "R2" |}; {| code := "R3" |} ]
           [ "a.pdf"; "b.pdf" ]%string 3); [lia|by vm_compute].
Defined.

(** * Properties of the handler *)

Lemma mapM_as_string (urls : list string) :
  mapM as_string (JStr <$> urls) = Some urls.
Proof. by apply mapM_fmap_Some. Qed.

Lemma mapM_as_respondent (codes : list string) :
  mapM as_respondent ((λ c, JObj [("code", JStr c)]) <$> codes)
  = Some ((λ c, {| code := c |}) <$> codes).
Proof.
  induction codes as [|c codes IH]; [done|].
  rewrite !fmap_cons. simpl. simpl in IH. by rewrite IH.
Qed.

(** A body with all fields in place passes validation, whatever the list
    of URLs and whatever the number given as [pagesCount]. *)
Lemma validateBody_requestBody pdfUrls annotate logoUrl pagesCount codes :
  validateBody (requestBody pdfUrls annotate logoUrl pagesCount codes)
  = inr {| req_pdfUrls := pdfUrls; req_annotate := annotate;
           req_logoUrl := logoUrl; req_pagesCount := pagesCount;
           req_respondenten := (λ c, {| code := c |}) <$> codes |}.
Proof.
  unfold validateBody, requestBody. cbn [prop lookup_field String.eqb Ascii.eqb
    Bool.eqb truthy].
  rewrite mapM_as_string. cbn [prop lookup_field String.eqb Ascii.eqb
    Bool.eqb truthy].
  by rewrite mapM_as_respondent.
Qed.

(** A request that fails validation is answered with status 400 and a
    message that names the field. *)
Lemma validateBody_failure requestBody failure :
  validateBody requestBody = inl failure →
  failure = badRequest "Invalid 'pdfUrls': must be an array of strings."
  ∨ failure = badRequest "Invalid 'annotate': must be a boolean."
  ∨ failure = badRequest "Invalid 'metadata' object or its properties.".
Proof.
  unfold validateBody. intros Hv.
  repeat (case_match; simplify_eq); auto.
Qed.

Section handler_facts.
Context `{Collaborators}.

Lemma handler_post requestBody debug s :
  handler (postEvent requestBody debug) s
  = match handlerTry (postEvent requestBody debug) s with
    | (inr outcome, s') => (outcome, s')
    | (inl message, s') =>
        (Returned {| statusCode := 500;
                     responseBody := InternalServerError message |}, s')
    end.
Proof. done. Qed.

(** Debug mode returns the plan and makes no call. *)
Lemma handler_debug requestBody request pagesCount s :
  requestBody ≠ JNull →
  validateBody requestBody = inr request →
  req_pagesCount request = NumInt pagesCount →
  handler (postEvent requestBody (Some "true")) s
  = (Returned
       {| statusCode := 200;
          responseBody :=
            DebugPlan
              (Z.of_nat (length (req_respondenten request)))
              (Math_ceil_div
                 (Z.of_nat (length (req_respondenten request)))
                 (Z.of_nat (length (req_pdfUrls request))))
              pagesCount
              (getPagesPerRespondentBlock pagesCount)
              (distributeRespondents (req_respondenten request)
                 (req_pdfUrls request) pagesCount) |}, s).
Proof.
  intros Hnull Hvalid Hpages. rewrite handler_post.
  unfold handlerTry, postEvent, pure_call, bind, ret. cbn [body query_debug].
  destruct requestBody; [done|..]; rewrite Hvalid, Hpages; done.
Qed.

(** Live mode runs [processLive] on the plan. *)
Lemma handler_live requestBody request pagesCount debug s :
  requestBody ≠ JNull →
  validateBody requestBody = inr request →
  req_pagesCount request = NumInt pagesCount →
  debug ≠ Some "true" →
  handler (postEvent requestBody debug) s
  = match processLive request pagesCount
            (distributeRespondents (req_respondenten request)
               (req_pdfUrls request) pagesCount) s with
    | (inr response, s') => (Returned response, s')
    | (inl message, s') =>
        (Returned {| statusCode := 500;
                     responseBody := InternalServerError message |}, s')
    end.
Proof.
  intros Hnull Hvalid Hpages Hdebug. rewrite handler_post.
  unfold handlerTry, postEvent, pure_call, bind, ret. cbn [body query_debug].
  rewrite bool_decide_eq_false_2 by done.
  destruct requestBody; [done|..]; rewrite Hvalid, Hpages;
    by destruct (processLive _ _ _ s) as [[?|?] ?].
Qed.
End handler_facts.


Section loop_facts.
Context `{Collaborators}.

Local Ltac run_inv H :=
  unfold bind, try_catch, ret, throw, logCall, io, pure_call, now in H;
  repeat (case_match; simplify_eq/=).

(** [annotatePdf] calls nothing but the download of the logo. *)
Lemma annotatePdf_calls pdfBuffer codes logoUrl pagesCount s r s' :
  annotatePdf pdfBuffer codes logoUrl pagesCount s = (r, s') →
  ∃ extra, calls s' = calls s ++ extra
           ∧ Forall (λ c, c = CallDownloadImage logoUrl) extra.
Proof.
  intros Hrun. unfold annotatePdf in Hrun. run_inv Hrun;
    first [ by (exists []; rewrite app_nil_r)
          | by (eexists [_]; split; [done|repeat constructor]) ].
Qed.

(** C7: an entry without codes takes one turn of the loop in which the
    PDF is downloaded and nothing else is called; the buffer that was
    fetched is what the turn appends to the output, as it is. *)
Theorem empty_slice_passes_through logoUrl pagesCount planItem
    annotatedPdfBuffers respondentsPerFile s pdfBuffer w :
  respondentCodes planItem = [] →
  downloadPdf (pdfUrl planItem) (world s) = (inr pdfBuffer, w) →
  processPlanItem logoUrl pagesCount planItem
    (annotatedPdfBuffers, respondentsPerFile) s
  = (inr (annotatedPdfBuffers ++ [pdfBuffer], respondentsPerFile ++ [0]),
     {| world := w; calls := calls s ++ [CallDownloadPdf (pdfUrl planItem)] |}).
Proof.
  intros Hcodes Hdownload.
  unfold processPlanItem, try_catch, bind, logCall, io, ret.
  cbn [world calls]. rewrite Hdownload, Hcodes. done.
Qed.

(** What a turn of the loop that does not throw has done. *)
Lemma processPlanItem_inv logoUrl pagesCount planItem buffers perFile
    s buffers' perFile' s' :
  processPlanItem logoUrl pagesCount planItem (buffers, perFile) s
  = (inr (buffers', perFile'), s') →
  perFile' = perFile ++ [Z.of_nat (length (respondentCodes planItem))]
  ∧ (∃ b, buffers' = buffers ++ [b])
  ∧ ∃ extra, calls s' = calls s ++ extra
             ∧ Forall (λ c, isLoopCall c = true) extra.
Proof.
  intros Hrun. unfold processPlanItem in Hrun.
  unfold try_catch at 1 in Hrun. unfold bind at 1 2 in Hrun.
  unfold logCall at 1, io at 1 in Hrun. cbn [world calls] in Hrun.
  destruct (downloadPdf (pdfUrl planItem) (world s)) as [[e|pdfBuffer] w];
    [done|].
  destruct (respondentCodes planItem) as [|c codes] eqn:Hcodes.
  - simpl in Hrun. unfold ret in Hrun. simplify_eq.
    split; [done|]. split; [by eexists|].
    eexists [_]. split; [done|]. by repeat constructor.
  - change (0 <? Z.of_nat (length (c :: codes))) with true in Hrun.
    cbv iota in Hrun. unfold bind at 1, logCall at 1 in Hrun.
    cbn [world calls] in Hrun. unfold bind at 1 in Hrun.
    destruct (annotatePdf _ _ _ _ _) as [[e|annotated] s1] eqn:Hannotate;
      [done|].
    unfold ret in Hrun. simplify_eq.
    apply annotatePdf_calls in Hannotate as (extra & Hcalls & Hextra).
    cbn [calls] in Hcalls.
    split; [done|]. split; [by eexists|].
    exists (CallDownloadPdf (pdfUrl planItem)
            :: CallAnnotatePdf pdfBuffer (c :: codes) logoUrl pagesCount
            :: extra).
    split; [by rewrite Hcalls, <- !app_assoc|].
    repeat (constructor; [done|]).
    eapply Forall_impl; [done|]. by intros ? ->.
Qed.

Lemma processPlan_inv logoUrl pagesCount plan buffers perFile
    s buffers' perFile' s' :
  processPlan logoUrl pagesCount plan (buffers, perFile) s
  = (inr (buffers', perFile'), s') →
  perFile'
  = perFile ++ ((λ item, Z.of_nat (length (respondentCodes item))) <$> plan)
  ∧ length buffers' = (length buffers + length plan)%nat
  ∧ ∃ extra, calls s' = calls s ++ extra
             ∧ Forall (λ c, isLoopCall c = true) extra.
Proof.
  revert buffers perFile s.
  induction plan as [|item plan IH]; intros buffers perFile s Hrun.
  - simpl in Hrun. unfold ret in Hrun. simplify_eq.
    rewrite !app_nil_r. split; [done|]. split; [simpl; lia|].
    exists []. by rewrite app_nil_r.
  - cbn [processPlan] in Hrun. unfold bind in Hrun.
    destruct (processPlanItem _ _ _ _ s) as [[e|[buffers1 perFile1]] s1]
      eqn:Hitem; [done|].
    apply processPlanItem_inv in Hitem
      as (-> & [b ->] & extra1 & Hcalls1 & Hextra1).
    apply IH in Hrun as (-> & Hlen & extra2 & Hcalls2 & Hextra2).
    split; [by rewrite <- app_assoc|].
    split; [rewrite Hlen, length_app; simpl; lia|].
    exists (extra1 ++ extra2). split.
    + by rewrite Hcalls2, Hcalls1, <- app_assoc.
    + by apply Forall_app.
Qed.

(** In a run of the loop that does not throw, the annotator is never called
    without codes. *)
Lemma processPlan_annotates_with_codes logoUrl pagesCount plan acc s acc' s'
    pdfBuffer logoUrl' pagesCount' :
  processPlan logoUrl pagesCount plan acc s = (inr acc', s') →
  ∃ extra, calls s' = calls s ++ extra
           ∧ CallAnnotatePdf pdfBuffer [] logoUrl' pagesCount' ∉ extra.
Proof.
  destruct acc as [buffers perFile], acc' as [buffers' perFile'].
  intros (_ & _ & extra & Hcalls & Hextra)%processPlan_inv.
  exists extra. split; [done|]. intros Hin.
  by apply (proj1 (Forall_forall _ _) Hextra) in Hin.
Qed.
End loop_facts.


Lemma sumZ_lengths {A} (slices : list (list A)) :
  sumZ ((λ slice, Z.of_nat (length slice)) <$> slices)
  = Z.of_nat (length (concat slices)).
Proof.
  induction slices as [|slice slices IH]; [done|].
  rewrite fmap_cons. cbn [concat]. rewrite length_app.
  change (Z.of_nat (length slice)
          + sumZ ((λ slice, Z.of_nat (length slice)) <$> slices)
          = Z.of_nat (length slice + length (concat slices))).
  rewrite IH. lia.
Qed.

(** For a list of PDFs that is not empty, the numbers of codes per entry
    add up to the number of respondents. *)
Lemma distributeRespondents_sum respondenten pdfUrls pagesCount :
  pdfUrls ≠ [] →
  sumZ ((λ item, Z.of_nat (length (respondentCodes item)))
          <$> distributeRespondents respondenten pdfUrls pagesCount)
  = Z.of_nat (length respondenten).
Proof.
  intros Hne.
  rewrite <- (length_fmap code respondenten).
  rewrite <- (distributeRespondents_concat respondenten pdfUrls pagesCount Hne).
  rewrite <- sumZ_lengths. by rewrite <- list_fmap_compose.
Qed.

Section live_facts.
Context `{Collaborators}.

(** An archive over the limit ends the run right after it is built. *)
Lemma processLive_too_large request pagesCount plan s buffers perFile s1 zip :
  processPlan (req_logoUrl request) pagesCount plan ([], []) s
  = (inr (buffers, perFile), s1) →
  createZip (filesToZip buffers) = inr zip →
  TWO_GB < buffer_length zip →
  processLive request pagesCount plan s
  = (inr {| statusCode := 413;
            responseBody := ZipTooLarge (buffer_length zip) |},
     {| world := world s1;
        calls := calls s1 ++ [CallCreateZip (filesToZip buffers)] |}).
Proof.
  intros Hloop Hzip Hsize. unfold processLive.
  unfold bind at 1. rewrite Hloop.
  unfold bind at 1, logCall at 1. unfold bind at 1, pure_call at 1.
  rewrite Hzip. apply Z.ltb_lt in Hsize. by rewrite Hsize.
Qed.

(** What a run of [processLive] that ends in a success response has
    put in it. *)
Lemma processLive_success request pagesCount plan s s' code
    url expires respondentCount filesInZip respondentsPerFile zipLength :
  processLive request pagesCount plan s
  = (inr {| statusCode := code;
            responseBody := Success url expires respondentCount filesInZip
                              respondentsPerFile zipLength |}, s') →
  code = 200
  ∧ respondentCount = Z.of_nat (length (req_respondenten request))
  ∧ filesInZip = Z.of_nat (length plan)
  ∧ respondentsPerFile
    = (λ item, Z.of_nat (length (respondentCodes item))) <$> plan.
Proof.
  intros Hrun. unfold processLive in Hrun. unfold bind at 1 in Hrun.
  destruct (processPlan _ _ _ _ s) as [[e|[buffers perFile]] s1] eqn:Hloop;
    [done|].
  apply processPlan_inv in Hloop as (-> & Hlen & _).
  unfold bind, try_catch, ret, logCall, io, pure_call, now in Hrun.
  repeat (case_match; simplify_eq/=). by rewrite Hlen.
Qed.

(** The response fields of a success agree with the plan; what the
    entries hold adds up to [respondentCount] as soon as the request has
    a PDF. *)
Lemma handler_success_consistent event s s' code
    url expires respondentCount filesInZip respondentsPerFile zipLength :
  handler event s
  = (Returned {| statusCode := code;
                 responseBody := Success url expires respondentCount
                                   filesInZip respondentsPerFile zipLength |},
     s') →
  ∃ requestBody request pagesCount,
    body event = BodyText (inr requestBody)
    ∧ validateBody requestBody = inr request
    ∧ req_pagesCount request = NumInt pagesCount
    ∧ let plan := distributeRespondents (req_respondenten request)
                    (req_pdfUrls request) pagesCount in
      code = 200
      ∧ respondentCount = Z.of_nat (length (req_respondenten request))
      ∧ filesInZip = Z.of_nat (length (req_pdfUrls request))
      ∧ respondentsPerFile
        = (λ item, Z.of_nat (length (respondentCodes item))) <$> plan
      ∧ length respondentsPerFile = length (req_pdfUrls request)
      ∧ (req_pdfUrls request ≠ [] → sumZ respondentsPerFile = respondentCount).
Proof.
  intros Hrun. unfold handler in Hrun.
  destruct (String.eqb (httpMethod event) "OPTIONS"); [done|].
  destruct (negb (String.eqb (httpMethod event) "POST")); [done|].
  unfold handlerTry in Hrun.
  destruct (body event) as [|[e|requestBody]] eqn:Hbody; [done..|].
  unfold pure_call, bind at 1 in Hrun.
  assert (∃ request, validateBody requestBody = inr request) as [request Hv].
  { destruct (validateBody requestBody) as [failure|request] eqn:Hv;
      [|by eexists].
    apply validateBody_failure in Hv.
    destruct requestBody; try done; unfold ret in Hrun;
      by destruct Hv as [->|[->| ->]]. }
  assert (∃ pagesCount, req_pagesCount request = NumInt pagesCount)
    as [pagesCount Hp].
  { destruct (req_pagesCount request) eqn:Hp; [by eexists|].
    destruct requestBody; try done; by rewrite Hv, Hp in Hrun. }
  assert (processLive request pagesCount
            (distributeRespondents (req_respondenten request)
               (req_pdfUrls request) pagesCount) s
          = (inr {| statusCode := code;
                    responseBody := Success url expires respondentCount
                                      filesInZip respondentsPerFile
                                      zipLength |}, s')) as Hlive.
  { destruct requestBody; try done; rewrite Hv, Hp in Hrun;
      (case_bool_decide; [done|]); unfold bind, ret in Hrun;
      by repeat (case_match; simplify_eq/=). }
  apply processLive_success in Hlive as (-> & -> & -> & ->).
  exists requestBody, request, pagesCount.
  do 3 (split; [done|]). cbv zeta.
  rewrite distributeRespondents_length, length_fmap,
    distributeRespondents_length.
  split_and!; try done.
  intros Hne. by apply distributeRespondents_sum.
Qed.
End live_facts.


(** * The live path and the plan *)

Lemma fmap_concat {A B} (f : A → B) (ls : list (list A)) :
  f <$> concat ls = concat ((λ l : list A, f <$> l) <$> ls).
Proof.
  induction ls as [|l ls IH]; [done|].
  rewrite fmap_cons. cbn [concat]. by rewrite fmap_app, IH.
Qed.

Lemma stampPages_pages c pagesToAnnotate actualPages logo :
  stamp_page <$> stampPages c pagesToAnnotate actualPages logo
  = filter (λ pageIndex, pageIndex < actualPages) pagesToAnnotate.
Proof.
  unfold stampPages. generalize (lastPage pagesToAnnotate) as final.
  intros final. induction pagesToAnnotate as [|pageIndex pages IH]; [done|].
  cbn [omap list_omap]. rewrite filter_cons.
  destruct (Z.ltb_spec pageIndex actualPages).
  - rewrite decide_True by done. rewrite fmap_cons. simpl. by f_equal.
  - rewrite decide_False by lia. done.
Qed.

Lemma stampPages_in_bounds c pagesToAnnotate actualPages logo :
  Forall (λ pageIndex, pageIndex < actualPages) pagesToAnnotate →
  stamp_page <$> stampPages c pagesToAnnotate actualPages logo
  = pagesToAnnotate.
Proof.
  intros Hall. rewrite stampPages_pages.
  induction Hall as [|pageIndex pages Hlt _ IH]; [done|].
  rewrite filter_cons, decide_True by done. by f_equal.
Qed.

(** * Claims about the handler *)

Lemma empty_slice_passes_through_witness :
  let planItem :=
    {| pdfUrl := "c.pdf"; pdfIndex := 2; respondentsAssigned := 0;
       respondentCodes := []; respondentDetails := [] |} in
  processPlanItem (H:=Demo.collaborators) "" 4 planItem ([], []) Demo.start
  = (inr ([ (Demo.file "c.pdf" 1200) ], [0]),
     {| world := (tt : @World Demo.collaborators);
        calls := [CallDownloadPdf "c.pdf"] |}).
Proof.
  intros planItem.
  apply (empty_slice_passes_through (H:=Demo.collaborators) "" 4 planItem
           [] [] Demo.start); reflexivity.
Defined.

(** C8: when the archive that was built is larger than 2 GiB, the handler
    answers 413 with the size of the archive, and the run has made no call
    to the uploader. *)
Theorem zip_over_limit_is_413 `{Collaborators} requestBody request pagesCount
    debug s buffers perFile s1 zip :
  requestBody ≠ JNull →
  validateBody requestBody = inr request →
  req_pagesCount request = NumInt pagesCount →
  debug ≠ Some "true" →
  processPlan (req_logoUrl request) pagesCount
    (distributeRespondents (req_respondenten request) (req_pdfUrls request)
       pagesCount) ([], []) s
  = (inr (buffers, perFile), s1) →
  createZip (filesToZip buffers) = inr zip →
  TWO_GB < buffer_length zip →
  TWO_GB = 2 * 1024 ^ 3
  ∧ ∃ s', handler (postEvent requestBody debug) s
          = (Returned {| statusCode := 413;
                         responseBody := ZipTooLarge (buffer_length zip) |}, s')
          ∧ ∃ extra, calls s' = calls s ++ extra
                     ∧ Forall (λ c, isUpload c = false) extra.
Proof.
  intros Hnull Hvalid Hpages Hdebug Hloop Hzip Hsize. split; [done|].
  rewrite (handler_live _ _ _ _ _ Hnull Hvalid Hpages Hdebug).
  rewrite (processLive_too_large _ _ _ _ _ _ _ _ Hloop Hzip Hsize).
  eexists. split; [done|]. cbn [calls].
  apply processPlan_inv in Hloop as (_ & _ & extra & -> & Hextra).
  exists (extra ++ [CallCreateZip (filesToZip buffers)]).
  split; [by rewrite app_assoc|].
  apply Forall_app. split; [|by repeat constructor].
  eapply Forall_impl; [done|]. by intros [] ?.
Qed.

Lemma zip_over_limit_is_413_witness :
  TWO_GB = 2 * 1024 ^ 3
  ∧ ∃ s', handler (H:=Demo.collaborators)
            (postEvent (requestBody ["huge.pdf"] true "" (NumInt 4) ["R1"; "R2"])
               None) Demo.start
          = (Returned {| statusCode := 413;
                         responseBody := ZipTooLarge 3221225502 |}, s')
          ∧ ∃ extra, calls s' = calls Demo.start ++ extra
                     ∧ Forall (λ c, isUpload c = false) extra.
Proof.
  apply (zip_over_limit_is_413 (H:=Demo.collaborators)
           (requestBody ["huge.pdf"] true "" (NumInt 4) ["R1"; "R2"])
           {| req_pdfUrls := ["huge.pdf"]; req_annotate := true;
              req_logoUrl := ""; req_pagesCount := NumInt 4;
              req_respondenten := [ {| code := "R1" |}; {| code := "R2" |} ] |}
           4 None Demo.start
           [ (Demo.file "huge.pdf annotated" 3221225480) ]
           [2]
           {| world := (tt : @World Demo.collaborators);
              calls := [ CallDownloadPdf "huge.pdf";
                         CallAnnotatePdf
                           (Demo.file "huge.pdf" 3221225472)
                           ["R1"; "R2"] "" 4 ] |}
           (Demo.file "archive" 3221225502));
    [done|reflexivity|reflexivity|done|reflexivity|reflexivity|reflexivity].
Defined.



(** * Requests without a PDF *)

(** In debug mode a request whose [pdfUrls] is the empty array is answered
    with status 200, an empty plan and a number of respondents per PDF
    that is not finite, whatever the collaborators. *)
Lemma handler_debug_empty_pdfUrls `{Collaborators} annotate logoUrl
    pagesCount codes s :
  handler (postEvent (requestBody [] annotate logoUrl (NumInt pagesCount) codes)
             (Some "true")) s
  = (Returned {| statusCode := 200;
                 responseBody :=
                   DebugPlan (Z.of_nat (length codes)) NotFinite pagesCount
                     (getPagesPerRespondentBlock pagesCount) [] |}, s).
Proof.
  erewrite handler_debug; [|done|apply validateBody_requestBody|done].
  cbn [req_respondenten req_pdfUrls]. by rewrite length_fmap.
Qed.

(** Whatever the collaborators do, such a request is not answered with
    status 400. *)
Lemma handler_empty_pdfUrls_not_400 `{Collaborators} annotate logoUrl
    pagesCount codes debug s response s' :
  handler (postEvent (requestBody [] annotate logoUrl (NumInt pagesCount) codes)
             debug) s
  = (Returned response, s') →
  statusCode response ≠ 400.
Proof.
  destruct (decide (debug = Some "true")) as [->|Hdebug].
  - rewrite handler_debug_empty_pdfUrls. by intros [= <- _].
  - erewrite handler_live; [|done|apply validateBody_requestBody|done..].
    cbn [req_respondenten req_pdfUrls].
    unfold distributeRespondents, processLive. cbn [imap processPlan].
    unfold bind, try_catch, ret, logCall, io, pure_call, now.
    intros Hrun. by repeat (case_match; simplify_eq/=).
Qed.

(** C5: a request whose [pdfUrls] is the empty array passes validation;
    the handler goes on to build and upload an archive without files and
    answers 200. *)
Theorem empty_pdfUrls_not_rejected :
  let requestBody := requestBody [] true "" (NumInt 4) ["R1"; "R2"] in
  validateBody requestBody
  = inr {| req_pdfUrls := []; req_annotate := true; req_logoUrl := "";
           req_pagesCount := NumInt 4;
           req_respondenten := [ {| code := "R1" |}; {| code := "R2" |} ] |}
  ∧ handler (H:=Demo.collaborators) (postEvent requestBody None) Demo.start
    = (Returned
         {| statusCode := 200;
            responseBody :=
              Success "https://file.io/respondenten_2024-12-31.zip" "14d"
                2 0 [] 22 |},
       {| world := (tt : @World Demo.collaborators);
          calls := [ CallCreateZip [];
                     CallUploadToFileIo (Demo.file "archive" 22)
                       "respondenten_2024-12-31.zip" ] |})
  ∧ handler (H:=Demo.collaborators) (postEvent requestBody (Some "true"))
      Demo.start
    = (Returned {| statusCode := 200;
                   responseBody := DebugPlan 2 NotFinite 4 6 [] |},
       Demo.start).
Proof. done. Qed.

(** C10: on a request without a PDF and with two respondents the handler
    reports success with [respondentCount] 2 and an empty
    [respondentsPerFile], whose sum is 0. *)
Theorem empty_pdfUrls_success_is_inconsistent :
  ∃ url expires zipLength s',
    handler (H:=Demo.collaborators)
      (postEvent (requestBody [] true "" (NumInt 4) ["R1"; "R2"]) None)
      Demo.start
    = (Returned {| statusCode := 200;
                   responseBody := Success url expires 2 0 [] zipLength |}, s')
    ∧ sumZ [] ≠ 2.
Proof. by eexists _, _, _, _. Qed.


(** * Further properties of the page calculator *)

(** On exact integers: dividing a planned page by the block size gives the
    index of the respondent back, and the offset in the block is past the
    cover letter and the blank page and before the padding. *)
Lemma calculateAnnotationPages_owner (i p x : Z) :
  0 ≤ i →
  x ∈ calculateAnnotationPages i p →
  x `div` getPagesPerRespondentBlock p = i
  ∧ 2 ≤ x `mod` getPagesPerRespondentBlock p < p + 2.
Proof.
  intros Hi [k Hk]%list_elem_of_lookup.
  apply calculateAnnotationPages_lookup in Hk as [-> Hk].
  pose proof (getPagesPerRespondentBlock_lower p) as Hlow.
  set (bs := getPagesPerRespondentBlock p) in *.
  assert ((i * bs + 2 + Z.of_nat k) `div` bs = i) as Hdiv.
  { symmetry. apply (Z.div_unique_pos _ _ _ (2 + Z.of_nat k)); lia. }
  split; [done|].
  rewrite Z.mod_eq, Hdiv by lia. lia.
Qed.

(** On exact integers: the pages of two different respondents never
    meet. *)
Lemma calculateAnnotationPages_disjoint (i j p x : Z) :
  0 ≤ i → 0 ≤ j → i ≠ j →
  x ∈ calculateAnnotationPages i p →
  x ∉ calculateAnnotationPages j p.
Proof.
  intros Hi Hj Hne Hxi%calculateAnnotationPages_in_block
    Hxj%calculateAnnotationPages_in_block; [|done..].
  pose proof (getPagesPerRespondentBlock_lower p). nia.
Qed.

(** On exact integers, negative ones included: the block size is even, is
    the argument plus 2 or plus 3, and grows with the argument. *)
Lemma getPagesPerRespondentBlock_monotone (p q : Z) :
  p ≤ q →
  getPagesPerRespondentBlock p ≤ getPagesPerRespondentBlock q
  ∧ Z.even (getPagesPerRespondentBlock p) = true
  ∧ p + 2 ≤ getPagesPerRespondentBlock p ≤ p + 3.
Proof.
  intros Hpq.
  assert (∀ z, getPagesPerRespondentBlock z
               = if Z.even z then z + 2 else z + 3) as Hbs.
  { intros z. destruct (Z.even z) eqn:He.
    - by apply getPagesPerRespondentBlock_even_arg.
    - by apply getPagesPerRespondentBlock_odd_arg. }
  split; [|split; [apply getPagesPerRespondentBlock_is_even|]].
  - rewrite (Hbs p), (Hbs q).
    destruct (Z.even p) eqn:Hp, (Z.even q) eqn:Hq; try lia.
    destruct (decide (p = q)) as [->|]; [congruence|lia].
  - rewrite (Hbs p). destruct (Z.even p); lia.
Qed.

(** The pages that the engine returns, when the last one is at most
    2^53, are the pages on exact integers. *)
Lemma js_calculateAnnotationPages_inr (i p : Z) (pages : list number) :
  0 ≤ i →
  i * getPagesPerRespondentBlock p + p + 1 ≤ 2 ^ 53 →
  Js.calculateAnnotationPages i p = inr pages →
  pages = Int <$> calculateAnnotationPages i p.
Proof.
  intros Hi Hlast Hrun. rewrite js_calculateAnnotationPages_cases in Hrun.
  destruct (Z.leb_spec (2 ^ 32) p) as [|Hp]; [done|].
  injection Hrun as <-.
  destruct (Z.le_gt_cases p 0) as [Hneg|Hpos].
  - rewrite js_annotationPagesArray_nonpos by done.
    by rewrite calculateAnnotationPages_nonpos.
  - apply js_annotationPagesArray_exact; lia.
Qed.

(** A page that is planned for a respondent tells which respondent it is
    for, as long as the last page of the respondent is at most 2^53:
    dividing by the block size gives the index back, and the offset in the
    block is past the cover letter and the blank page and before the
    padding. *)
Theorem js_calculateAnnotationPages_owner (i p : Z) (pages : list number)
    (x : number) :
  0 ≤ i →
  i * getPagesPerRespondentBlock p + p + 1 ≤ 2 ^ 53 →
  Js.calculateAnnotationPages i p = inr pages →
  x ∈ pages →
  ∃ pageIndex blockSize,
    x = Int pageIndex
    ∧ Js.getPagesPerRespondentBlock p = Int blockSize
    ∧ pageIndex `div` blockSize = i
    ∧ 2 ≤ pageIndex `mod` blockSize < p + 2.
Proof.
  intros Hi Hlast Hrun Hx.
  assert (p < 2 ^ 32) as Hp.
  { rewrite js_calculateAnnotationPages_cases in Hrun.
    by destruct (Z.leb_spec (2 ^ 32) p). }
  rewrite (js_calculateAnnotationPages_inr _ _ _ Hi Hlast Hrun) in Hx.
  apply list_elem_of_fmap in Hx as (pageIndex & -> & Hin).
  exists pageIndex, (getPagesPerRespondentBlock p).
  split; [done|]. split.
  - apply js_getPagesPerRespondentBlock_exact.
    assert (0 < p); [|lia].
    destruct (Z.le_gt_cases p 0); [|done].
    rewrite calculateAnnotationPages_nonpos in Hin by done.
    by apply elem_of_nil in Hin.
  - by apply calculateAnnotationPages_owner.
Qed.

Lemma js_calculateAnnotationPages_owner_witness :
  ∃ pageIndex blockSize,
    Int 9 = Int pageIndex
    ∧ Js.getPagesPerRespondentBlock 4 = Int blockSize
    ∧ pageIndex `div` blockSize = 1
    ∧ 2 ≤ pageIndex `mod` blockSize < 4 + 2.
Proof.
  apply (js_calculateAnnotationPages_owner 1 4
           [Int 8; Int 9; Int 10; Int 11] (Int 9));
    [lia|by vm_compute|by vm_compute|].
  apply list_elem_of_lookup. by exists 1%nat.
Defined.

(** The pages of two different respondents of a PDF never meet, as long
    as the last page of each is at most 2^53. *)
Theorem js_calculateAnnotationPages_disjoint (i j p : Z)
    (pages_i pages_j : list number) (x : number) :
  0 ≤ i → 0 ≤ j → i ≠ j →
  i * getPagesPerRespondentBlock p + p + 1 ≤ 2 ^ 53 →
  j * getPagesPerRespondentBlock p + p + 1 ≤ 2 ^ 53 →
  Js.calculateAnnotationPages i p = inr pages_i →
  Js.calculateAnnotationPages j p = inr pages_j →
  x ∈ pages_i →
  x ∉ pages_j.
Proof.
  intros Hi Hj Hne Hlast_i Hlast_j Hrun_i Hrun_j Hxi Hxj.
  rewrite (js_calculateAnnotationPages_inr _ _ _ Hi Hlast_i Hrun_i) in Hxi.
  rewrite (js_calculateAnnotationPages_inr _ _ _ Hj Hlast_j Hrun_j) in Hxj.
  apply list_elem_of_fmap in Hxi as (a & -> & Ha).
  apply list_elem_of_fmap in Hxj as (b & [= <-] & Hb).
  by apply (calculateAnnotationPages_disjoint i j p a).
Qed.

Lemma js_calculateAnnotationPages_disjoint_witness :
  Int 5 ∉ [Int 8; Int 9; Int 10; Int 11].
Proof.
  apply (js_calculateAnnotationPages_disjoint 0 1 4
           [Int 2; Int 3; Int 4; Int 5] [Int 8; Int 9; Int 10; Int 11]
           (Int 5));
    [lia|lia|lia|by vm_compute|by vm_compute|by vm_compute|by vm_compute|].
  apply list_elem_of_lookup. by exists 3%nat.
Defined.

(** From -2^53 to 2^53 - 2, negative integers included, the block size is
    even, is the argument plus 2 or plus 3, and grows with the
    argument. *)
Theorem js_getPagesPerRespondentBlock_monotone (p q : Z) :
  - 2 ^ 53 ≤ p → p ≤ q → q ≤ 2 ^ 53 - 2 →
  ∃ blockSize_p blockSize_q,
    Js.getPagesPerRespondentBlock p = Int blockSize_p
    ∧ Js.getPagesPerRespondentBlock q = Int blockSize_q
    ∧ blockSize_p ≤ blockSize_q
    ∧ Z.even blockSize_p = true
    ∧ p + 2 ≤ blockSize_p ≤ p + 3.
Proof.
  intros Hp Hpq Hq.
  exists (getPagesPerRespondentBlock p), (getPagesPerRespondentBlock q).
  split; [apply js_getPagesPerRespondentBlock_exact; lia|].
  split; [apply js_getPagesPerRespondentBlock_exact; lia|].
  by apply getPagesPerRespondentBlock_monotone.
Qed.

Lemma js_getPagesPerRespondentBlock_monotone_witness :
  ∃ blockSize_p blockSize_q,
    Js.getPagesPerRespondentBlock (-5) = Int blockSize_p
    ∧ Js.getPagesPerRespondentBlock 4 = Int blockSize_q
    ∧ blockSize_p ≤ blockSize_q
    ∧ Z.even blockSize_p = true
    ∧ -5 + 2 ≤ blockSize_p ≤ -5 + 3.
Proof.
  apply (js_getPagesPerRespondentBlock_monotone (-5) 4); lia.
Defined.

(** * Further properties of the distributor *)

(** For a list of PDFs that is not empty: the number of respondents per
    PDF is finite, the code at position k of the entry of PDF i is the code
    of respondent i * perPdf + k of the request, and an entry holds no more
    than perPdf codes. *)
Theorem distributeRespondents_global_index respondenten pdfUrls pagesCount
    (i : nat) item :
  pdfUrls ≠ [] →
  distributeRespondents respondenten pdfUrls pagesCount !! i = Some item →
  ∃ perPdf : nat,
    Math_ceil_div (Z.of_nat (length respondenten)) (Z.of_nat (length pdfUrls))
    = Finite (Z.of_nat perPdf)
    ∧ (∀ k : nat, (k < perPdf)%nat →
         respondentCodes item !! k
         = code <$> respondenten !! (i * perPdf + k)%nat)
    ∧ (∀ k : nat, (perPdf ≤ k)%nat → respondentCodes item !! k = None).
Proof.
  intros Hne Hitem.
  assert (0 < length pdfUrls)%nat as Hn by (destruct pdfUrls; [done|simpl; lia]).
  destruct (Math_ceil_div_spec (Z.of_nat (length respondenten))
              (Z.of_nat (length pdfUrls))) as (q & Hq & Hq0 & _); [lia..|].
  apply distributeRespondents_lookup in Hitem as (url & codes & _ & Hc & ->).
  rewrite Hq, respondentSlice_take_drop in Hc by done. subst codes.
  exists (Z.to_nat q). rewrite Z2Nat.id by done. split; [done|].
  cbn [respondentCodes]. split.
  - intros k Hk. rewrite list_lookup_fmap, lookup_take_lt, lookup_drop by done.
    done.
  - intros k Hk. rewrite list_lookup_fmap, lookup_take_ge by done. done.
Qed.

Lemma distributeRespondents_global_index_witness :
  let respondenten :=
    [ {| code := "R1" |}; {| code := "R2" |}; {| code := "R3" |};
      {| code := "R4" |}; {| code := "R5" |} ] in
  ∃ item perPdf,
    distributeRespondents respondenten ["a.pdf"; "b.pdf"]%string 4 !! 1%nat
    = Some item
    ∧ Math_ceil_div 5 2 = Finite (Z.of_nat perPdf)
    ∧ (∀ k : nat, (k < perPdf)%nat →
         respondentCodes item !! k
         = code <$> respondenten !! (1 * perPdf + k)%nat)
    ∧ (∀ k : nat, (perPdf ≤ k)%nat → respondentCodes item !! k = None).
Proof.
  intros respondenten.
  destruct (distributeRespondents respondenten ["a.pdf"; "b.pdf"]%string 4
              !! 1%nat) as [item|] eqn:Hitem; [|discriminate].
  destruct (distributeRespondents_global_index respondenten
              ["a.pdf"; "b.pdf"]%string 4 1 item) as (perPdf & H1 & H2 & H3);
    [done|done|].
  by exists item, perPdf.
Defined.

(** For a list of PDFs that is not empty, an entry records its size in
    [respondentsAssigned], has one detail per code, in the same order, and
    holds the respondents that are left from its start index on, up to
    perPdf of them. *)
Theorem distributeRespondents_sizes respondenten pdfUrls pagesCount
    (i : nat) item :
  pdfUrls ≠ [] →
  distributeRespondents respondenten pdfUrls pagesCount !! i = Some item →
  ∃ perPdf,
    Math_ceil_div (Z.of_nat (length respondenten)) (Z.of_nat (length pdfUrls))
    = Finite perPdf
    ∧ respondentsAssigned item
      = Z.max 0 (Z.min perPdf
                   (Z.of_nat (length respondenten) - Z.of_nat i * perPdf))
    ∧ Z.of_nat (length (respondentCodes item)) = respondentsAssigned item
    ∧ detail_code <$> respondentDetails item = respondentCodes item.
Proof.
  intros Hne Hitem.
  assert (0 < length pdfUrls)%nat as Hn by (destruct pdfUrls; [done|simpl; lia]).
  destruct (Math_ceil_div_spec (Z.of_nat (length respondenten))
              (Z.of_nat (length pdfUrls))) as (q & Hq & Hq0 & _); [lia..|].
  apply distributeRespondents_lookup in Hitem as (url & codes & _ & Hc & ->).
  rewrite Hq, respondentSlice_take_drop in Hc by done.
  exists q. split; [done|]. cbn [respondentsAssigned respondentCodes
    respondentDetails]. split_and!; [|done|].
  - subst codes. rewrite length_fmap, length_take, length_drop. nia.
  - unfold planDetails. rewrite fmap_imap.
    rewrite <- (list_fmap_id codes) at 2. by rewrite <- imap_const.
Qed.

Lemma distributeRespondents_sizes_witness :
  let respondenten :=
    [ {| code := "R1" |}; {| code := "R2" |}; {| code := "R3" |};
      {| code := "R4" |}; {| code := "R5" |} ] in
  ∃ item perPdf,
    distributeRespondents respondenten ["a.pdf"; "b.pdf"]%string 4 !! 1%nat
    = Some item
    ∧ Math_ceil_div 5 2 = Finite perPdf
    ∧ respondentsAssigned item = Z.max 0 (Z.min perPdf (5 - 1 * perPdf))
    ∧ Z.of_nat (length (respondentCodes item)) = respondentsAssigned item
    ∧ detail_code <$> respondentDetails item = respondentCodes item.
Proof.
  intros respondenten.
  destruct (distributeRespondents respondenten ["a.pdf"; "b.pdf"]%string 4
              !! 1%nat) as [item|] eqn:Hitem; [|discriminate].
  destruct (distributeRespondents_sizes respondenten
              ["a.pdf"; "b.pdf"]%string 4 1 item) as (perPdf & H1 & H2 & H3);
    [done|done|].
  by exists item, perPdf.
Defined.

(** When the number of PDFs divides the number of respondents, every PDF
    gets the same number of respondents. *)
Theorem distributeRespondents_even_split respondenten pdfUrls pagesCount
    (perPdf : nat) item :
  pdfUrls ≠ [] →
  length respondenten = (length pdfUrls * perPdf)%nat →
  item ∈ distributeRespondents respondenten pdfUrls pagesCount →
  length (respondentCodes item) = perPdf.
Proof.
  intros Hne Hlen [i Hitem]%list_elem_of_lookup.
  assert (i < length pdfUrls)%nat as Hi.
  { apply lookup_lt_Some in Hitem.
    by rewrite distributeRespondents_length in Hitem. }
  destruct (Math_ceil_div_spec (Z.of_nat (length respondenten))
              (Z.of_nat (length pdfUrls))) as (q & Hq & Hq0 & Hlo & Hhi);
    [lia..|].
  assert (q = Z.of_nat perPdf) as -> by nia.
  apply distributeRespondents_lookup in Hitem as (url & codes & _ & Hc & ->).
  rewrite Hq, respondentSlice_take_drop in Hc by done.
  cbn [respondentCodes]. subst codes.
  rewrite length_fmap, length_take, length_drop. nia.
Qed.

Lemma distributeRespondents_even_split_witness :
  let respondenten :=
    [ {| code := "R1" |}; {| code := "R2" |}; {| code := "R3" |};
      {| code := "R4" |} ] in
  let item :=
    {| pdfUrl := "b.pdf"; pdfIndex := 1; respondentsAssigned := 2;
       respondentCodes := ["R3"; "R4"]%string;
       respondentDetails :=
         [ {| detail_code := "R3"; annotationPages := [2; 3; 4; 5] |};
           {| detail_code := "R4"; annotationPages := [8; 9; 10; 11] |} ] |} in
  item ∈ distributeRespondents respondenten ["a.pdf"; "b.pdf"]%string 4
  ∧ length (respondentCodes item) = 2%nat.
Proof.
  intros respondenten item.
  assert (item ∈ distributeRespondents respondenten ["a.pdf"; "b.pdf"]%string 4)
    as Hitem by (apply list_elem_of_lookup; by exists 1%nat).
  split; [done|].
  apply (distributeRespondents_even_split respondenten
           ["a.pdf"; "b.pdf"]%string 4 2 item); done.
Defined.

(** * What the annotator draws *)

Lemma elem_of_concat {A} (x : A) (ls : list (list A)) :
  x ∈ concat ls ↔ ∃ l, l ∈ ls ∧ x ∈ l.
Proof.
  rewrite list_elem_of_In, in_concat.
  split; intros (l & H1 & H2); exists l.
  - by rewrite !list_elem_of_In.
  - by rewrite <- !list_elem_of_In.
Qed.

Lemma lastPage_calculateAnnotationPages (i p : Z) :
  0 < p →
  lastPage (calculateAnnotationPages i p)
  = Some (i * getPagesPerRespondentBlock p + 2 + (p - 1)).
Proof.
  intros Hp. unfold lastPage.
  rewrite last_lookup, calculateAnnotationPages_length.
  apply calculateAnnotationPages_lookup. lia.
Qed.

(** The stamps are the planned pages that the document has, each with the
    code of the respondent it was planned for. *)
Lemma elem_of_annotationStamps codes p actualPages logo st :
  st ∈ annotationStamps codes p actualPages logo
  ↔ ∃ (i : nat) c pageIndex,
      codes !! i = Some c
      ∧ pageIndex ∈ calculateAnnotationPages (Z.of_nat i) p
      ∧ pageIndex < actualPages
      ∧ st = {| stamp_page := pageIndex; stamp_code := c; stamp_logo := logo;
                stamp_footer :=
                  if bool_decide
                       (Some pageIndex
                        = lastPage (calculateAnnotationPages (Z.of_nat i) p))
                  then footerEndText else footerContinueText |}.
Proof.
  unfold annotationStamps. rewrite elem_of_concat. split.
  - intros (l & (i & c & -> & Hc)%elem_of_lookup_imap & Hst).
    unfold stampPages in Hst.
    apply list_elem_of_omap in Hst as (pageIndex & Hin & Hsome).
    destruct (Z.ltb_spec pageIndex actualPages); [|done].
    exists i, c, pageIndex. by simplify_eq.
  - intros (i & c & pageIndex & Hc & Hin & Hlt & ->).
    eexists. split; [apply elem_of_lookup_imap; by exists i, c|].
    unfold stampPages. apply list_elem_of_omap. exists pageIndex.
    split; [done|]. apply Z.ltb_lt in Hlt. by rewrite Hlt.
Qed.

(** Every stamp is on a page that the document has and that is not a cover
    letter or the blank page after it; it shows the code of the respondent
    in whose block the page lies, and the logo when there is one. *)
Theorem annotationStamps_owner codes p actualPages logo st :
  st ∈ annotationStamps codes p actualPages logo →
  2 ≤ stamp_page st < actualPages
  ∧ 2 ≤ stamp_page st `mod` getPagesPerRespondentBlock p < p + 2
  ∧ codes !! Z.to_nat (stamp_page st `div` getPagesPerRespondentBlock p)
    = Some (stamp_code st)
  ∧ stamp_logo st = logo.
Proof.
  intros (i & c & pageIndex & Hc & Hin & Hlt & ->)%elem_of_annotationStamps.
  cbn [stamp_page stamp_code stamp_logo].
  pose proof (calculateAnnotationPages_in_block _ _ _ (Nat2Z.is_nonneg i) Hin).
  pose proof (getPagesPerRespondentBlock_lower p).
  destruct (calculateAnnotationPages_owner _ _ _ (Nat2Z.is_nonneg i) Hin)
    as [-> Hmod].
  rewrite Nat2Z.id. split_and!; try done; try lia; nia.
Qed.

Lemma annotationStamps_owner_witness :
  let st := {| stamp_page := 9; stamp_code := "R2"; stamp_logo := false;
               stamp_footer := footerContinueText |} in
  st ∈ annotationStamps ["R1"; "R2"]%string 4 12 false
  ∧ 2 ≤ stamp_page st < 12
  ∧ 2 ≤ stamp_page st `mod` getPagesPerRespondentBlock 4 < 4 + 2
  ∧ ["R1"; "R2"]%string
      !! Z.to_nat (stamp_page st `div` getPagesPerRespondentBlock 4)
    = Some (stamp_code st)
  ∧ stamp_logo st = false.
Proof.
  intros st.
  assert (st ∈ annotationStamps ["R1"; "R2"]%string 4 12 false) as Hin
    by (apply list_elem_of_lookup; by exists 5%nat).
  split; [done|].
  by apply (annotationStamps_owner ["R1"; "R2"]%string 4 12 false st).
Defined.

(** The footer of a stamp is the closing text on the last questionnaire
    page of a block and the text that sends the reader overleaf on every
    other page. *)
Theorem annotationStamps_footer codes p actualPages logo st :
  st ∈ annotationStamps codes p actualPages logo →
  stamp_footer st
  = (if bool_decide (stamp_page st `mod` getPagesPerRespondentBlock p = p + 1)
     then footerEndText else footerContinueText).
Proof.
  intros (i & c & pageIndex & Hc & Hin & Hlt & ->)%elem_of_annotationStamps.
  cbn [stamp_page stamp_footer].
  pose proof (getPagesPerRespondentBlock_lower p) as Hlow.
  apply list_elem_of_lookup in Hin as [k Hk].
  apply calculateAnnotationPages_lookup in Hk as [-> Hk].
  rewrite lastPage_calculateAnnotationPages by lia.
  set (bs := getPagesPerRespondentBlock p) in *.
  assert ((Z.of_nat i * bs + 2 + Z.of_nat k) `mod` bs = 2 + Z.of_nat k) as ->.
  { symmetry. apply (Z.mod_unique_pos _ _ (Z.of_nat i)); lia. }
  destruct (decide (Z.of_nat k = p - 1)) as [Heq|Hne].
  - rewrite !bool_decide_eq_true_2; [done|lia|f_equal; lia].
  - rewrite !bool_decide_eq_false_2; [done|lia|intros [= ?]; lia].
Qed.

Lemma annotationStamps_footer_witness :
  let st := {| stamp_page := 11; stamp_code := "R2"; stamp_logo := false;
               stamp_footer := footerEndText |} in
  st ∈ annotationStamps ["R1"; "R2"]%string 4 12 false
  ∧ stamp_footer st
    = (if bool_decide (stamp_page st `mod` getPagesPerRespondentBlock 4 = 4 + 1)
       then footerEndText else footerContinueText).
Proof.
  intros st.
  assert (st ∈ annotationStamps ["R1"; "R2"]%string 4 12 false) as Hin
    by (apply list_elem_of_lookup; by exists 7%nat).
  split; [done|].
  by apply (annotationStamps_footer ["R1"; "R2"]%string 4 12 false st).
Defined.

Lemma stamps_from_offset_pages codes p actualPages logo (off : nat) x :
  x ∈ stamp_page
        <$> concat (imap (λ i c, stampPages c
                                   (calculateAnnotationPages
                                      (Z.of_nat (off + i)) p)
                                   actualPages logo) codes) →
  ∃ i : nat, x ∈ calculateAnnotationPages (Z.of_nat (off + i)) p.
Proof.
  intros (st & -> & Hst)%list_elem_of_fmap.
  apply elem_of_concat in Hst as (l & Hl & Hst).
  apply elem_of_lookup_imap in Hl as (i & c & -> & _).
  exists i. unfold stampPages in Hst.
  apply list_elem_of_omap in Hst as (pageIndex & Hin & Hsome).
  destruct (pageIndex <? actualPages); by simplify_eq.
Qed.

Lemma stamps_from_offset_NoDup codes p actualPages logo (off : nat) :
  NoDup (stamp_page
           <$> concat (imap (λ i c, stampPages c
                                      (calculateAnnotationPages
                                         (Z.of_nat (off + i)) p)
                                      actualPages logo) codes)).
Proof.
  revert off. induction codes as [|c codes IH]; intros off; [constructor|].
  rewrite imap_cons. cbn [concat]. rewrite fmap_app.
  rewrite (imap_ext _ (λ i c, stampPages c
                                (calculateAnnotationPages
                                   (Z.of_nat (S off + i)) p)
                                actualPages logo));
    [|intros i c' _; simpl; do 3 f_equal; lia].
  apply NoDup_app. split_and!.
  - rewrite stampPages_pages, calculateAnnotationPages_seqZ.
    apply NoDup_filter, NoDup_seqZ.
  - intros x Hx [i Hi]%stamps_from_offset_pages.
    rewrite stampPages_pages in Hx. apply list_elem_of_filter in Hx as [_ Hx].
    pose proof (calculateAnnotationPages_in_block _ _ _
                  (Nat2Z.is_nonneg _) Hx).
    pose proof (calculateAnnotationPages_in_block _ _ _
                  (Nat2Z.is_nonneg _) Hi).
    pose proof (getPagesPerRespondentBlock_lower p). nia.
  - apply IH.
Qed.

(** No page of a document is stamped twice, whatever the codes, the page
    count of the questionnaire and the size of the document. *)
Theorem annotationStamps_pages_NoDup codes p actualPages logo :
  NoDup (stamp_page <$> annotationStamps codes p actualPages logo).
Proof. apply (stamps_from_offset_NoDup codes p actualPages logo 0). Qed.

(** * Further properties of the annotator and of the handler *)

Lemma string_length_app (a b : string) :
  String.length (a +:+ b) = (String.length a + String.length b)%nat.
Proof.
  induction a as [|x a IH]; [done|].
  change (S (String.length (a +:+ b))
          = S (String.length a + String.length b)).
  by rewrite IH.
Qed.

(** A common ending can be taken off both sides of an equation between
    texts. *)
Lemma string_app_inj_r (a b ending : string) :
  a +:+ ending = b +:+ ending → a = b.
Proof.
  revert b. induction a as [|x a IH]; intros [|y b] Heq; [done|..].
  - apply (f_equal String.length) in Heq.
    rewrite !string_length_app in Heq. simpl in Heq. lia.
  - apply (f_equal String.length) in Heq.
    rewrite !string_length_app in Heq. simpl in Heq. lia.
  - change (String x (a +:+ ending) = String y (b +:+ ending)) in Heq.
    injection Heq as -> Heq. f_equal. by apply IH.
Qed.

Section annotator_facts.
Context `{Collaborators}.

Lemma bind_pure_call {A B} (r : string + A) (k : A → Run B) s :
  bind (pure_call r) k s
  = match r with inl message => (inl message, s) | inr a => k a s end.
Proof. unfold bind, pure_call. by destruct r. Qed.

(** The outcome of the drawing loop of [annotatePdf] on a document that
    was loaded, with the logo that was embedded or none. *)
Lemma annotatePdf_drawing pdfDoc codes pagesCount logoImage s :
  bind (pure_call (Js.planDetails codes pagesCount))
    (λ _,
       match firstEncodingError
               (annotationStamps codes pagesCount (getPageCount pdfDoc)
                  (bool_decide (is_Some logoImage))) with
       | Some message => throw message
       | None =>
           ret (save pdfDoc logoImage
                  (annotationStamps codes pagesCount (getPageCount pdfDoc)
                     (bool_decide (is_Some logoImage))))
       end) s
  = (if bool_decide (codes ≠ []) && (2 ^ 32 <=? pagesCount)
     then inl "Invalid array length"
     else match firstEncodingError
                  (annotationStamps codes pagesCount (getPageCount pdfDoc)
                     (bool_decide (is_Some logoImage))) with
          | Some message => inl message
          | None =>
              inr (save pdfDoc logoImage
                     (annotationStamps codes pagesCount (getPageCount pdfDoc)
                        (bool_decide (is_Some logoImage))))
          end, s).
Proof.
  unfold bind, pure_call. rewrite js_planDetails_cases.
  destruct (bool_decide (codes ≠ []) && (2 ^ 32 <=? pagesCount)); [done|].
  by destruct (firstEncodingError _).
Qed.

(** When the codes and the two footers can be encoded, every stamp can be
    drawn. *)
Lemma firstEncodingError_None codes pagesCount actualPages logo :
  (∀ text, text ∈ footerEndText :: footerContinueText :: codes →
           encodingError text = None) →
  firstEncodingError (annotationStamps codes pagesCount actualPages logo)
  = None.
Proof.
  intros Hencode. unfold firstEncodingError.
  assert (∀ st, st ∈ annotationStamps codes pagesCount actualPages logo →
                encodingError (stamp_code st) = None
                ∧ encodingError (stamp_footer st) = None) as Hstamps.
  { intros st (i & c & pageIndex & Hc & _ & _ & ->)%elem_of_annotationStamps.
    cbn [stamp_code stamp_footer]. split.
    - apply Hencode. do 2 right. by eapply list_elem_of_lookup_2.
    - apply Hencode. destruct (bool_decide _); [by left|right; by left]. }
  induction (annotationStamps codes pagesCount actualPages logo)
    as [|st stamps IH]; [done|].
  cbn [omap list_omap].
  destruct (Hstamps st) as [-> ->]; [by left|].
  apply IH. intros st' Hin. apply Hstamps. by right.
Qed.

(** The ways in which [annotatePdf] ends. *)
Lemma annotatePdf_run pdfBuffer codes logoUrl pagesCount s :
  match PDFDocument_load pdfBuffer with
  | inl message =>
      annotatePdf pdfBuffer codes logoUrl pagesCount s = (inl message, s)
  | inr pdfDoc =>
      ∃ logoImage s',
        annotatePdf pdfBuffer codes logoUrl pagesCount s
        = (if bool_decide (codes ≠ []) && (2 ^ 32 <=? pagesCount)
           then inl "Invalid array length"
           else match firstEncodingError
                        (annotationStamps codes pagesCount
                           (getPageCount pdfDoc)
                           (bool_decide (is_Some logoImage))) with
                | Some message => inl message
                | None =>
                    inr (save pdfDoc logoImage
                           (annotationStamps codes pagesCount
                              (getPageCount pdfDoc)
                              (bool_decide (is_Some logoImage))))
                end, s')
        ∧ (logoUrl = "" → logoImage = None ∧ s' = s)
        ∧ (∀ message w, downloadImage logoUrl (world s) = (inl message, w) →
             logoImage = None)
  end.
Proof.
  unfold annotatePdf. cbv zeta. rewrite bind_pure_call.
  destruct (PDFDocument_load pdfBuffer) as [message|pdfDoc]; [done|].
  match goal with
  | |- context [bind _ ?k s] => set (draw := k)
  end.
  assert (∀ logoImage s',
            draw logoImage s'
            = (if bool_decide (codes ≠ []) && (2 ^ 32 <=? pagesCount)
               then inl "Invalid array length"
               else match firstEncodingError
                            (annotationStamps codes pagesCount
                               (getPageCount pdfDoc)
                               (bool_decide (is_Some logoImage))) with
                    | Some message => inl message
                    | None =>
                        inr (save pdfDoc logoImage
                               (annotationStamps codes pagesCount
                                  (getPageCount pdfDoc)
                                  (bool_decide (is_Some logoImage))))
                    end, s')) as Hdraw
    by (intros; apply annotatePdf_drawing).
  clearbody draw.
  unfold bind, try_catch, ret, logCall, io, pure_call.
  destruct (String.eqb_spec logoUrl "") as [->|Hurl]; simpl.
  - exists None, s. split; [apply Hdraw|]. by split.
  - destruct (downloadImage logoUrl (world s))
      as [[message|[logoBuffer contentType]] w] eqn:Himage.
    + eexists None, _. split; [apply Hdraw|]. by split.
    + destruct (String.eqb contentType "image/png").
      { destruct (embedPng pdfDoc logoBuffer) as [message|embedded];
          eexists _, _; (split; [apply Hdraw|]); by split. }
      destruct (String.eqb contentType "image/jpeg").
      { destruct (embedJpg pdfDoc logoBuffer) as [message|embedded];
          eexists _, _; (split; [apply Hdraw|]); by split. }
      eexists None, _. split; [apply Hdraw|]. by split.
Qed.

(** [annotatePdf] fails in three ways.  The PDF cannot be loaded: then
    nothing is requested.  The planner throws: there are codes, and 2^32
    pages or more per questionnaire.  A text of a stamp cannot be encoded.
    Otherwise it returns the saved document with the stamps of all codes,
    with or without the logo: a logo that cannot be fetched or embedded
    does not stop the annotation, and without a logo URL nothing is
    fetched. *)
Theorem annotatePdf_outcome pdfBuffer codes logoUrl pagesCount s :
  match PDFDocument_load pdfBuffer with
  | inl message =>
      annotatePdf pdfBuffer codes logoUrl pagesCount s = (inl message, s)
  | inr pdfDoc =>
      ∃ logoImage s',
        annotatePdf pdfBuffer codes logoUrl pagesCount s
        = (if bool_decide (codes ≠ []) && (2 ^ 32 <=? pagesCount)
           then inl "Invalid array length"
           else match firstEncodingError
                        (annotationStamps codes pagesCount
                           (getPageCount pdfDoc)
                           (bool_decide (is_Some logoImage))) with
                | Some message => inl message
                | None =>
                    inr (save pdfDoc logoImage
                           (annotationStamps codes pagesCount
                              (getPageCount pdfDoc)
                              (bool_decide (is_Some logoImage))))
                end, s')
        ∧ (logoUrl = "" → logoImage = None ∧ s' = s)
        ∧ (∀ message w, downloadImage logoUrl (world s) = (inl message, w) →
             logoImage = None)
  end.
Proof. apply annotatePdf_run. Qed.



(** The names of the files of the archive are [batch_1.pdf],
    [batch_2.pdf], ... in the order of the plan; no two files of an archive
    have the same name, and the buffers go in as they are. *)
Theorem filesToZip_names (annotatedPdfBuffers : list Buffer) :
  fst <$> filesToZip annotatedPdfBuffers = annotatedPdfBuffers
  ∧ NoDup (snd <$> filesToZip annotatedPdfBuffers)
  ∧ ∀ (index : nat) buffer,
      annotatedPdfBuffers !! index = Some buffer →
      filesToZip annotatedPdfBuffers !! index
      = Some (buffer, "batch_" +:+ pretty (Z.of_nat index + 1) +:+ ".pdf").
Proof.
  unfold filesToZip. split_and!.
  - rewrite fmap_imap. rewrite <- (list_fmap_id annotatedPdfBuffers) at 2.
    by rewrite <- imap_const.
  - rewrite fmap_imap.
    assert (imap (λ n, snd ∘ (λ buffer : Buffer,
                    (buffer,
                     "batch_" +:+ pretty (Z.of_nat n + 1) +:+ ".pdf")))
                 annotatedPdfBuffers
            = (λ index : nat,
                 "batch_" +:+ pretty (Z.of_nat index + 1) +:+ ".pdf")
              <$> seq 0 (length annotatedPdfBuffers)) as ->
      by apply (imap_seq_0 annotatedPdfBuffers
                  (λ index : nat,
                     "batch_" +:+ pretty (Z.of_nat index + 1) +:+ ".pdf")).
    apply NoDup_fmap_2; [|apply NoDup_seq].
    intros i j Heq. apply (inj (String.append "batch_")) in Heq.
    apply string_app_inj_r, (inj pretty) in Heq. lia.
  - intros index buffer Hb. by rewrite list_lookup_imap, Hb.
Qed.
End annotator_facts.

(** A code with a capital omega, in UTF-8, on a PDF that loads: the first
    page cannot be drawn, and [annotatePdf] throws; with 2^32 pages per
    questionnaire the planner throws. *)
Example annotatePdf_throws :
  annotatePdf (H:=Flaky.collaborators true true)
    (Flaky.file true true "a.pdf" 1200)
    [String "R" (String "206" (String "169" EmptyString))] "" 4
    (Flaky.start true true)
  = (inl "WinAnsi cannot encode", Flaky.start true true)
  ∧ annotatePdf (H:=Flaky.collaborators true true)
      (Flaky.file true true "a.pdf" 1200) ["R1"] "" (2 ^ 32)
      (Flaky.start true true)
    = (inl "Invalid array length", Flaky.start true true).
Proof. split; by vm_compute. Qed.

Lemma mapM_as_string_inv (items : list json) (urls : list string) :
  mapM as_string items = Some urls → items = JStr <$> urls.
Proof.
  intros Hall%mapM_Some.
  induction Hall as [|item url items urls Hitem _ IH]; [done|].
  rewrite fmap_cons, <- IH. by destruct item; simplify_eq/=.
Qed.

(** A body that passes validation has the three fields in the shape that
    the handler reads: the URLs and the codes of the request are the texts
    of the body, in the order of the body. *)
Theorem validateBody_sound requestBody request :
  validateBody requestBody = inr request →
  prop requestBody "pdfUrls" = Some (JArr (JStr <$> req_pdfUrls request))
  ∧ prop requestBody "annotate" = Some (JBool (req_annotate request))
  ∧ ∃ metadata respondenten,
      prop requestBody "metadata" = Some metadata
      ∧ prop metadata "logoUrl" = Some (JStr (req_logoUrl request))
      ∧ prop metadata "pagesCount" = Some (JNum (req_pagesCount request))
      ∧ prop metadata "respondenten" = Some (JArr respondenten)
      ∧ Forall2 (λ r respondent, prop r "code" = Some (JStr (code respondent)))
          respondenten (req_respondenten request).
Proof.
  unfold validateBody. intros Hv.
  repeat (case_match; simplify_eq). cbn [req_pdfUrls req_annotate req_logoUrl
    req_pagesCount req_respondenten].
  split_and!; [|done|].
  - match goal with Hm : mapM as_string _ = Some _ |- _ =>
      by apply mapM_as_string_inv in Hm as -> end.
  - eexists _, _. split_and!; try done.
    match goal with Hm : mapM as_respondent _ = Some _ |- _ =>
      apply mapM_Some in Hm; rename Hm into Hrs end.
    eapply Forall2_impl; [done|]. intros r respondent Hr.
    unfold as_respondent in Hr. by repeat (case_match; simplify_eq/=).
Qed.

Lemma validateBody_sound_witness :
  let requestBody := requestBody ["a.pdf"] true "logo" (NumInt 4) ["R1"] in
  let request :=
    {| req_pdfUrls := ["a.pdf"]; req_annotate := true; req_logoUrl := "logo";
       req_pagesCount := NumInt 4; req_respondenten := [ {| code := "R1" |} ] |} in
  prop requestBody "pdfUrls" = Some (JArr (JStr <$> req_pdfUrls request))
  ∧ prop requestBody "annotate" = Some (JBool (req_annotate request))
  ∧ ∃ metadata respondenten,
      prop requestBody "metadata" = Some metadata
      ∧ prop metadata "logoUrl" = Some (JStr (req_logoUrl request))
      ∧ prop metadata "pagesCount" = Some (JNum (req_pagesCount request))
      ∧ prop metadata "respondenten" = Some (JArr respondenten)
      ∧ Forall2 (λ r respondent, prop r "code" = Some (JStr (code respondent)))
          respondenten (req_respondenten request).
Proof.
  intros requestBody request.
  apply (validateBody_sound requestBody request). reflexivity.
Defined.

Lemma validateBody_not_null requestBody request :
  validateBody requestBody = inr request → requestBody ≠ JNull.
Proof. by intros Hv ->. Qed.

Section handler_extra.
Context `{Collaborators}.

(** The handler leaves the world as it is and makes no call, unless the
    request is a POST whose body passes validation and debug mode is off:
    preflight requests, other methods, missing or malformed bodies, invalid
    fields and debug runs never reach a collaborator. *)
Theorem handler_io_only_when_live event s outcome s' :
  handler event s = (outcome, s') →
  s' = s
  ∨ ∃ requestBody request,
      httpMethod event = "POST"
      ∧ body event = BodyText (inr requestBody)
      ∧ validateBody requestBody = inr request
      ∧ query_debug event ≠ Some "true".
Proof.
  unfold handler. intros Hrun.
  destruct (String.eqb (httpMethod event) "OPTIONS"); [left; congruence|].
  destruct (String.eqb_spec (httpMethod event) "POST") as [Hpost|_];
    [|left; simpl in Hrun; congruence].
  simpl in Hrun. unfold handlerTry in Hrun.
  destruct (body event) as [|[message|requestBody]] eqn:Hbody;
    [left; unfold ret in Hrun; congruence
    |left; unfold bind, pure_call in Hrun; congruence|].
  unfold bind at 1, pure_call at 1 in Hrun.
  destruct (validateBody requestBody) as [failure|request] eqn:Hvalid.
  { left. destruct requestBody; unfold ret, throw in Hrun; congruence. }
  destruct (req_pagesCount request) as [pagesCount|] eqn:Hpages.
  2: { left. destruct requestBody; unfold ret, throw in Hrun; congruence. }
  destruct (decide (query_debug event = Some "true")) as [Hdebug|Hdebug].
  { left. rewrite bool_decide_eq_true_2 in Hrun by done.
    destruct requestBody; unfold ret, throw in Hrun; congruence. }
  right. by exists requestBody, request.
Qed.

(** The [annotate] flag of the request is checked to be a boolean and is
    not looked at again: two requests that differ in nothing else are
    handled in the same way. *)
Theorem handler_ignores_annotate pdfUrls logoUrl pagesCount codes debug s :
  handler (postEvent (requestBody pdfUrls true logoUrl pagesCount codes) debug) s
  = handler (postEvent (requestBody pdfUrls false logoUrl pagesCount codes)
               debug) s.
Proof.
  destruct pagesCount as [pagesCount|].
  - destruct (decide (debug = Some "true")) as [->|Hdebug].
    + by erewrite !handler_debug;
        [|done|apply validateBody_requestBody|done
         |done|apply validateBody_requestBody|done].
    + by erewrite !handler_live;
        [|done|apply validateBody_requestBody|done|done
         |done|apply validateBody_requestBody|done|done].
  - rewrite !handler_post. unfold handlerTry, postEvent, pure_call, bind.
    cbn [body requestBody]. by rewrite !validateBody_requestBody.
Qed.
End handler_extra.

Lemma handler_io_only_when_live_witness :
  ∃ outcome,
    handler (H:=Demo.collaborators)
      (postEvent (requestBody ["a.pdf"] true "" (NumInt 4) ["R1"]) None)
      Demo.start
    = (outcome,
       {| world := (tt : @World Demo.collaborators);
          calls := [ CallDownloadPdf "a.pdf";
                     CallAnnotatePdf (Demo.file "a.pdf" 1200) ["R1"] "" 4;
                     CallCreateZip
                       [(Demo.file "a.pdf annotated" 1204, "batch_1.pdf")];
                     CallUploadToFileIo (Demo.file "archive" 1226)
                       "respondenten_2024-12-31.zip" ] |})
    ∧ ∃ requestBody request,
        httpMethod (postEvent (requestBody) None) = "POST"
        ∧ validateBody requestBody = inr request.
Proof.
  eexists. split; [reflexivity|].
  destruct (handler_io_only_when_live (H:=Demo.collaborators)
              (postEvent (requestBody ["a.pdf"] true "" (NumInt 4) ["R1"]) None)
              Demo.start _ _ eq_refl)
    as [Hsame|(requestBody & request & Hpost & Hbody & Hvalid & _)].
  - discriminate Hsame.
  - by exists requestBody, request.
Defined.

Section batch_facts.
Context `{Collaborators}.

(** After a loop that went through, the handler builds the archive once.
    A failure of the archiver is a 500 with its message; an archive over
    the limit is a 413; an archive of at most 2 GiB, the limit included, is
    uploaded once, as [respondenten_<date>.zip], and the answer is the
    success response with the URL and expiry of the upload or, if the
    upload fails, a 500 that tells the reason and the size of the archive. *)
Theorem handler_after_loop requestBody request pagesCount debug s
    buffers perFile s1 :
  validateBody requestBody = inr request →
  req_pagesCount request = NumInt pagesCount →
  debug ≠ Some "true" →
  processPlan (req_logoUrl request) pagesCount
    (distributeRespondents (req_respondenten request) (req_pdfUrls request)
       pagesCount) ([], []) s
  = (inr (buffers, perFile), s1) →
  let files := filesToZip buffers in
  let zipped := {| world := world s1; calls := calls s1 ++ [CallCreateZip files] |} in
  handler (postEvent requestBody debug) s
  = match createZip files with
    | inl message =>
        (Returned {| statusCode := 500;
                     responseBody := InternalServerError message |}, zipped)
    | inr zipBuffer =>
        if TWO_GB <? buffer_length zipBuffer then
          (Returned {| statusCode := 413;
                       responseBody := ZipTooLarge (buffer_length zipBuffer) |},
           zipped)
        else
          let filename := "respondenten_" +:+ today (world s1) +:+ ".zip" in
          let uploaded w :=
            {| world := w;
               calls := calls s1 ++ [ CallCreateZip files;
                                      CallUploadToFileIo zipBuffer filename ] |} in
          match uploadToFileIo zipBuffer filename (world s1) with
          | (inr (url, expires), w) =>
              (Returned
                 {| statusCode := 200;
                    responseBody :=
                      Success url expires
                        (Z.of_nat (length (req_respondenten request)))
                        (Z.of_nat (length buffers)) perFile
                        (buffer_length zipBuffer) |}, uploaded w)
          | (inl message, w) =>
              (Returned
                 {| statusCode := 500;
                    responseBody :=
                      UploadFailed message (buffer_length zipBuffer) |},
               uploaded w)
          end
    end.
Proof.
  intros Hvalid Hpages Hdebug Hloop files zipped.
  rewrite (handler_live _ _ _ _ _ (validateBody_not_null _ _ Hvalid)
             Hvalid Hpages Hdebug).
  unfold processLive. unfold bind at 1. rewrite Hloop.
  unfold bind at 1, logCall at 1. unfold bind at 1, pure_call at 1.
  fold files. cbn [world calls]. fold zipped.
  destruct (createZip files) as [message|zipBuffer]; [done|].
  destruct (TWO_GB <? buffer_length zipBuffer); [done|].
  unfold try_catch, bind, now, logCall, io, ret. cbn [world calls].
  destruct (uploadToFileIo _ _ _) as [[message|[url expires]] w];
    subst zipped; cbn [calls]; by rewrite <- ?app_assoc.
Qed.


Lemma processPlan_failure_inv logoUrl pagesCount plan acc s message s' :
  processPlan logoUrl pagesCount plan acc s = (inl message, s') →
  ∃ planItem reason extra,
    planItem ∈ plan
    ∧ message = "Failed to process PDF from " +:+ pdfUrl planItem
                +:+ ". Reason: " +:+ reason
    ∧ calls s' = calls s ++ extra
    ∧ Forall (λ c, isLoopCall c = true) extra.
Proof.
  revert acc s. induction plan as [|item plan IH]; intros acc s Hrun;
    [done|].
  cbn [processPlan] in Hrun. unfold bind in Hrun.
  destruct (processPlanItem _ _ _ _ s) as [[e|acc1] s1] eqn:Hitem.
  - simplify_eq. destruct acc as [buffers perFile].
    unfold processPlanItem in Hitem.
    unfold try_catch at 1 in Hitem. unfold bind at 1 2 in Hitem.
    unfold logCall at 1, io at 1 in Hitem. cbn [world calls] in Hitem.
    destruct (downloadPdf (pdfUrl item) (world s)) as [[e|pdfBuffer] w].
    + unfold throw in Hitem. simplify_eq.
      exists item, e, [CallDownloadPdf (pdfUrl item)].
      split_and!; [by left|done|done|by repeat constructor].
    + destruct (respondentCodes item) as [|c codes] eqn:Hcodes; [done|].
      change (0 <? Z.of_nat (length (c :: codes))) with true in Hitem.
      cbv iota in Hitem. unfold bind at 1, logCall at 1 in Hitem.
      cbn [world calls] in Hitem. unfold bind at 1 in Hitem.
      destruct (annotatePdf _ _ _ _ _) as [[e|annotated] s2] eqn:Hannotate;
        [|done].
      unfold throw in Hitem. simplify_eq.
      apply annotatePdf_calls in Hannotate as (extra & Hcalls & Hextra).
      cbn [calls] in Hcalls.
      exists item, e,
        (CallDownloadPdf (pdfUrl item)
         :: CallAnnotatePdf pdfBuffer (c :: codes) logoUrl pagesCount :: extra).
      split_and!; [by left|done|by rewrite Hcalls, <- !app_assoc|].
      repeat (constructor; [done|]).
      eapply Forall_impl; [done|]. by intros ? ->.
  - destruct acc as [buffers perFile], acc1 as [buffers1 perFile1].
    apply processPlanItem_inv in Hitem as (_ & _ & extra1 & Hcalls1 & Hextra1).
    apply IH in Hrun
      as (planItem & reason & extra2 & Hin & -> & Hcalls2 & Hextra2).
    exists planItem, reason, (extra1 ++ extra2).
    split_and!; [by right|done|by rewrite Hcalls2, Hcalls1, <- app_assoc|].
    by apply Forall_app.
Qed.

(** When the loop fails, the error names a PDF of the plan, and the calls
    made up to the failure are calls of the loop: downloads, annotations
    with codes and logo downloads. *)
Theorem processPlan_failure logoUrl pagesCount plan acc s message s' :
  processPlan logoUrl pagesCount plan acc s = (inl message, s') →
  ∃ planItem reason extra,
    planItem ∈ plan
    ∧ message = "Failed to process PDF from " +:+ pdfUrl planItem
                +:+ ". Reason: " +:+ reason
    ∧ calls s' = calls s ++ extra
    ∧ Forall (λ c, isLoopCall c = true) extra.
Proof. apply processPlan_failure_inv. Qed.

(** The ways in which [processLive] ends. *)
Lemma processLive_inv request pagesCount plan s result s' :
  processLive request pagesCount plan s = (result, s') →
  match result with
  | inl message =>
      processPlan (req_logoUrl request) pagesCount plan ([], []) s
      = (inl message, s')
      ∨ ∃ buffers perFile s1,
          processPlan (req_logoUrl request) pagesCount plan ([], []) s
          = (inr (buffers, perFile), s1)
          ∧ createZip (filesToZip buffers) = inl message
  | inr response =>
      (statusCode response = 413
       ∧ ∃ zipLength, responseBody response = ZipTooLarge zipLength)
      ∨ (statusCode response = 500
         ∧ ∃ message zipLength,
             responseBody response = UploadFailed message zipLength)
      ∨ (statusCode response = 200
         ∧ ∃ url expires respondentCount filesInZip perFile zipLength,
             responseBody response
             = Success url expires respondentCount filesInZip perFile
                 zipLength)
  end.
Proof.
  unfold processLive. unfold bind at 1.
  destruct (processPlan _ _ _ _ s) as [[e|[buffers perFile]] s1] eqn:Hloop.
  { intros [= <- <-]. by left. }
  unfold bind at 1, logCall at 1. unfold bind at 1, pure_call at 1.
  destruct (createZip (filesToZip buffers)) as [e|zipBuffer] eqn:Hzip.
  { intros [= <- <-]. right. by eexists _, _, _. }
  destruct (TWO_GB <? buffer_length zipBuffer).
  { intros [= <- <-]. left. split; [done|by eexists]. }
  unfold try_catch, bind, now, logCall, io, ret. cbn [world calls].
  destruct (uploadToFileIo _ _ _) as [[e|[url expires]] w]; intros [= <- <-].
  - right. left. split; [done|by eexists _, _].
  - right. right. split; [done|by eexists _, _, _, _, _, _].
Qed.
End batch_facts.

Lemma handler_after_loop_witness :
  handler (H:=Flaky.collaborators true false)
    (postEvent (requestBody ["a.pdf"] true "" (NumInt 4) ["R1"]) None)
    (Flaky.start true false)
  = (Returned
       {| statusCode := 500;
          responseBody :=
            UploadFailed "Failed to upload to file.io: Network Error" 1226 |},
     {| world := (2%nat : @World (Flaky.collaborators true false));
        calls :=
          [ CallDownloadPdf "a.pdf";
            CallAnnotatePdf (Flaky.file true false "a.pdf" 1200) ["R1"] "" 4;
            CallCreateZip
              [(Flaky.file true false "a.pdf annotated" 1204, "batch_1.pdf")];
            CallUploadToFileIo (Flaky.file true false "archive" 1226)
              "respondenten_2024-12-31.zip" ] |}).
Proof.
  etrans.
  - apply (handler_after_loop (H:=Flaky.collaborators true false)
             (requestBody ["a.pdf"] true "" (NumInt 4) ["R1"])
             {| req_pdfUrls := ["a.pdf"]; req_annotate := true;
                req_logoUrl := ""; req_pagesCount := NumInt 4;
                req_respondenten := [ {| code := "R1" |} ] |}
             4 None (Flaky.start true false)
             [Flaky.file true false "a.pdf annotated" 1204] [1]
             {| world := (1%nat : @World (Flaky.collaborators true false));
                calls :=
                  [ CallDownloadPdf "a.pdf";
                    CallAnnotatePdf (Flaky.file true false "a.pdf" 1200)
                      ["R1"] "" 4 ] |});
      [reflexivity|reflexivity|done|reflexivity].
  - reflexivity.
Defined.


Lemma processPlan_failure_witness :
  ∃ s' planItem reason extra,
    processPlan (H:=Flaky.collaborators true true) "" 4
      (distributeRespondents [ {| code := "R1" |}; {| code := "R2" |} ]
         ["a.pdf"; "broken.pdf"] 4) ([], []) (Flaky.start true true)
    = (inl "Failed to process PDF from broken.pdf. Reason: No PDF header found",
       s')
    ∧ planItem ∈ distributeRespondents
                   [ {| code := "R1" |}; {| code := "R2" |} ]
                   ["a.pdf"; "broken.pdf"]%string 4
    ∧ "Failed to process PDF from broken.pdf. Reason: No PDF header found"
      = "Failed to process PDF from " +:+ pdfUrl planItem
        +:+ ". Reason: " +:+ reason
    ∧ calls s' = calls (Flaky.start true true) ++ extra
    ∧ Forall (λ c, isLoopCall c = true) extra.
Proof.
  eexists.
  destruct (processPlan_failure (H:=Flaky.collaborators true true) "" 4
              (distributeRespondents [ {| code := "R1" |}; {| code := "R2" |} ]
                 ["a.pdf"; "broken.pdf"] 4) ([], []) (Flaky.start true true)
              _ _ eq_refl)
    as (planItem & reason & extra & Hin & Hmsg & Hcalls & Hextra).
  exists planItem, reason, extra. by split_and!.
Defined.

(** * What the live path stamps *)

(** For an entry of the plan, what [annotatePdf] draws from the codes is
    what drawing the stored pages gives. *)
Lemma annotationStamps_stored respondenten pdfUrls pagesCount item
    actualPages logo :
  item ∈ distributeRespondents respondenten pdfUrls pagesCount →
  annotationStamps (respondentCodes item) pagesCount actualPages logo
  = stampStoredPages (respondentDetails item) actualPages logo.
Proof.
  intros Hitem. rewrite (distributeRespondents_details _ _ _ _ Hitem).
  unfold annotationStamps, stampStoredPages, planDetails.
  by rewrite fmap_imap.
Qed.

(** The pages that are stamped are the stored pages that the document
    has, respondent by respondent. *)
Lemma stampStoredPages_pages details actualPages logo :
  stamp_page <$> stampStoredPages details actualPages logo
  = concat ((λ d, filter (λ pageIndex, pageIndex < actualPages)
                    (annotationPages d)) <$> details).
Proof.
  unfold stampStoredPages. rewrite fmap_concat, <- list_fmap_compose.
  f_equal. apply list_fmap_ext. intros _ d _. apply stampPages_pages.
Qed.

Lemma filter_below_all (bound : Z) (numbers : list Z) :
  Forall (λ x, x < bound) numbers →
  filter (λ x, x < bound) numbers = numbers.
Proof.
  intros Hall. induction Hall as [|x numbers Hlt _ IH]; [done|].
  rewrite filter_cons, decide_True by done. by f_equal.
Qed.

(** On a document that has the pages of all blocks, every stored page is
    stamped. *)
Lemma stampStoredPages_all respondenten pdfUrls pagesCount item
    actualPages logo :
  item ∈ distributeRespondents respondenten pdfUrls pagesCount →
  getPagesPerRespondentBlock pagesCount
    * Z.of_nat (length (respondentCodes item)) ≤ actualPages →
  stamp_page <$> stampStoredPages (respondentDetails item) actualPages logo
  = concat (annotationPages <$> respondentDetails item).
Proof.
  intros Hitem Hpages. rewrite stampStoredPages_pages.
  rewrite (distributeRespondents_details _ _ _ _ Hitem).
  unfold planDetails. rewrite !fmap_imap. f_equal.
  apply imap_ext. intros k c Hc%lookup_lt_Some. simpl.
  apply filter_below_all, Forall_forall. intros pageIndex.
  intros Hin%calculateAnnotationPages_in_block; [|lia].
  pose proof (getPagesPerRespondentBlock_lower pagesCount).
  destruct (Z.le_gt_cases 0 (getPagesPerRespondentBlock pagesCount)); nia.
Qed.

Section live_stamps.
Context `{Collaborators}.

(** A turn of the loop for an entry with codes, when it does not throw:
    the PDF of the entry was downloaded and loaded, [annotatePdf] was
    called with the codes of the entry, and the buffer that the turn
    appends is the document saved with the stamps of these codes. *)
Lemma processPlanItem_annotated logoUrl pagesCount planItem buffers perFile
    s buffers' perFile' s' :
  processPlanItem logoUrl pagesCount planItem (buffers, perFile) s
  = (inr (buffers', perFile'), s') →
  respondentCodes planItem ≠ [] →
  ∃ pdfBuffer pdfDoc logoImage w,
    downloadPdf (pdfUrl planItem) (world s) = (inr pdfBuffer, w)
    ∧ CallAnnotatePdf pdfBuffer (respondentCodes planItem) logoUrl pagesCount
      ∈ calls s'
    ∧ PDFDocument_load pdfBuffer = inr pdfDoc
    ∧ buffers'
      = buffers
        ++ [save pdfDoc logoImage
              (annotationStamps (respondentCodes planItem) pagesCount
                 (getPageCount pdfDoc) (bool_decide (is_Some logoImage)))].
Proof.
  intros Hrun Hcodes. unfold processPlanItem in Hrun.
  unfold try_catch at 1 in Hrun. unfold bind at 1 2 in Hrun.
  unfold logCall at 1, io at 1 in Hrun. cbn [world calls] in Hrun.
  destruct (downloadPdf (pdfUrl planItem) (world s)) as [[e|pdfBuffer] w];
    [done|].
  destruct (respondentCodes planItem) as [|c codes]; [done|].
  change (0 <? Z.of_nat (length (c :: codes))) with true in Hrun.
  cbv iota in Hrun. unfold bind at 1, logCall at 1 in Hrun.
  cbn [world calls] in Hrun. unfold bind at 1 in Hrun.
  destruct (annotatePdf _ _ _ _ _) as [[e|annotated] s1] eqn:Hannotate;
    [done|].
  unfold ret in Hrun. simplify_eq.
  pose proof (annotatePdf_calls _ _ _ _ _ _ _ Hannotate)
    as (extra & Hcalls & _). cbn [calls] in Hcalls.
  pose proof (annotatePdf_run pdfBuffer (c :: codes) logoUrl pagesCount
                {| world := w;
                   calls := (calls s ++ [CallDownloadPdf (pdfUrl planItem)])
                            ++ [CallAnnotatePdf pdfBuffer (c :: codes)
                                  logoUrl pagesCount] |}) as Hend.
  destruct (PDFDocument_load pdfBuffer) as [e|pdfDoc] eqn:Hload;
    [by rewrite Hannotate in Hend|].
  destruct Hend as (logoImage & s2 & Hend & _). rewrite Hannotate in Hend.
  exists pdfBuffer, pdfDoc, logoImage, w.
  split; [done|]. split.
  { rewrite Hcalls. rewrite !elem_of_app.
    left. right. by apply list_elem_of_singleton. }
  split; [done|].
  destruct (bool_decide _ && _); [done|].
  destruct (firstEncodingError _); [done|]. by simplify_eq.
Qed.

(** The loop only appends to the buffers and to the log. *)
Lemma processPlan_prefix logoUrl pagesCount plan buffers perFile
    s buffers' perFile' s' :
  processPlan logoUrl pagesCount plan (buffers, perFile) s
  = (inr (buffers', perFile'), s') →
  (∃ more, buffers' = buffers ++ more)
  ∧ ∃ extra, calls s' = calls s ++ extra.
Proof.
  revert buffers perFile s.
  induction plan as [|item plan IH]; intros buffers perFile s Hrun.
  - simpl in Hrun. unfold ret in Hrun. simplify_eq.
    split; exists []; by rewrite app_nil_r.
  - cbn [processPlan] in Hrun. unfold bind in Hrun.
    destruct (processPlanItem _ _ _ _ s) as [[e|[buffers1 perFile1]] s1]
      eqn:Hitem; [done|].
    apply processPlanItem_inv in Hitem
      as (_ & [b ->] & extra1 & Hcalls1 & _).
    apply IH in Hrun as ([more ->] & extra2 & Hcalls2).
    split.
    + exists (b :: more). by rewrite <- app_assoc.
    + exists (extra1 ++ extra2). by rewrite Hcalls2, Hcalls1, <- app_assoc.
Qed.

(** A run of the loop that does not throw has annotated the PDF of every
    entry with codes, and holds the result at the position of the
    entry. *)
Lemma processPlan_annotated logoUrl pagesCount plan buffers perFile
    s buffers' perFile' s' (k : nat) planItem :
  processPlan logoUrl pagesCount plan (buffers, perFile) s
  = (inr (buffers', perFile'), s') →
  plan !! k = Some planItem →
  respondentCodes planItem ≠ [] →
  ∃ pdfBuffer pdfDoc logoImage,
    CallAnnotatePdf pdfBuffer (respondentCodes planItem) logoUrl pagesCount
      ∈ calls s'
    ∧ PDFDocument_load pdfBuffer = inr pdfDoc
    ∧ buffers' !! (length buffers + k)%nat
      = Some (save pdfDoc logoImage
                (annotationStamps (respondentCodes planItem) pagesCount
                   (getPageCount pdfDoc) (bool_decide (is_Some logoImage)))).
Proof.
  revert k buffers perFile s.
  induction plan as [|item plan IH]; intros k buffers perFile s Hrun Hk Hcodes;
    [done|].
  cbn [processPlan] in Hrun. unfold bind in Hrun.
  destruct (processPlanItem _ _ _ _ s) as [[e|[buffers1 perFile1]] s1]
    eqn:Hitem; [done|].
  destruct k as [|k].
  - injection Hk as ->.
    apply processPlanItem_annotated in Hitem
      as (pdfBuffer & pdfDoc & logoImage & w & _ & Hcall & Hload & ->);
      [|done].
    apply processPlan_prefix in Hrun as ([more ->] & extra & Hcalls).
    exists pdfBuffer, pdfDoc, logoImage. split_and!.
    + rewrite Hcalls. apply elem_of_app. by left.
    + done.
    + rewrite Nat.add_0_r, <- app_assoc. by apply list_lookup_middle.
  - apply processPlanItem_inv in Hitem as (_ & [b ->] & _).
    destruct (IH k _ _ _ Hrun Hk Hcodes)
      as (pdfBuffer & pdfDoc & logoImage & Hcall & Hload & Hbuffer).
    exists pdfBuffer, pdfDoc, logoImage. split; [done|]. split; [done|].
    rewrite length_app in Hbuffer. simpl in Hbuffer.
    by replace (length buffers + S k)%nat
      with (length buffers + 1 + k)%nat by lia.
Qed.

(** The archive is built once, after a loop that went through, from the
    buffers of the loop. *)
Lemma processLive_archive request pagesCount plan s result s' files :
  processLive request pagesCount plan s = (result, s') →
  CallCreateZip files ∈ calls s' →
  CallCreateZip files ∉ calls s →
  ∃ buffers perFile s1 extra,
    processPlan (req_logoUrl request) pagesCount plan ([], []) s
    = (inr (buffers, perFile), s1)
    ∧ files = filesToZip buffers
    ∧ calls s' = calls s1 ++ extra.
Proof.
  intros Hrun Hin Hfresh.
  assert (∀ extra : list Call,
            Forall (λ c, isLoopCall c = true) extra →
            CallCreateZip files ∉ extra) as Hloop.
  { intros extra Hextra Hzip.
    by apply (proj1 (Forall_forall _ _) Hextra) in Hzip. }
  unfold processLive in Hrun. unfold bind at 1 in Hrun.
  destruct (processPlan _ _ _ _ s) as [[e|[buffers perFile]] s1] eqn:Hplan.
  { simplify_eq.
    apply processPlan_failure_inv in Hplan
      as (_ & _ & extra & _ & _ & Hcalls & Hextra).
    rewrite Hcalls in Hin. apply elem_of_app in Hin as [Hin|Hin]; [done|].
    by apply Hloop in Hin. }
  pose proof (processPlan_inv _ _ _ _ _ _ _ _ _ Hplan)
    as (_ & _ & extra & Hcalls & Hextra).
  exists buffers, perFile, s1.
  assert (∀ rest,
            calls s' = calls s1 ++ CallCreateZip (filesToZip buffers) :: rest →
            Forall (λ c, isUpload c = true) rest →
            ∃ extra', files = filesToZip buffers
                      ∧ calls s' = calls s1 ++ extra') as Hend.
  { intros rest Hcalls' Hrest. eexists. split; [|done].
    rewrite Hcalls', Hcalls in Hin. rewrite !elem_of_app in Hin.
    destruct Hin as [[Hin|Hin]|Hin]; [done|by apply Hloop in Hin|].
    apply elem_of_cons in Hin as [[= ->]|Hin]; [done|].
    by apply (proj1 (Forall_forall _ _) Hrest) in Hin. }
  unfold bind at 1, logCall at 1 in Hrun. unfold bind at 1, pure_call at 1 in Hrun.
  cbn [world calls] in Hrun.
  destruct (createZip (filesToZip buffers)) as [e|zipBuffer].
  { simplify_eq. destruct (Hend []) as (extra' & -> & Hcalls'); [done|done|].
    by exists extra'. }
  destruct (TWO_GB <? buffer_length zipBuffer).
  { unfold ret in Hrun. simplify_eq.
    destruct (Hend []) as (extra' & -> & Hcalls'); [done|done|].
    by exists extra'. }
  unfold try_catch, bind, now, logCall, io, ret in Hrun.
  cbn [world calls] in Hrun.
  destruct (uploadToFileIo _ _ _) as [[e|[url expires]] w]; simplify_eq;
    (destruct (Hend [CallUploadToFileIo zipBuffer
                       ("respondenten_" +:+ today (world s1) +:+ ".zip")])
       as (extra' & -> & Hcalls');
     [by rewrite <- app_assoc|by repeat constructor|by exists extra']).
Qed.

(** C6, amended: in a live run that builds the archive, for every entry
    of the plan with codes, [annotatePdf] was called with the codes of the
    entry and the pagesCount of the request; the pages it computes for a
    position are the annotationPages stored for that position; the file of
    the entry in the archive is the downloaded document, saved with the
    stamps that drawing the stored pages gives; the pages that are stamped
    are, respondent by respondent, the stored pages that the document has,
    and they are all the stored pages when the document has the pages of
    all blocks.  Debug mode returns the same plan. *)
Theorem live_path_stamps_stored_pages requestBody request pagesCount debug
    s outcome s' files :
  validateBody requestBody = inr request →
  req_pagesCount request = NumInt pagesCount →
  debug ≠ Some "true" →
  handler (postEvent requestBody debug) s = (outcome, s') →
  CallCreateZip files ∈ calls s' →
  CallCreateZip files ∉ calls s →
  let plan := distributeRespondents (req_respondenten request)
                (req_pdfUrls request) pagesCount in
  (∃ totalRespondents respondentsPerPdf blockSize,
     handler (postEvent requestBody (Some "true")) s
     = (Returned
          {| statusCode := 200;
             responseBody :=
               DebugPlan totalRespondents respondentsPerPdf pagesCount
                 blockSize plan |}, s))
  ∧ length files = length plan
  ∧ ∀ (k : nat) item,
      plan !! k = Some item →
      respondentCodes item ≠ [] →
      (∀ (j : nat) c,
         respondentCodes item !! j = Some c →
         ∃ d, respondentDetails item !! j = Some d
              ∧ detail_code d = c
              ∧ calculateAnnotationPages (Z.of_nat j) pagesCount
                = annotationPages d)
      ∧ ∃ pdfBuffer pdfDoc logoImage name,
          let stamps :=
            stampStoredPages (respondentDetails item) (getPageCount pdfDoc)
              (bool_decide (is_Some logoImage)) in
          CallAnnotatePdf pdfBuffer (respondentCodes item)
            (req_logoUrl request) pagesCount ∈ calls s'
          ∧ PDFDocument_load pdfBuffer = inr pdfDoc
          ∧ files !! k = Some (save pdfDoc logoImage stamps, name)
          ∧ stamp_page <$> stamps
            = concat
                ((λ d, filter (λ pageIndex, pageIndex < getPageCount pdfDoc)
                         (annotationPages d))
                   <$> respondentDetails item)
          ∧ (getPagesPerRespondentBlock pagesCount
               * Z.of_nat (length (respondentCodes item))
             ≤ getPageCount pdfDoc →
             stamp_page <$> stamps
             = concat (annotationPages <$> respondentDetails item)).
Proof.
  intros Hvalid Hpages Hdebug Hrun Hin Hfresh plan.
  pose proof (validateBody_not_null _ _ Hvalid) as Hnull.
  split.
  { eexists _, _, _. by apply handler_debug. }
  rewrite (handler_live _ _ _ _ _ Hnull Hvalid Hpages Hdebug) in Hrun.
  fold plan in Hrun.
  destruct (processLive request pagesCount plan s) as [result s2] eqn:Hlive.
  assert (s2 = s') as -> by (by destruct result; simplify_eq).
  destruct (processLive_archive _ _ _ _ _ _ _ Hlive Hin Hfresh)
    as (buffers & perFile & s1 & extra & Hloop & -> & Hcalls).
  pose proof (processPlan_inv _ _ _ _ _ _ _ _ _ Hloop) as (_ & Hlength & _).
  split.
  { unfold filesToZip. by rewrite length_imap, Hlength. }
  intros k item Hitem Hcodes.
  assert (item ∈ plan) as Hmember
    by (apply list_elem_of_lookup; by exists k).
  split.
  { intros j c Hc. rewrite (distributeRespondents_details _ _ _ _ Hmember).
    eexists. split; [by apply planDetails_lookup; eexists|done]. }
  destruct (processPlan_annotated _ _ _ _ _ _ _ _ _ k item Hloop Hitem Hcodes)
    as (pdfBuffer & pdfDoc & logoImage & Hcall & Hload & Hbuffer).
  simpl in Hbuffer.
  exists pdfBuffer, pdfDoc, logoImage,
    ("batch_" +:+ pretty (Z.of_nat k + 1) +:+ ".pdf").
  cbv zeta. split_and!.
  - rewrite Hcalls. apply elem_of_app. by left.
  - done.
  - unfold filesToZip. rewrite list_lookup_imap, Hbuffer. simpl.
    by rewrite (annotationStamps_stored _ _ _ _ _ _ Hmember).
  - apply stampStoredPages_pages.
  - intros Hall. by eapply stampStoredPages_all.
Qed.
End live_stamps.

Lemma live_path_stamps_stored_pages_witness :
  let requestBody :=
    requestBody ["https://cdn.example/a.pdf"] true "" (NumInt 4) ["R1"; "R2"] in
  let request :=
    {| req_pdfUrls := ["https://cdn.example/a.pdf"]; req_annotate := true;
       req_logoUrl := ""; req_pagesCount := NumInt 4;
       req_respondenten := [ {| code := "R1" |}; {| code := "R2" |} ] |} in
  let files : list (@Buffer (utilsCollaborators (H:=Lab.libraries)) * string) :=
    [ (Lab.file [37; 80; 68; 70; 45; 2; 3; 4; 5; 8; 9; 10; 11],
       "batch_1.pdf") ] in
  let s' : State (H:=utilsCollaborators (H:=Lab.libraries)) :=
    {| world := (2%nat : @World (utilsCollaborators (H:=Lab.libraries)));
       calls :=
         [ CallDownloadPdf "https://cdn.example/a.pdf";
           CallAnnotatePdf (Lab.file [37; 80; 68; 70; 45]) ["R1"; "R2"] "" 4;
           CallCreateZip files;
           CallUploadToFileIo
             (Lab.file [37; 80; 68; 70; 45; 2; 3; 4; 5; 8; 9; 10; 11])
             "respondenten_2024-12-31.zip" ] |} in
  let plan := distributeRespondents (req_respondenten request)
                (req_pdfUrls request) 4 in
  (∃ totalRespondents respondentsPerPdf blockSize,
     handler (postEvent requestBody (Some "true")) Lab.start
     = (Returned
          {| statusCode := 200;
             responseBody :=
               DebugPlan totalRespondents respondentsPerPdf 4
                 blockSize plan |}, Lab.start))
  ∧ length files = length plan
  ∧ ∀ (k : nat) item,
      plan !! k = Some item →
      respondentCodes item ≠ [] →
      (∀ (j : nat) c,
         respondentCodes item !! j = Some c →
         ∃ d, respondentDetails item !! j = Some d
              ∧ detail_code d = c
              ∧ calculateAnnotationPages (Z.of_nat j) 4
                = annotationPages d)
      ∧ ∃ pdfBuffer pdfDoc logoImage name,
          let stamps :=
            stampStoredPages (respondentDetails item) (getPageCount pdfDoc)
              (bool_decide (is_Some logoImage)) in
          CallAnnotatePdf pdfBuffer (respondentCodes item)
            (req_logoUrl request) 4 ∈ calls s'
          ∧ PDFDocument_load pdfBuffer = inr pdfDoc
          ∧ files !! k = Some (save pdfDoc logoImage stamps, name)
          ∧ stamp_page <$> stamps
            = concat
                ((λ d, filter (λ pageIndex, pageIndex < getPageCount pdfDoc)
                         (annotationPages d))
                   <$> respondentDetails item)
          ∧ (getPagesPerRespondentBlock 4
               * Z.of_nat (length (respondentCodes item))
             ≤ getPageCount pdfDoc →
             stamp_page <$> stamps
             = concat (annotationPages <$> respondentDetails item)).
Proof.
  intros requestBody request files s'.
  apply (live_path_stamps_stored_pages
           (H:=utilsCollaborators (H:=Lab.libraries))
           requestBody request 4 None Lab.start
           (Returned
              {| statusCode := 200;
                 responseBody :=
                   Success "https://file.io/abc" "14d" 2 1 [2] 13 |})
           s' files);
    [reflexivity|reflexivity|done|reflexivity| |].
  - apply list_elem_of_lookup. by exists 2%nat.
  - apply not_elem_of_nil.
Defined.

(** C6, where the claim fails: three respondents with four pages each and
    one PDF of twelve pages.  The plan stores the pages 14 to 17 for the
    third respondent; the document has no such pages, and the file in the
    archive carries the stamps of the first two respondents only. *)
Lemma live_path_skips_missing_pages :
  handler (H:=utilsCollaborators (H:=Lab.libraries))
    (postEvent
       (requestBody ["https://cdn.example/a.pdf"] true "" (NumInt 4)
          ["R1"; "R2"; "R3"]) None)
    Lab.start
  = (Returned
       {| statusCode := 200;
          responseBody := Success "https://file.io/abc" "14d" 3 1 [3] 13 |},
     {| world := (2%nat : @World (utilsCollaborators (H:=Lab.libraries)));
        calls :=
          [ CallDownloadPdf "https://cdn.example/a.pdf";
            CallAnnotatePdf (Lab.file [37; 80; 68; 70; 45])
              ["R1"; "R2"; "R3"] "" 4;
            CallCreateZip
              [ (Lab.file
                   ([37; 80; 68; 70; 45]
                    ++ (stamp_page
                          <$> annotationStamps ["R1"; "R2"; "R3"] 4 12 false)),
                 "batch_1.pdf") ];
            CallUploadToFileIo
              (Lab.file [37; 80; 68; 70; 45; 2; 3; 4; 5; 8; 9; 10; 11])
              "respondenten_2024-12-31.zip" ] |})
  ∧ (∀ pdfDoc, @getPageCount (utilsCollaborators (H:=Lab.libraries))
                 pdfDoc = 12)
  ∧ stamp_page <$> annotationStamps ["R1"; "R2"; "R3"] 4 12 false
    = [2; 3; 4; 5; 8; 9; 10; 11]
  ∧ ¬ (∀ item,
         item ∈ distributeRespondents
                  [ {| code := "R1" |}; {| code := "R2" |}; {| code := "R3" |} ]
                  ["https://cdn.example/a.pdf"] 4 →
         respondentCodes item ≠ [] →
         stamp_page <$> annotationStamps (respondentCodes item) 4 12 false
         = concat (annotationPages <$> respondentDetails item)).
Proof.
  split_and!; [by vm_compute|done|by vm_compute|].
  intros Hclaim.
  cut (stamp_page <$> annotationStamps ["R1"; "R2"; "R3"] 4 12 false
       = [2; 3; 4; 5; 8; 9; 10; 11; 14; 15; 16; 17]); [by vm_compute|].
  apply (Hclaim
    {| pdfUrl := "https://cdn.example/a.pdf"; pdfIndex := 0;
       respondentsAssigned := 3;
       respondentCodes := ["R1"; "R2"; "R3"];
       respondentDetails :=
         [ {| detail_code := "R1"; annotationPages := [2; 3; 4; 5] |};
           {| detail_code := "R2"; annotationPages := [8; 9; 10; 11] |};
           {| detail_code := "R3"; annotationPages := [14; 15; 16; 17] |} ] |});
    [by left|done].
Qed.

(** * Page counts outside the domain *)






(** * The test endpoint *)

(** For every scenario, not only the three that the endpoint shows: the
    breakdown has one item per respondent, item k is planned at index k,
    and every page of the breakdown lies in a document of the total number
    of pages that the result announces, after the first two pages. *)
Theorem scenarioResult_consistent (sc : Scenario) :
  0 ≤ respondents sc →
  let result := scenarioResult sc in
  Z.of_nat (length (breakdown result)) = respondents sc
  ∧ totalExpectedPdfPages result
    = pagesPerRespondentBlock result * respondents sc
  ∧ ∀ (k : nat) item,
      breakdown result !! k = Some item →
      respondentIndexInPdf item = Z.of_nat k
      ∧ breakdown_annotationPages item
        = calculateAnnotationPages (Z.of_nat k) (pages sc)
      ∧ ∀ x, x ∈ breakdown_annotationPages item →
             2 ≤ x < totalExpectedPdfPages result.
Proof.
  intros Hn result. subst result. unfold scenarioResult, Array_from_length.
  cbn [breakdown totalExpectedPdfPages pagesPerRespondentBlock].
  split_and!; [rewrite length_fmap, length_seqZ; lia|done|].
  intros k item Hk. rewrite list_lookup_fmap in Hk.
  destruct (seqZ 0 (respondents sc) !! k) as [i|] eqn:Hi; [|done].
  apply lookup_seqZ in Hi as [-> Hi]. simpl in Hk. simplify_eq.
  cbn [respondentIndexInPdf breakdown_annotationPages].
  split_and!; [done..|].
  intros x Hx%calculateAnnotationPages_in_block; [|lia].
  pose proof (getPagesPerRespondentBlock_lower (pages sc)). nia.
Qed.

Lemma scenarioResult_consistent_witness :
  let sc := {| title := "3 respondents, 5 questionnaire pages";
               respondents := 3; pages := 5 |} in
  let result := scenarioResult sc in
  Z.of_nat (length (breakdown result)) = 3
  ∧ totalExpectedPdfPages result = pagesPerRespondentBlock result * 3
  ∧ ∀ (k : nat) item,
      breakdown result !! k = Some item →
      respondentIndexInPdf item = Z.of_nat k
      ∧ breakdown_annotationPages item
        = calculateAnnotationPages (Z.of_nat k) 5
      ∧ ∀ x, x ∈ breakdown_annotationPages item →
             2 ≤ x < totalExpectedPdfPages result.
Proof.
  intros sc.
  apply (scenarioResult_consistent sc). simpl. lia.
Defined.

(** What the endpoint answers to a GET. *)
Example testCalculations_GET :
  testCalculations "GET"
  = (200,
     Some
       [ {| scenario := "2 respondents, 4 questionnaire pages";
            pagesPerRespondentBlock := 6; totalExpectedPdfPages := 12;
            breakdown :=
              [ {| respondentIndexInPdf := 0;
                   breakdown_annotationPages := [2; 3; 4; 5] |};
                {| respondentIndexInPdf := 1;
                   breakdown_annotationPages := [8; 9; 10; 11] |} ] |};
         {| scenario := "3 respondents, 5 questionnaire pages";
            pagesPerRespondentBlock := 8; totalExpectedPdfPages := 24;
            breakdown :=
              [ {| respondentIndexInPdf := 0;
                   breakdown_annotationPages := [2; 3; 4; 5; 6] |};
                {| respondentIndexInPdf := 1;
                   breakdown_annotationPages := [10; 11; 12; 13; 14] |};
                {| respondentIndexInPdf := 2;
                   breakdown_annotationPages := [18; 19; 20; 21; 22] |} ] |};
         {| scenario := "1 respondent, 3 questionnaire pages";
            pagesPerRespondentBlock := 6; totalExpectedPdfPages := 6;
            breakdown :=
              [ {| respondentIndexInPdf := 0;
                   breakdown_annotationPages := [2; 3; 4] |} ] |} ]).
Proof. reflexivity. Qed.

(** * The helpers of utils *)

Section utils_facts.
Context `{Axios}.

(** [downloadPdf] sends one request.  It returns the body of a response
    with status 200, unchanged.  An error of axios is reported with its
    message; any other failure, a response with another status included,
    is reported as an unknown error: the message with the status code that
    the function builds never leaves it. *)
Theorem downloadPdf_result url net result net' :
  Utils.downloadPdf url net = (result, net') →
  ∃ answer,
    axios_get url net = (answer, net')
    ∧ match result with
      | inr buffer =>
          ∃ response, answer = inr response
                      ∧ status response = 200 ∧ buffer = data response
      | inl message =>
          (∃ reason fromBody,
             answer = inl (AxiosError reason fromBody)
             ∧ message
               = "Failed to download PDF from " +:+ url +:+ ": " +:+ reason)
          ∨ ((∀ reason fromBody, answer ≠ inl (AxiosError reason fromBody))
             ∧ (∀ response, answer = inr response → status response ≠ 200)
             ∧ message
               = "An unknown error occurred while downloading the PDF from "
                 +:+ url +:+ ".")
      end.
Proof.
  unfold Utils.downloadPdf.
  destruct (axios_get url net) as [[thrown|response] net1]; intros [= <- <-];
    (eexists; split; [done|]).
  - destruct thrown; [left; by eexists _, _|right..]; by split_and!.
  - destruct (Z.eqb_spec (status response) 200) as [Hs|Hs]; simpl.
    + by exists response.
    + right. split_and!; [done| |done]. by intros ? [= <-].
Qed.

(** [uploadToFileIo] sends one form to file.io, with the archive under the
    given file name and an expiry of 14 days.  It returns the link and the
    expiry of an answer that reports success; every failure has one of
    three messages, and for an error of axios the message of the response
    body is preferred to the one of the error unless it is missing or
    empty. *)
Theorem uploadToFileIo_result zipBuffer filename net result net' :
  Utils.uploadToFileIo zipBuffer filename net = (result, net') →
  ∃ answer,
    axios_post_form "https://file.io/" zipBuffer filename "14d" net
    = (answer, net')
    ∧ match result with
      | inr (url, expires) =>
          ∃ response, answer = inr response
                      ∧ success (data response) = true
                      ∧ url = link (data response)
                      ∧ expires = expiry (data response)
      | inl message =>
          match answer with
          | inr response =>
              success (data response) = false
              ∧ message
                = "An unknown error occurred during file upload: "
                  +:+ "file.io returned an error: "
                  +:+ JSON_stringify (data response)
          | inl (AxiosError reason (Some fromBody)) =>
              message
              = "Failed to upload to file.io: "
                +:+ (if String.eqb fromBody "" then reason else fromBody)
          | inl (AxiosError reason None) =>
              message = "Failed to upload to file.io: " +:+ reason
          | inl (PlainError reason) =>
              message
              = "An unknown error occurred during file upload: " +:+ reason
          | inl NotAnError =>
              message = "An unknown error occurred during file upload."
          end
      end.
Proof.
  unfold Utils.uploadToFileIo.
  destruct (axios_post_form _ _ _ _ net) as [[thrown|response] net1];
    intros [= <- <-]; (eexists; split; [done|]).
  - by destruct thrown as [reason [fromBody|]| |].
  - destruct (success (data response)) eqn:Hs; simpl; [by eexists|done].
Qed.
End utils_facts.

Lemma downloadPdf_result_witness :
  ∃ answer,
    axios_get (Axios:=Lab.axios) "https://cdn.example/empty.pdf" 0%nat
    = (answer, 1%nat)
    ∧ ((∃ reason fromBody,
          answer = inl (AxiosError reason fromBody)
          ∧ "An unknown error occurred while downloading the PDF from https://cdn.example/empty.pdf."
            = "Failed to download PDF from "
              +:+ "https://cdn.example/empty.pdf" +:+ ": " +:+ reason)
       ∨ ((∀ reason fromBody, answer ≠ inl (AxiosError reason fromBody))
          ∧ (∀ response, answer = inr response → status response ≠ 200)
          ∧ "An unknown error occurred while downloading the PDF from https://cdn.example/empty.pdf."
            = "An unknown error occurred while downloading the PDF from "
              +:+ "https://cdn.example/empty.pdf" +:+ ".")).
Proof.
  apply (downloadPdf_result (H:=Lab.axios) "https://cdn.example/empty.pdf"
           0%nat (inl _) 1%nat).
  reflexivity.
Defined.

Lemma uploadToFileIo_result_witness :
  ∃ answer,
    axios_post_form (Axios:=Lab.axios) "https://file.io/" [80; 75]
      "respondenten_2024-12-31.zip" "14d" 0%nat
    = (answer, 1%nat)
    ∧ ∃ response, answer = inr response
                  ∧ success (data response) = true
                  ∧ "https://file.io/abc" = link (data response)
                  ∧ "14d" = expiry (data response).
Proof.
  apply (uploadToFileIo_result (H:=Lab.axios) [80; 75]
           "respondenten_2024-12-31.zip" 0%nat
           (inr ("https://file.io/abc", "14d")) 1%nat).
  reflexivity.
Defined.


Lemma string_prefix_app (p s : string) :
  String.prefix p s = true → ∃ rest, s = p +:+ rest.
Proof.
  revert s. induction p as [|a p IH]; intros s Hp; [by exists s|].
  destruct s as [|b s]; [done|]. simpl in Hp.
  destruct (Ascii.ascii_dec a b) as [->|]; [|done].
  destruct (IH s Hp) as [rest ->]. by exists rest.
Qed.

Lemma ascii_leb_le (a b : Ascii.ascii) :
  Ascii.leb a b = true ↔ (N_of_ascii a ≤ N_of_ascii b)%N.
Proof.
  unfold Ascii.leb, Ascii.compare.
  destruct (N.compare_spec (N_of_ascii a) (N_of_ascii b)); split;
    intros; try done; lia.
Qed.

(** A character between two characters is the character of a code between
    their codes. *)
Lemma ascii_between (lo hi c : Ascii.ascii) :
  Ascii.leb lo c = true →
  Ascii.leb c hi = true →
  ∃ d : N, (N_of_ascii lo ≤ d ≤ N_of_ascii hi)%N ∧ c = ascii_of_N d.
Proof.
  intros H1%ascii_leb_le H2%ascii_leb_le.
  exists (N_of_ascii c). split; [lia|]. by rewrite ascii_N_embedding.
Qed.

(** The pattern for the 172 range blocks the host names that start with
    [172.], a number from 16 to 31 and a dot, and no other. *)
Theorem matchesPrivate172_spec (hostname : string) :
  Utils.matchesPrivate172 hostname = true
  ↔ ∃ (n : Z) rest,
      16 ≤ n ≤ 31 ∧ hostname = "172." +:+ pretty n +:+ "." +:+ rest.
Proof.
  split.
  - unfold Utils.matchesPrivate172.
    intros [[tail ->]%string_prefix_app Hrest]%andb_prop.
    destruct tail as [|d1 [|d2 [|dot rest]]]; try done.
    change (("172." +:+ String d1 (String d2 (String dot rest))))
      with (String "1" (String "7" (String "2" (String "."
              (String d1 (String d2 (String dot rest))))))) in *.
    cbn [String.get] in Hrest.
    apply andb_prop in Hrest as [Hdigits ->%Ascii.eqb_eq].
    assert (∃ n : Z, 16 ≤ n ≤ 31
                     ∧ String d1 (String d2 "") = pretty n) as (n & Hn & Hp).
    { repeat (apply orb_prop in Hdigits as [Hdigits|Hdigits]);
        apply andb_prop in Hdigits as [Hdigits Hhi];
        apply andb_prop in Hdigits as [->%Ascii.eqb_eq Hlo];
        destruct (ascii_between _ _ d2 Hlo Hhi) as (d & Hd & ->);
        vm_compute N_of_ascii in Hd.
      - assert (d = 54 ∨ d = 55 ∨ d = 56 ∨ d = 57)%N
          as [->|[->|[->| ->]]] by lia;
          [by exists 16|by exists 17|by exists 18|by exists 19].
      - assert (d = 48 ∨ d = 49 ∨ d = 50 ∨ d = 51 ∨ d = 52 ∨ d = 53
                ∨ d = 54 ∨ d = 55 ∨ d = 56 ∨ d = 57)%N
          as [->|[->|[->|[->|[->|[->|[->|[->|[->| ->]]]]]]]]] by lia;
          [by exists 20|by exists 21|by exists 22|by exists 23|by exists 24
          |by exists 25|by exists 26|by exists 27|by exists 28|by exists 29].
      - assert (d = 48 ∨ d = 49)%N as [->| ->] by lia;
          [by exists 30|by exists 31]. }
    exists n, rest. split; [done|]. rewrite <- Hp. reflexivity.
  - intros (n & rest & Hn & ->).
    assert (n = 16 ∨ n = 17 ∨ n = 18 ∨ n = 19 ∨ n = 20 ∨ n = 21 ∨ n = 22
            ∨ n = 23 ∨ n = 24 ∨ n = 25 ∨ n = 26 ∨ n = 27 ∨ n = 28 ∨ n = 29
            ∨ n = 30 ∨ n = 31) as Hcases by lia.
    repeat (destruct Hcases as [->|Hcases]; [reflexivity|]).
    subst n. reflexivity.
Qed.
Section image_facts.
Context `{Axios}.

Lemma isPng_spec (buffer : list Z) :
  Utils.isPng buffer = true ↔ take 8 buffer = Utils.pngMagic.
Proof.
  unfold Utils.isPng. rewrite andb_true_iff, bool_decide_eq_true.
  split; [by intros [_ ?]|]. intros Hmagic. split; [|done].
  apply Nat.leb_le. apply (f_equal length) in Hmagic.
  rewrite length_take in Hmagic.
  change (length Utils.pngMagic) with 8%nat in Hmagic. lia.
Qed.

Lemma isJpeg_spec (buffer : list Z) :
  Utils.isJpeg buffer = true ↔ take 3 buffer = Utils.jpegMagic.
Proof.
  unfold Utils.isJpeg. rewrite andb_true_iff, bool_decide_eq_true.
  split; [by intros [_ ?]|]. intros Hmagic. split; [|done].
  apply Nat.leb_le. apply (f_equal length) in Hmagic.
  rewrite length_take in Hmagic.
  change (length Utils.jpegMagic) with 3%nat in Hmagic. lia.
Qed.

(** [downloadImage] sends no request for a URL that does not parse, whose
    protocol is not http or https, or whose host is blocked: the answer is
    then one of three messages and the network is as before.  Otherwise it
    sends one request. *)
Theorem downloadImage_guard url net result net' :
  Utils.downloadImage url net = (result, net') →
  match URL_parse url with
  | None => result = inl "Invalid URL format" ∧ net' = net
  | Some (protocol, hostname) =>
      if bool_decide (protocol = "http:" ∨ protocol = "https:") then
        if Utils.isPrivateHost hostname then
          result = inl "Requests to private IP addresses are not allowed"
          ∧ net' = net
        else ∃ answer, axios_get url net = (answer, net')
      else result = inl "Only HTTP and HTTPS URLs are allowed" ∧ net' = net
  end.
Proof.
  unfold Utils.downloadImage.
  destruct (URL_parse url) as [[protocol hostname]|]; [|by intros [= <- <-]].
  assert (bool_decide (protocol ∈ ["http:"; "https:"])
          = bool_decide (protocol = "http:" ∨ protocol = "https:")) as ->.
  { apply bool_decide_ext. rewrite !elem_of_cons, elem_of_nil. tauto. }
  case_bool_decide; simpl; [|by intros [= <- <-]].
  destruct (Utils.isPrivateHost hostname); [by intros [= <- <-]|].
  destruct (axios_get url net) as [answer net1]. intros [= _ <-].
  by eexists.
Qed.

(** What [downloadImage] returns is the body of a response with status 200
    whose content type is [image/png] or [image/jpeg] and whose first bytes
    are the signature of that format; the content type is returned with
    it. *)
Theorem downloadImage_sound url net buffer contentType net' :
  Utils.downloadImage url net = (inr (buffer, contentType), net') →
  ∃ response,
    axios_get url net = (inr response, net')
    ∧ status response = 200
    ∧ content_type response = Some contentType
    ∧ buffer = data response
    ∧ (contentType = "image/png" ∧ take 8 buffer = Utils.pngMagic
       ∨ contentType = "image/jpeg" ∧ take 3 buffer = Utils.jpegMagic).
Proof.
  unfold Utils.downloadImage. intros Hrun.
  destruct (URL_parse url) as [[protocol hostname]|]; [|done].
  destruct (negb _); [done|].
  destruct (Utils.isPrivateHost hostname); [done|].
  destruct (axios_get url net) as [[thrown|response] net1].
  { by destruct thrown; simplify_eq. }
  exists response.
  destruct (Z.eqb_spec (status response) 200) as [Hs|Hs]; simpl in Hrun;
    [|done].
  destruct (content_type response) as [ct|]; [|done].
  case_bool_decide as Hct; [|done].
  rewrite !elem_of_cons, elem_of_nil in Hct.
  destruct Hct as [->|[->|[]]]; simpl in Hrun.
  - destruct (Utils.isPng (data response)) eqn:Hpng; simpl in Hrun; [|done].
    simplify_eq. apply isPng_spec in Hpng. split_and!; try done. by left.
  - destruct (Utils.isJpeg (data response)) eqn:Hjpeg; simpl in Hrun; [|done].
    simplify_eq. apply isJpeg_spec in Hjpeg. split_and!; try done. by right.
Qed.
End image_facts.

Lemma downloadImage_guard_witness :
  let url := "http://172.20.0.1/logo.png" in
  let result : string + list Z * string :=
    inl "Requests to private IP addresses are not allowed" in
  Utils.downloadImage (H:=Lab.axios) url 0%nat = (result, 0%nat)
  ∧ match URL_parse (Axios:=Lab.axios) url with
    | None => result = inl "Invalid URL format" ∧ 0%nat = 0%nat
    | Some (protocol, hostname) =>
        if bool_decide (protocol = "http:" ∨ protocol = "https:") then
          if Utils.isPrivateHost hostname then
            result = inl "Requests to private IP addresses are not allowed"
            ∧ 0%nat = 0%nat
          else ∃ answer, axios_get (Axios:=Lab.axios) url 0%nat = (answer, 0%nat)
        else result = inl "Only HTTP and HTTPS URLs are allowed"
             ∧ 0%nat = 0%nat
    end.
Proof.
  intros url result. split; [reflexivity|].
  apply (downloadImage_guard (H:=Lab.axios) url 0%nat result 0%nat).
  reflexivity.
Defined.

Lemma downloadImage_sound_witness :
  ∃ response,
    axios_get (Axios:=Lab.axios) "https://cdn.example/logo.png" 0%nat
    = (inr response, 1%nat)
    ∧ status response = 200
    ∧ content_type response = Some "image/png"
    ∧ [137; 80; 78; 71; 13; 10; 26; 10; 0; 1] = data response
    ∧ ("image/png" = "image/png"
       ∧ take 8 [137; 80; 78; 71; 13; 10; 26; 10; 0; 1] = Utils.pngMagic
       ∨ "image/png" = "image/jpeg"
         ∧ take 3 [137; 80; 78; 71; 13; 10; 26; 10; 0; 1] = Utils.jpegMagic).
Proof.
  apply (downloadImage_sound (H:=Lab.axios) "https://cdn.example/logo.png"
           0%nat [137; 80; 78; 71; 13; 10; 26; 10; 0; 1] "image/png" 1%nat).
  reflexivity.
Defined.

(** * The handler with the helpers of utils *)

Section with_utils.
Context `{Libraries}.

(** A logo URL whose host is blocked costs no request and does not stop
    the annotation: with fewer than 2^32 pages per questionnaire, and
    codes and footers that can be encoded, the PDF is stamped with the
    codes, without a logo. *)
Theorem annotatePdf_blocked_logo pdfBuffer codes logoUrl pagesCount
    (s : State (H:=utilsCollaborators)) protocol hostname pdfDoc :
  logoUrl ≠ "" →
  URL_parse logoUrl = Some (protocol, hostname) →
  Utils.isPrivateHost hostname = true →
  pdflib_load pdfBuffer = inr pdfDoc →
  pagesCount < 2 ^ 32 →
  (∀ text, text ∈ footerEndText :: footerContinueText :: codes →
           pdflib_encodingError text = None) →
  annotatePdf (H:=utilsCollaborators) pdfBuffer codes logoUrl pagesCount s
  = (inr (pdflib_save pdfDoc None
            (annotationStamps codes pagesCount (pdflib_getPageCount pdfDoc)
               false)),
     {| world := world s; calls := calls s ++ [CallDownloadImage logoUrl] |}).
Proof.
  intros Hurl Hparse Hprivate Hload Hpages Hencode.
  unfold annotatePdf. cbv zeta. rewrite bind_pure_call.
  cbn [PDFDocument_load utilsCollaborators]. rewrite Hload.
  apply String.eqb_neq in Hurl. rewrite Hurl. cbn [negb].
  match goal with
  | |- context [bind _ ?k s] => set (draw := k)
  end.
  assert (draw None
            {| world := world s; calls := calls s ++ [CallDownloadImage logoUrl] |}
          = (inr (pdflib_save pdfDoc None
                    (annotationStamps codes pagesCount
                       (pdflib_getPageCount pdfDoc) false)),
             {| world := world s;
                calls := calls s ++ [CallDownloadImage logoUrl] |}))
    as Hdraw.
  { subst draw. cbv beta.
    rewrite (annotatePdf_drawing (H:=utilsCollaborators)).
    destruct (Z.leb_spec (2 ^ 32) pagesCount); [lia|].
    rewrite andb_false_r.
    rewrite (firstEncodingError_None (H:=utilsCollaborators)) by done.
    done. }
  clearbody draw.
  unfold bind, try_catch, logCall, io, ret. cbn [world calls].
  cbn [downloadImage utilsCollaborators]. unfold Utils.downloadImage.
  rewrite Hparse, Hprivate. by destruct (negb _).
Qed.

End with_utils.

Lemma annotatePdf_blocked_logo_witness :
  annotatePdf (H:=utilsCollaborators (H:=Lab.libraries)) [37; 80; 68; 70; 45]
    ["R1"] "http://172.20.0.1/logo.png" 1 Lab.start
  = (inr ([37; 80; 68; 70; 45] ++ [2]),
     {| world := (0%nat : @World (utilsCollaborators (H:=Lab.libraries)));
        calls := [] ++ [CallDownloadImage "http://172.20.0.1/logo.png"] |}).
Proof.
  apply (annotatePdf_blocked_logo (H:=Lab.libraries) [37; 80; 68; 70; 45]
           ["R1"] "http://172.20.0.1/logo.png" 1 Lab.start
           "http:" "172.20.0.1" [37; 80; 68; 70; 45]);
    [done|reflexivity|reflexivity|reflexivity|lia|].
  intros text Hin. repeat (apply elem_of_cons in Hin as [->|Hin]; [done|]).
  by apply elem_of_nil in Hin.
Defined.


(** * The answers of the handler *)

Section responses.
Context `{Collaborators}.

Local Ltac in_list :=
  cbn; rewrite ?elem_of_cons; repeat (first [left; reflexivity | right]).

Local Ltac status_case :=
  cbn [statusCode badRequest]; split; [in_list|];
  repeat split; intros; destruct_and?; try done; congruence.

(** The ways through the handler. *)
Lemma handler_inv event s outcome s' :
  handler event s = (outcome, s') →
  (httpMethod event = "OPTIONS" ∧ s' = s
   ∧ outcome = Returned {| statusCode := 204; responseBody := EmptyBody |})
  ∨ (httpMethod event ≠ "OPTIONS" ∧ httpMethod event ≠ "POST" ∧ s' = s
     ∧ outcome = Returned {| statusCode := 405;
                             responseBody := Message "Method Not Allowed" |})
  ∨ (httpMethod event = "POST"
     ∧ ((body event = BodyAbsent ∧ s' = s
         ∧ outcome = Returned (badRequest "Request body is missing."))
        ∨ (∃ message, body event = BodyText (inl message) ∧ s' = s
             ∧ outcome = Returned {| statusCode := 500;
                                     responseBody := InternalServerError message |})
        ∨ (∃ message, body event = BodyText (inr JNull) ∧ s' = s
             ∧ outcome = Returned {| statusCode := 500;
                                     responseBody := InternalServerError message |})
        ∨ (∃ requestBody failure,
             body event = BodyText (inr requestBody)
             ∧ validateBody requestBody = inl failure ∧ s' = s
             ∧ outcome = Returned failure)
        ∨ (∃ requestBody request,
             body event = BodyText (inr requestBody)
             ∧ validateBody requestBody = inr request
             ∧ ((req_pagesCount request = NumOther ∧ s' = s
                 ∧ outcome = BeyondIntegers)
                ∨ ∃ pagesCount,
                    req_pagesCount request = NumInt pagesCount
                    ∧ let plan := distributeRespondents
                                    (req_respondenten request)
                                    (req_pdfUrls request) pagesCount in
                      (query_debug event = Some "true" ∧ s' = s
                       ∧ ∃ total perPdf blockSize,
                           outcome
                           = Returned
                               {| statusCode := 200;
                                  responseBody :=
                                    DebugPlan total perPdf pagesCount
                                      blockSize plan |})
                      ∨ (query_debug event ≠ Some "true"
                         ∧ ∃ result,
                             processLive request pagesCount plan s
                             = (result, s')
                             ∧ outcome
                               = match result with
                                 | inr response => Returned response
                                 | inl message =>
                                     Returned
                                       {| statusCode := 500;
                                          responseBody :=
                                            InternalServerError message |}
                                 end))))).
Proof.
  unfold handler. intros Hrun.
  destruct (String.eqb_spec (httpMethod event) "OPTIONS") as [Hopt|Hopt].
  { left. by simplify_eq. }
  right.
  destruct (String.eqb_spec (httpMethod event) "POST") as [Hpost|Hpost];
    simpl in Hrun.
  2: { left. by simplify_eq. }
  right. split; [done|]. unfold handlerTry in Hrun.
  destruct (body event) as [|[message|requestBody]] eqn:Hbody.
  { left. unfold ret in Hrun. by simplify_eq. }
  { right. left. unfold bind, pure_call in Hrun. simplify_eq. by eexists. }
  unfold bind at 1, pure_call at 1 in Hrun.
  assert (requestBody = JNull ∨ requestBody ≠ JNull) as [->|Hnull]
    by (destruct requestBody; [by left|by right..]).
  { right. right. left. unfold throw in Hrun. simplify_eq. by eexists. }
  do 3 right.
  destruct (validateBody requestBody) as [failure|request] eqn:Hvalid.
  { left. exists requestBody, failure.
    destruct requestBody; unfold ret in Hrun; by simplify_eq. }
  right. exists requestBody, request. split; [done|]. split; [done|].
  destruct (req_pagesCount request) as [pagesCount|] eqn:Hpages.
  2: { left. destruct requestBody; unfold ret in Hrun; by simplify_eq. }
  right. exists pagesCount. split; [done|]. cbv zeta.
  destruct (decide (query_debug event = Some "true")) as [Hdebug|Hdebug].
  - left. rewrite bool_decide_eq_true_2 in Hrun by done.
    split; [done|].
    destruct requestBody; unfold ret in Hrun; simplify_eq;
      (split; [done|by eexists _, _, _]).
  - right. rewrite bool_decide_eq_false_2 in Hrun by done.
    split; [done|].
    destruct (processLive request pagesCount _ s) as [result s1] eqn:Hlive.
    exists result.
    destruct requestBody; try done; unfold bind, ret in Hrun;
      rewrite Hlive in Hrun; destruct result; by simplify_eq.
Qed.

(** The status of an answer is one of 200, 204, 400, 405, 413 and 500;
    204 is the answer to OPTIONS and to nothing else, and 405 the answer
    to every method but OPTIONS and POST. *)
Theorem handler_status_codes event s response s' :
  handler event s = (Returned response, s') →
  statusCode response ∈ [200; 204; 400; 405; 413; 500]
  ∧ (statusCode response = 204 ↔ httpMethod event = "OPTIONS")
  ∧ (statusCode response = 405
     ↔ httpMethod event ≠ "OPTIONS" ∧ httpMethod event ≠ "POST").
Proof.
  intros Hrun. apply handler_inv in Hrun
    as [(Hm & Hs & Hout)
       |[(Hm1 & Hm2 & Hs & Hout)
        |(Hm & [(Hbody & Hs & Hout)
               |[(msg & Hbody & Hs & Hout)
                |[(msg & Hbody & Hs & Hout)
                 |[(j & failure & Hbody & Hv & Hs & Hout)
                  |(j & request & Hbody & Hvalid
                    & [(Hp & Hs & Hout)|(p & Hp & Hrun)])]]]])]];
    simplify_eq.
  - status_case.
  - status_case.
  - status_case.
  - status_case.
  - status_case.
  - apply validateBody_failure in Hv as [->|[->| ->]]; status_case.
  - cbv zeta in Hrun.
    destruct Hrun as [(_ & _ & ? & ? & ? & Hout)
                     |(_ & result & Hlive & Hout)]; simplify_eq.
    + status_case.
    + destruct result as [message|r]; simplify_eq; [status_case|].
      apply processLive_inv in Hlive as [[Hs _]|[[Hs _]|[Hs _]]];
        rewrite Hs; status_case.
Qed.

(** A 400 is given only to a POST, before anything is sent, and for one of
    two reasons: the body is missing, or a field fails validation, and then
    the message names the field. *)
Theorem handler_bad_request event s response s' :
  handler event s = (Returned response, s') →
  statusCode response = 400 →
  s' = s
  ∧ httpMethod event = "POST"
  ∧ ((body event = BodyAbsent
      ∧ responseBody response = Message "Request body is missing.")
     ∨ ∃ requestBody,
         body event = BodyText (inr requestBody)
         ∧ validateBody requestBody = inl response
         ∧ responseBody response
           ∈ [ Message "Invalid 'pdfUrls': must be an array of strings.";
               Message "Invalid 'annotate': must be a boolean.";
               Message "Invalid 'metadata' object or its properties." ]).
Proof.
  intros Hrun Hstatus. apply handler_inv in Hrun
    as [(Hm & Hs & Hout)
       |[(Hm1 & Hm2 & Hs & Hout)
        |(Hm & [(Hbody & Hs & Hout)
               |[(msg & Hbody & Hs & Hout)
                |[(msg & Hbody & Hs & Hout)
                 |[(j & failure & Hbody & Hv & Hs & Hout)
                  |(j & request & Hbody & Hvalid
                    & [(Hp & Hs & Hout)|(p & Hp & Hrun)])]]]])]];
    simplify_eq.
  - split; [done|]. split; [done|]. by left.
  - split; [done|]. split; [done|]. right. exists j.
    split; [done|]. split; [done|].
    apply validateBody_failure in Hv as [->|[->| ->]]; in_list.
  - cbv zeta in Hrun.
    destruct Hrun as [(_ & _ & ? & ? & ? & Hout)
                     |(_ & result & Hlive & Hout)]; simplify_eq.
    destruct result as [message|r]; simplify_eq.
    apply processLive_inv in Hlive as [[Hs _]|[[Hs _]|[Hs _]]]; congruence.
Qed.

(** For a request with fewer than 2^32 pages per questionnaire, where the
    distributor does not throw, a 500 with the message Internal Server
    Error has one of four causes: the body is not JSON, the body is
    [null], a PDF of the plan could not be processed (the error names it),
    or the archiver failed.  In the first two cases nothing was sent. *)
Theorem handler_internal_error_causes event s code message s' :
  (∀ requestBody request pagesCount,
     body event = BodyText (inr requestBody) →
     validateBody requestBody = inr request →
     req_pagesCount request = NumInt pagesCount →
     pagesCount < 2 ^ 32) →
  handler event s
  = (Returned {| statusCode := code;
                 responseBody := InternalServerError message |}, s') →
  code = 500
  ∧ httpMethod event = "POST"
  ∧ ((body event = BodyText (inl message) ∧ s' = s)
     ∨ (body event = BodyText (inr JNull) ∧ s' = s)
     ∨ ∃ requestBody request pagesCount,
         body event = BodyText (inr requestBody)
         ∧ validateBody requestBody = inr request
         ∧ req_pagesCount request = NumInt pagesCount
         ∧ query_debug event ≠ Some "true"
         ∧ let plan := distributeRespondents (req_respondenten request)
                         (req_pdfUrls request) pagesCount in
           (∃ planItem reason,
              planItem ∈ plan
              ∧ message = "Failed to process PDF from " +:+ pdfUrl planItem
                          +:+ ". Reason: " +:+ reason)
           ∨ (∃ buffers perFile s1,
                processPlan (req_logoUrl request) pagesCount plan ([], []) s
                = (inr (buffers, perFile), s1)
                ∧ createZip (filesToZip buffers) = inl message)).
Proof.
  intros _ Hrun. apply handler_inv in Hrun
    as [(Hm & Hs & Hout)
       |[(Hm1 & Hm2 & Hs & Hout)
        |(Hm & [(Hbody & Hs & Hout)
               |[(msg & Hbody & Hs & Hout)
                |[(msg & Hbody & Hs & Hout)
                 |[(j & failure & Hbody & Hv & Hs & Hout)
                  |(j & request & Hbody & Hvalid
                    & [(Hp & Hs & Hout)|(p & Hp & Hrun)])]]]])]];
    simplify_eq.
  - do 2 (split; [done|]). by left.
  - do 2 (split; [done|]). right. by left.
  - by apply validateBody_failure in Hv as [?|[?|?]].
  - cbv zeta in Hrun.
    destruct Hrun as [(_ & _ & ? & ? & ? & Hout)
                     |(Hdebug & result & Hlive & Hout)]; simplify_eq.
    apply processLive_inv in Hlive. destruct result as [e|r]; simplify_eq.
    + do 2 (split; [done|]). do 2 right.
      exists j, request, p. do 4 (split; [done|]). cbv zeta.
      destruct Hlive as [Hloop|Hzip]; [left|by right].
      apply processPlan_failure_inv in Hloop
        as (planItem & reason & _ & Hin & -> & _).
      by exists planItem, reason.
    + destruct Hlive as [[_ [? Hb]]|[[_ (? & ? & Hb)]
                                    |[_ (? & ? & ? & ? & ? & ? & Hb)]]];
        simpl in Hb; congruence.
Qed.
End responses.

Lemma handler_status_codes_witness :
  statusCode {| statusCode := 405; responseBody := Message "Method Not Allowed" |}
    ∈ [200; 204; 400; 405; 413; 500]
  ∧ handler (H:=Demo.collaborators)
      {| httpMethod := "GET"; body := BodyAbsent; query_debug := None |}
      Demo.start
    = (Returned {| statusCode := 405;
                   responseBody := Message "Method Not Allowed" |},
       Demo.start).
Proof.
  split; [|reflexivity].
  apply (handler_status_codes (H:=Demo.collaborators)
           {| httpMethod := "GET"; body := BodyAbsent; query_debug := None |}
           Demo.start _ Demo.start eq_refl).
Defined.

Lemma handler_bad_request_witness :
  let event := postEvent (JObj [("pdfUrls", JStr "a.pdf")]) None in
  let response :=
    badRequest "Invalid 'pdfUrls': must be an array of strings." in
  handler (H:=Demo.collaborators) event Demo.start
  = (Returned response, Demo.start)
  ∧ httpMethod event = "POST"
  ∧ ((body event = BodyAbsent
      ∧ responseBody response = Message "Request body is missing.")
     ∨ ∃ requestBody,
         body event = BodyText (inr requestBody)
         ∧ validateBody requestBody = inl response
         ∧ responseBody response
           ∈ [ Message "Invalid 'pdfUrls': must be an array of strings.";
               Message "Invalid 'annotate': must be a boolean.";
               Message "Invalid 'metadata' object or its properties." ]).
Proof.
  intros event response. split; [reflexivity|].
  apply (handler_bad_request (H:=Demo.collaborators) event Demo.start
           response Demo.start); reflexivity.
Defined.

Lemma handler_internal_error_causes_witness :
  let event :=
    postEvent (requestBody ["a.pdf"] true "" (NumInt 4) ["R1"]) None in
  ∃ s',
    handler (H:=Flaky.collaborators false true) event (Flaky.start false true)
    = (Returned {| statusCode := 500;
                   responseBody := InternalServerError "archive failed" |}, s')
    ∧ httpMethod event = "POST".
Proof.
  intros event. eexists. split; [reflexivity|].
  assert (∀ requestBody request pagesCount,
            body event = BodyText (inr requestBody) →
            validateBody requestBody = inr request →
            req_pagesCount request = NumInt pagesCount →
            pagesCount < 2 ^ 32) as Hpages.
  { intros requestBody request pagesCount [= <-] [= <-] [= <-]. lia. }
  destruct (handler_internal_error_causes (H:=Flaky.collaborators false true)
              event (Flaky.start false true) 500 "archive failed" _ Hpages
              eq_refl)
    as (_ & Hpost & _).
  exact Hpost.
Defined.
